(** * planemo.galaxy_config: configuration assembly for an isolated Galaxy

    A shallow embedding of [planemo/galaxy_config.py].  Python values are a
    small tagged union, dictionaries are finite maps with string keys, the
    file system and the event trace are threaded through a state-and-error
    monad, and [string.Template.safe_substitute] is a left-to-right scanner
    over the template. *)

From Stdlib Require Import ZArith Ascii String Lia Bool List.
From stdpp Require Import base option gmap strings list fin_maps pretty.



(** ** Python values *)

Module Py.

(** The values that travel through [kwds], the property dictionary and the
    environment: [None], booleans, integers and strings. *)
Inductive value :=
| PNone
| PBool (b : bool)
| PInt (z : Z)
| PStr (s : string).

#[global] Instance value_eq_dec : EqDecision value.
Proof. solve_decision. Defined.

(** Truth value testing, as [if val:] and [not val] apply it. *)
Definition truthy (v : value) : bool :=
  match v with
  | PNone => false
  | PBool b => b
  | PInt z => negb (Z.eqb z 0)
  | PStr s => negb (String.eqb s "")
  end.

(** ['%s' % (v,)]. *)
Definition str (v : value) : string :=
  match v with
  | PNone => "None"
  | PBool true => "True"
  | PBool false => "False"
  | PInt z => pretty z
  | PStr s => s
  end.

(** Exceptions the module raises or lets through. *)
Inductive exn :=
| UsageError (msg : string)      (* click.UsageError *)
| Exception (msg : string)       (* raise Exception(...) *)
| AttributeError                 (* a path operation applied to a non-string *)
| TypeError                      (* Template(...) over a non-string; an
                                    argument bound twice by a call *)
| KeyError (key : string)        (* d[key] on a missing key *)
| IOError (path : string)        (* open(path, "w") failed *)
| OSError (path : string).       (* mkdtemp or shutil.rmtree failed *)

Inductive result (A : Type) :=
| Ok (a : A)
| Raise (e : exn).
Arguments Ok {A} a.
Arguments Raise {A} e.

(** [d[key]] *)
Definition getitem (d : gmap string value) (key : string) : result value :=
  match d !! key with
  | Some v => Ok v
  | None => Raise (KeyError key)
  end.

Definition is_ok {A} (r : result A) : bool :=
  match r with
  | Ok _ => true
  | Raise _ => false
  end.

(** [d.get(key, default)] *)
Definition get (d : gmap string value) (key : string) (default : value) : value :=
  match d !! key with
  | Some v => v
  | None => default
  end.

(** [f(a, ..., **kwds)]: a key of [kwds] that names a parameter the call
    has already bound gives that parameter two values. *)
Definition splat (bound : list string) (kwds : gmap string value) : result unit :=
  if existsb (fun name => bool_decide (is_Some (kwds !! name))) bound
  then Raise TypeError
  else Ok tt.

End Py.
Import Py.

(** ** Characters and strings *)

Definition dollar : ascii := "$"%char.
Definition dq : string := String "034"%char "".
Definition nl : string := String "010"%char "".

Definition is_lower (c : ascii) : bool :=
  (97 <=? nat_of_ascii c)%nat && (nat_of_ascii c <=? 122)%nat.
Definition is_upper (c : ascii) : bool :=
  (65 <=? nat_of_ascii c)%nat && (nat_of_ascii c <=? 90)%nat.
Definition is_digit (c : ascii) : bool :=
  (48 <=? nat_of_ascii c)%nat && (nat_of_ascii c <=? 57)%nat.

(** [str.upper()] on a byte string: only a-z change. *)
Definition upper_char (c : ascii) : ascii :=
  if is_lower c then ascii_of_nat (nat_of_ascii c - 32) else c.

Fixpoint upper (s : string) : string :=
  match s with
  | "" => ""
  | String c s' => String (upper_char c) (upper s')
  end.

Fixpoint startswith (p s : string) : bool :=
  match p, s with
  | "", _ => true
  | String a p', String b s' => Ascii.eqb a b && startswith p' s'
  | String _ _, "" => false
  end.

Fixpoint endswith_char (c : ascii) (s : string) : bool :=
  match s with
  | "" => false
  | String a "" => Ascii.eqb a c
  | String _ s' => endswith_char c s'
  end.

(** ** [string.Template.safe_substitute]

    The pattern of [string.Template] is, after the delimiter [$]:
    an escaped delimiter, or an identifier [[_a-z][_a-z0-9]*] (case
    insensitive), or a braced identifier, or nothing (an ill-formed
    delimiter).  [re.sub] walks the template left to right and replaces
    every match by what [convert] returns. *)

Module Template.

Definition id_start (c : ascii) : bool :=
  Ascii.eqb c "_"%char || is_lower c || is_upper c.
Definition id_char (c : ascii) : bool := id_start c || is_digit c.

(** Longest run of identifier characters at the head of [s]. *)
Fixpoint span_id (s : string) : string * string :=
  match s with
  | String c s' =>
      if id_char c then let '(i, r) := span_id s' in (String c i, r)
      else ("", s)
  | "" => ("", "")
  end.

(** A mapped key is replaced by its value through ['%s' %]; a missing one
    gives the matched text back. *)
Definition lookup_or (args : gmap string value) (key verbatim : string) : string :=
  match args !! key with
  | Some v => str v
  | None => verbatim
  end.

(** [convert]: [rest] is the text after a delimiter.  The result is the
    replacement of the match and the number of characters of [rest] that
    the match covers. *)
Definition convert (args : gmap string value) (rest : string) : string * nat :=
  match rest with
  | String c r =>
      if Ascii.eqb c dollar then ("$", 1)                       (* escaped *)
      else if id_start c then                                   (* named *)
        let '(i, _) := span_id rest in
        (lookup_or args i ("$" +:+ i), String.length i)
      else if Ascii.eqb c "{"%char then
        match r with
        | String c' _ =>
            if id_start c' then
              let '(i, r') := span_id r in
              if startswith "}" r'                              (* braced *)
              then (lookup_or args i ("${" +:+ i +:+ "}"), 2 + String.length i)
              else ("$", 0)                                     (* invalid *)
            else ("$", 0)
        | "" => ("$", 0)
        end
      else ("$", 0)
  | "" => ("$", 0)
  end.

(** [pattern.sub(convert, template)]: [skip] counts the characters still
    covered by the last match. *)
Fixpoint sub_from (args : gmap string value) (skip : nat) (s : string) : string :=
  match s with
  | "" => ""
  | String c s' =>
      match skip with
      | S n => sub_from args n s'
      | O =>
          if Ascii.eqb c dollar then
            let '(out, n) := convert args s' in out +:+ sub_from args n s'
          else String c (sub_from args 0 s')
      end
  end.

Definition safe_substitute (template : string) (args : gmap string value) : string :=
  sub_from args 0 template.

End Template.

(** [__sub] *)
Definition __sub (template : value) (args : gmap string value) : result string :=
  match template with
  | PNone => Ok ""
  | PStr t => Ok (Template.safe_substitute t args)
  | _ => Raise TypeError
  end.

(** ** [os.path] (posixpath) *)

Module Path.

Definition is_slash (c : ascii) : bool := Ascii.eqb c "/"%char.

Fixpoint has_slash (s : string) : bool :=
  match s with
  | "" => false
  | String c s' => is_slash c || has_slash s'
  end.

Fixpoint all_slashes (s : string) : bool :=
  match s with
  | "" => true
  | String c s' => is_slash c && all_slashes s'
  end.

(** [p[:p.rfind('/') + 1]] *)
Fixpoint head_of (p : string) : string :=
  match p with
  | "" => ""
  | String c p' =>
      if has_slash p' then String c (head_of p')
      else if is_slash c then "/" else ""
  end.

(** [s.rstrip('/')] *)
Fixpoint rstrip_slash (s : string) : string :=
  match s with
  | "" => ""
  | String c s' =>
      let r := rstrip_slash s' in
      if String.eqb r "" && is_slash c then "" else String c r
  end.

Definition isabs (s : string) : bool := startswith "/" s.

Definition join (a b : string) : string :=
  if startswith "/" b then b
  else if String.eqb a "" || endswith_char "/" a then a +:+ b
  else a +:+ "/" +:+ b.

Definition dirname (p : string) : string :=
  let head := head_of p in
  if negb (String.eqb head "") && negb (all_slashes head)
  then rstrip_slash head
  else head.

(** [s.split('/')] *)
Fixpoint split_slash (s : string) : list string :=
  match s with
  | "" => [""]
  | String c s' =>
      if is_slash c then "" :: split_slash s'
      else match split_slash s' with
           | h :: t => String c h :: t
           | [] => [String c ""]
           end
  end.

(** ['/'.join(comps)] *)
Fixpoint join_slash (comps : list string) : string :=
  match comps with
  | [] => ""
  | [c] => c
  | c :: cs => c +:+ "/" +:+ join_slash cs
  end.

(** The loop of [normpath]; [new_comps] is kept last component first. *)
Fixpoint norm_comps (initial_slashes : nat) (comps new_comps : list string) : list string :=
  match comps with
  | [] => rev new_comps
  | comp :: rest =>
      if String.eqb comp "" || String.eqb comp "." then
        norm_comps initial_slashes rest new_comps
      else if negb (String.eqb comp "..")
           || ((initial_slashes =? 0)%nat && match new_comps with [] => true | _ => false end)
           || match new_comps with last :: _ => String.eqb last ".." | [] => false end
      then norm_comps initial_slashes rest (comp :: new_comps)
      else match new_comps with
           | _ :: popped => norm_comps initial_slashes rest popped
           | [] => norm_comps initial_slashes rest new_comps
           end
  end.

Definition normpath (path : string) : string :=
  if String.eqb path "" then "."
  else
    let initial_slashes :=
      if startswith "/" path then
        if startswith "//" path && negb (startswith "///" path) then 2 else 1
      else 0 in
    let path' := join_slash (norm_comps initial_slashes (split_slash path) []) in
    let path' := match initial_slashes with
                 | 0 => path'
                 | 1 => "/" +:+ path'
                 | _ => "//" +:+ path'
                 end in
    if String.eqb path' "" then "." else path'.

Definition abspath (cwd path : string) : string :=
  normpath (if isabs path then path else join cwd path).

End Path.

(** ['fmt' % arg] for a format with a single [%s]. *)
Fixpoint fmt1 (fmt arg : string) : string :=
  match fmt with
  | String "%" (String "s" rest) => arg +:+ rest
  | String c rest => String c (fmt1 rest arg)
  | "" => ""
  end.

(** [sep.join(l)] *)
Fixpoint str_join (sep : string) (l : list string) : string :=
  match l with
  | [] => ""
  | [x] => x
  | x :: xs => x +:+ sep +:+ str_join sep xs
  end.

(** ** The world: file system, trace, and the host's answers *)

Inductive node :=
| Dir
| File (content : string).

Inductive event :=
| EWarn (msg : string)                 (* planemo.io.warn *)
| EMkdtemp (path : string)             (* tempfile.mkdtemp, when it succeeds *)
| EShell (cmd : string)                (* galaxy.tools.deps.commands.shell *)
| EWrite (path content : string)       (* open(path, "w").write(content) *)
| EFetch (url path : string)           (* urlretrieve, when it succeeds *)
| ERmtree (path : string).             (* shutil.rmtree, when it succeeds *)

(** The file system maps absolute normalised paths to nodes. *)
Record world := World {
  fs : gmap string node;
  trace : list event;
}.

(** What the session cannot decide by itself: the working directory of the
    process, the name [mkdtemp] picks and whether it can make the
    directory, which writes succeed, what the download URL serves ([None]:
    the fetch raises), what the installation pipeline does to the file
    system, what is left of a tree whose removal fails ([None]: the removal
    goes through), and the two command strings of [planemo.galaxy_run],
    which this module only splices into a command. *)
Record host := Host {
  getcwd : string;
  tmp_name : string;
  mkdtemp_ok : bool;
  can_write : string -> bool;
  served : option string;
  shell_effect : string -> gmap string node -> gmap string node;
  rmtree_leaves : string -> gmap string node -> option (gmap string node);
  DEACTIVATE_COMMAND : string;
  DOWNLOAD_GALAXY : string;
}.

(** [ctx]: only [ctx.global_config] is read. *)
Record context := Context { global_config : gmap string value }.

Definition M (A : Type) : Type := world -> world * result A.

Definition ret {A} (a : A) : M A := fun w => (w, Ok a).
Definition raise {A} (e : exn) : M A := fun w => (w, Raise e).
Definition lift {A} (r : result A) : M A := fun w => (w, r).
Definition bind {A B} (m : M A) (k : A -> M B) : M B :=
  fun w => match m w with
           | (w', Ok a) => k a w'
           | (w', Raise e) => (w', Raise e)
           end.

Notation "x <~ m ;; k" := (bind m (fun x => k))
  (at level 100, m at level 99, k at level 200, right associativity).
Notation "m ;;; k" := (bind m (fun _ => k))
  (at level 100, k at level 200, right associativity).

(** [try: m finally: cleanup] *)
Definition try_finally {A} (m : M A) (cleanup : M unit) : M A :=
  fun w => match m w with
           | (w1, r) =>
               match cleanup w1 with
               | (w2, Ok _) => (w2, r)
               | (w2, Raise e) => (w2, Raise e)
               end
           end.

(** [try: m except Exception: handler] *)
Definition try_except {A} (m : M A) (handler : M A) : M A :=
  fun w => match m w with
           | (w1, Ok a) => (w1, Ok a)
           | (w1, Raise _) => handler w1
           end.

Definition emit (e : event) : M unit :=
  fun w => (World (fs w) (trace w ++ [e]), Ok tt).

Definition get_fs : M (gmap string node) := fun w => (w, Ok (fs w)).
Definition set_fs (f : gmap string node) : M unit :=
  fun w => (World f (trace w), Ok tt).

Section os.
Variable h : host.

Definition abspath (path : string) : string := Path.abspath (getcwd h) path.

Definition exists_in (f : gmap string node) (path : string) : bool :=
  match f !! abspath path with Some _ => true | None => false end.
Definition isdir_in (f : gmap string node) (path : string) : bool :=
  match f !! abspath path with Some Dir => true | _ => false end.
Definition isfile_in (f : gmap string node) (path : string) : bool :=
  match f !! abspath path with Some (File _) => true | _ => false end.

Definition os_path_exists (path : string) : M bool :=
  f <~ get_fs ;; ret (exists_in f path).
Definition os_path_isdir (path : string) : M bool :=
  f <~ get_fs ;; ret (isdir_in f path).

(** [os.path.abspath] and [os.path.join] want strings. *)
Definition os_path_abspath (v : value) : result string :=
  match v with
  | PStr s => Ok (abspath s)
  | _ => Raise AttributeError
  end.
Definition os_path_join (a : value) (b : string) : result string :=
  match a with
  | PStr s => Ok (Path.join s b)
  | _ => Raise AttributeError
  end.

(** [open(path, "w").write(content)] *)
Definition write_file (path content : string) : M unit :=
  if can_write h path then
    f <~ get_fs ;;
    set_fs (<[abspath path := File content]> f) ;;;
    emit (EWrite path content)
  else raise (IOError path).

(** [urlretrieve(url, path)] *)
Definition urlretrieve (url path : string) : M unit :=
  match served h with
  | Some content =>
      if can_write h path then
        f <~ get_fs ;;
        set_fs (<[abspath path := File content]> f) ;;;
        emit (EFetch url path)
      else raise (IOError path)
  | None => raise (IOError url)
  end.

(** [mkdtemp()]: it raises when the host cannot make the directory. *)
Definition mkdtemp : M string :=
  if mkdtemp_ok h then
    f <~ get_fs ;;
    set_fs (<[abspath (tmp_name h) := Dir]> f) ;;;
    emit (EMkdtemp (tmp_name h)) ;;;
    ret (tmp_name h)
  else raise (OSError (tmp_name h)).

(** [p] is [d] or lies below it. *)
Definition under (d p : string) : bool :=
  String.eqb p d
  || startswith (if endswith_char "/" d then d else d +:+ "/") p.

(** [shutil.rmtree(path)]: it raises when [path] is not a directory, and
    when the host cannot remove all of the tree. *)
Definition rmtree (path : string) : M unit :=
  f <~ get_fs ;;
  if isdir_in f path then
    match rmtree_leaves h path f with
    | None =>
        set_fs (filter (fun kv => under (abspath path) kv.1 = false) f) ;;;
        emit (ERmtree path)
    | Some remains => set_fs remains ;;; raise (OSError path)
    end
  else raise (OSError path).

(** [commands.shell(cmd)] *)
Definition shell (cmd : string) : M unit :=
  f <~ get_fs ;;
  set_fs (shell_effect h cmd f) ;;;
  emit (EShell cmd).

Definition warn (msg : string) : M unit := emit (EWarn msg).
End os.

(** ** Module constants *)

Definition NO_TEST_DATA_MESSAGE : string :=
  "planemo couldn't find a target test-data directory, you should likely "
  +:+ "create a test-data directory of pass an explicit path using --test-data.".

Definition WEB_SERVER_CONFIG_TEMPLATE : string :=
  nl +:+ "[server:main]" +:+ nl
  +:+ "use = egg:Paste#http" +:+ nl
  +:+ "port = ${port}" +:+ nl
  +:+ "host = ${host}" +:+ nl
  +:+ "use_threadpool = True" +:+ nl
  +:+ "threadpool_kill_thread_limit = 10800" +:+ nl
  +:+ "[app:main]" +:+ nl
  +:+ "paste.app_factory = galaxy.web.buildapp:app_factory" +:+ nl.

Definition TOOL_CONF_TEMPLATE : string :=
  "<toolbox>" +:+ nl
  +:+ "  <section id=" +:+ dq +:+ "data_source" +:+ dq
  +:+ " name=" +:+ dq +:+ "Data Source" +:+ dq +:+ ">" +:+ nl
  +:+ "    <tool file=" +:+ dq +:+ "data_source/upload.xml" +:+ dq +:+ " />" +:+ nl
  +:+ "  </section>" +:+ nl
  +:+ "  <section id=" +:+ dq +:+ "testing" +:+ dq
  +:+ " name=" +:+ dq +:+ "Test Tools" +:+ dq +:+ ">" +:+ nl
  +:+ "    ${tool_definition}" +:+ nl
  +:+ "  </section>" +:+ nl
  +:+ "</toolbox>" +:+ nl.

Definition EMPTY_JOB_METRICS_TEMPLATE : string :=
  "<?xml version=" +:+ dq +:+ "1.0" +:+ dq +:+ "?>" +:+ nl
  +:+ "<job_metrics>" +:+ nl
  +:+ "</job_metrics>" +:+ nl.

Definition BREW_DEPENDENCY_RESOLUTION_CONF : string :=
  "<dependency_resolvers>" +:+ nl
  +:+ "  <homebrew />" +:+ nl
  +:+ "  <!--" +:+ nl
  +:+ "  <homebrew versionless=" +:+ dq +:+ "true" +:+ dq +:+ " />" +:+ nl
  +:+ "  -->" +:+ nl
  +:+ "</dependency_resolvers>" +:+ nl.

Definition SHED_BREW_DEPENDENCY_RESOLUTION_CONF : string :=
  "<dependency_resolvers>" +:+ nl
  +:+ "  <tool_shed_tap />" +:+ nl
  +:+ "</dependency_resolvers>" +:+ nl.

(** Shortcuts for the stock dependency resolution strategies. *)
Definition STOCK_DEPENDENCY_RESOLUTION_STRATEGIES : list (string * string) :=
  [ ("brew_dependency_resolution", BREW_DEPENDENCY_RESOLUTION_CONF);
    ("shed_brew_dependency_resolution", SHED_BREW_DEPENDENCY_RESOLUTION_CONF) ].

Definition EMPTY_TOOL_CONF_TEMPLATE : string := "<toolbox></toolbox>".

Definition DOWNLOADS_URL : string :=
  "https://github.com/jmchilton/galaxy-downloads/raw/master/".
Definition DATABASE_TEMPLATE_URL : string := DOWNLOADS_URL +:+ "db_gx_rev_0120.sqlite".

Definition FAILED_TO_FIND_GALAXY_EXCEPTION : string :=
  "Failed to find Galaxy root directory - please explicitly specify one "
  +:+ "with --galaxy_root.".

Record GalaxyConfig := mkGalaxyConfig {
  galaxy_root : value;
  config_directory : value;
  env : gmap string value;
  test_data_dir : value;
}.

(** The locals of [galaxy_config] at the [yield]. *)
Record assembled := Assembled {
  yielded : GalaxyConfig;
  properties : gmap string value;
  template_args : gmap string value;
}.

Definition of_option (o : option string) : value :=
  match o with
  | Some s => PStr s
  | None => PNone
  end.

(** ** Helpers that do not touch the world *)

(** [__handle_kwd_overrides]: the property dictionary after the loop. *)
Definition kwds_gx_properties : list string :=
  [ "job_config_file";
    "job_metrics_config_file";
    "dependency_resolvers_config_file";
    "tool_dependency_dir" ].

Definition __handle_kwd_overrides (properties kwds : gmap string value)
  : gmap string value :=
  foldl (fun properties prop =>
           let val := get kwds prop PNone in
           if truthy val then <[prop := val]> properties else properties)
        properties kwds_gx_properties.

(** [__build_env_for_galaxy] *)
Definition __build_env_for_galaxy (properties template_args : gmap string value)
  : result (gmap string value) :=
  map_fold (fun key value acc =>
              match acc with
              | Ok env =>
                  let var := fmt1 "GALAXY_CONFIG_OVERRIDE_%s" (upper key) in
                  match __sub value template_args with
                  | Ok value => Ok (<[var := PStr value]> env)
                  | Raise e => Raise e
                  end
              | Raise e => Raise e
              end)
           (Ok ∅) properties.

(** [__build_test_env]: the environment after the loop. *)
Definition test_property_variants : list (string * string) :=
  [ ("GALAXY_TEST_MIGRATED_TOOL_CONF", "migrated_tools_config");
    ("GALAXY_TEST_SHED_TOOL_CONF", "migrated_tools_config");
    ("GALAXY_TEST_TOOL_CONF", "tool_config_file");
    ("GALAXY_TEST_FILE_DIR", "test_data_dir");
    ("GALAXY_TOOL_DEPENDENCY_DIR", "tool_dependency_dir") ].

Definition __build_test_env (properties env : gmap string value)
  : gmap string value :=
  foldl (fun env '(test_key, gx_key) =>
           let value := get properties gx_key PNone in
           if decide (value = PNone) then env else <[test_key := value]> env)
        env test_property_variants.

(** The [template_args] dictionary of [galaxy_config]. *)
Definition make_template_args (kwds : gmap string value) (config_directory : value)
    (database_location tool_definition tool_path tool_conf : string)
  : gmap string value :=
  list_to_map
    [ ("port", get kwds "port" (PInt 9090));
      ("host", PStr "127.0.0.1");
      ("temp_directory", config_directory);
      ("database_location", PStr database_location);
      ("tool_definition", PStr (fmt1 tool_definition tool_path));
      ("tool_conf", PStr tool_conf);
      ("debug", get kwds "debug" (PStr "true"));
      ("master_api_key", get kwds "master_api_key" (PStr "test_key"));
      ("id_secret", get kwds "id_secret" (PStr "test_secret"));
      ("log_level", get kwds "log_level" (PStr "DEBUG")) ].

(** The [properties] dictionary literal of [galaxy_config]. *)
Definition make_properties (tool_conf : string) (tool_data_table : value)
    (empty_tool_conf : string) (test_data_dir : value) : gmap string value :=
  list_to_map
    [ ("file_path", PStr "${temp_directory}files");
      ("new_file_path", PStr "${temp_directory}/tmp");
      ("tool_config_file", PStr tool_conf);
      ("check_migrate_tools", PStr "False");
      ("manage_dependency_relationships", PStr "False");
      ("job_working_directory", PStr "${temp_directory}/job_working_directory");
      ("template_cache_path", PStr "${temp_directory}/compiled_templates");
      ("citation_cache_type", PStr "file");
      ("citation_cache_data_dir", PStr "${temp_directory}/citations/data");
      ("citation_cache_lock_dir", PStr "${temp_directory}/citations/lock");
      ("collect_outputs_from", PStr "job_working_directory");
      ("database_auto_migrate", PStr "True");
      ("cleanup_job", PStr "never");
      ("master_api_key", PStr "${master_api_key}");
      ("id_secret", PStr "${id_secret}");
      ("log_level", PStr "${log_level}");
      ("debug", PStr "${debug}");
      ("tool_data_table_config_path", tool_data_table);
      ("integrated_tool_panel_config",
        PStr ("${temp_directory}/" +:+ "integrated_tool_panel_conf.xml"));
      ("amqp_internal_connection", PStr "sqlalchemy+sqlite://");
      ("migrated_tools_config", PStr empty_tool_conf);
      ("test_data_dir", test_data_dir) ].

(** Properties as they stand when the environment is built: the literal,
    the database connection outside tests, then the overrides. *)
Definition final_properties (for_tests : bool) (kwds : gmap string value)
    (tool_conf : string) (tool_data_table : value)
    (empty_tool_conf : string) (test_data_dir : value) : gmap string value :=
  let properties := make_properties tool_conf tool_data_table empty_tool_conf test_data_dir in
  let properties :=
    if negb for_tests
    then <["database_connection" :=
             PStr "sqlite:///${database_location}?isolation_level=IMMEDIATE"]> properties
    else properties in
  __handle_kwd_overrides properties kwds.

(** The environment of the yielded [GalaxyConfig]. *)
Definition final_env (properties template_args : gmap string value)
    (preseeded_database : bool) : result (gmap string value) :=
  match __build_env_for_galaxy properties template_args with
  | Ok env =>
      let env := __build_test_env properties env in
      let env := if preseeded_database
                 then <["GALAXY_TEST_DB_TEMPLATE" := PStr DATABASE_TEMPLATE_URL]> env
                 else env in
      Ok (<["GALAXY_TEST_UPLOAD_ASYNC" := PStr "false"]> env)
  | Raise e => Raise e
  end.

(** ** The functions of the module *)

Section galaxy_config.
Variable h : host.

(** The [while True] loop of [__find_galaxy_root].  [dirname] never
    lengthens a path and the loop stops when it no longer shortens it, so
    one more round than the path has characters is enough; [None] stands
    for a loop that would need more rounds than [fuel]. *)
Fixpoint find_root_loop (f : gmap string node) (fuel : nat) (par_dir : string)
  : option (option string) :=
  match fuel with
  | O => None
  | S fuel' =>
      let run := Path.join par_dir "run.sh" in
      let config := Path.join par_dir "config" in
      if isfile_in h f run && isdir_in h f config then Some (Some par_dir)
      else
        let new_par_dir := Path.dirname par_dir in
        if String.eqb new_par_dir par_dir then Some None
        else find_root_loop f fuel' new_par_dir
  end.

Definition find_galaxy_root_in (f : gmap string node) (ctx : context)
    (kwds : gmap string value) : result value :=
  let galaxy_root := get kwds "galaxy_root" PNone in
  if truthy galaxy_root then Ok galaxy_root
  else if truthy (get (global_config ctx) "galaxy_root" PNone)
  then getitem (global_config ctx) "galaxy_root"
  else
    match find_root_loop f (S (String.length (getcwd h))) (getcwd h) with
    | Some (Some par_dir) => Ok (PStr par_dir)
    | _ => Raise (Exception FAILED_TO_FIND_GALAXY_EXCEPTION)
    end.

Definition __find_galaxy_root (ctx : context) (kwds : gmap string value) : M value :=
  f <~ get_fs ;; lift (find_galaxy_root_in f ctx kwds).

(** The [for possible_dir in possible_dirs] loop. *)
Fixpoint search_dirs (f : gmap string node) (target : string)
    (possible_dirs : list string) : option string :=
  match possible_dirs with
  | [] => None
  | possible_dir :: rest =>
      let possible_path := Path.join possible_dir target in
      if exists_in h f possible_path then Some (abspath h possible_path)
      else search_dirs f target rest
  end.

Definition search_tool_path_in (f : gmap string node) (path target : string)
    (extra_paths : list string) : option string :=
  let tool_dir := if negb (isdir_in h f path) then Path.dirname path else path in
  let possible_dirs := [tool_dir; "."] ++ extra_paths in
  search_dirs f target possible_dirs.

Definition __search_tool_path_for (path target : string) (extra_paths : list string)
  : M (option string) :=
  f <~ get_fs ;; ret (search_tool_path_in f path target extra_paths).

Definition __find_test_data (path : string) (kwds : gmap string value)
  : M (option string) :=
  let test_data := get kwds "test_data" PNone in
  if truthy test_data then
    p <~ lift (os_path_abspath h test_data) ;; ret (Some p)
  else
    test_data <~ __search_tool_path_for path "test-data" [] ;;
    if truthy (of_option test_data) then ret test_data
    else warn NO_TEST_DATA_MESSAGE ;;; ret None.

Definition __find_tool_data_table (path : string) (test_data_dir : option string)
    (kwds : gmap string value) : M (option string) :=
  let tool_data_table := get kwds "tool_data_table" PNone in
  if truthy tool_data_table then
    p <~ lift (os_path_abspath h tool_data_table) ;; ret (Some p)
  else
    __search_tool_path_for path "tool_data_table_conf.xml.test"
      (match test_data_dir with
       | Some d => if truthy (PStr d) then [d] else []
       | None => []
       end).

Definition __tool_conf_entry_for (tool_path : string) : M string :=
  d <~ os_path_isdir h tool_path ;;
  ret (if d
       then "<tool_dir dir=" +:+ dq +:+ "%s" +:+ dq +:+ " />"
       else "<tool file=" +:+ dq +:+ "%s" +:+ dq +:+ " />").

Definition __install_galaxy_if_needed (config_directory : value)
    (kwds : gmap string value) : M bool :=
  if truthy (get kwds "install_galaxy" PNone) then
    let install_cmds :=
      [ DEACTIVATE_COMMAND h;
        fmt1 "cd %s" (str config_directory);
        DOWNLOAD_GALAXY h;
        "tar -zxvf master | tail";
        "cd galaxy-central-master";
        "virtualenv .venv";
        ". .venv/bin/activate; sh scripts/common_startup.sh" ] in
    shell h (str_join ";" install_cmds) ;;;
    ret true
  else ret false.

Definition resolutions_strategies : list string :=
  [ "brew_dependency_resolution";
    "dependency_resolvers_config_file";
    "shed_brew_dependency_resolution" ].

(** The counting loop. *)
Definition selected_strategies (kwds : gmap string value) : nat :=
  foldl (fun selected key =>
           if truthy (get kwds key PNone) then selected + 1 else selected)
        0 resolutions_strategies.

(** The loop over the stock strategies; [kwds] is updated in place. *)
Fixpoint write_stock_strategies (config_directory : value)
    (strategies : list (string * string)) (kwds : gmap string value)
  : M (gmap string value) :=
  match strategies with
  | [] => ret kwds
  | (key, conf_contents) :: rest =>
      if truthy (get kwds key PNone) then
        resolvers_conf <~ lift (os_path_join config_directory "resolvers_conf.xml") ;;
        write_file h resolvers_conf conf_contents ;;;
        let dependency_dir := Path.join "config_directory" "deps" in
        let kwds := <["tool_dependency_dir" := PStr dependency_dir]> kwds in
        let kwds := <["dependency_resolvers_config_file" := PStr resolvers_conf]> kwds in
        write_stock_strategies config_directory rest kwds
      else write_stock_strategies config_directory rest kwds
  end.

Definition __handle_dependency_resolution (config_directory : value)
    (kwds : gmap string value) : M (gmap string value) :=
  if (1 <? selected_strategies kwds)%nat then
    let message := "At most one option from [%s] may be specified" in
    raise (UsageError
             (fmt1 message
                "['brew_dependency_resolution', 'dependency_resolvers_config_file', 'shed_brew_dependency_resolution']"))
  else
    write_stock_strategies config_directory STOCK_DEPENDENCY_RESOLUTION_STRATEGIES kwds.

Definition __handle_job_metrics (config_directory : value)
    (kwds : gmap string value) : M (gmap string value) :=
  metrics_conf <~ lift (os_path_join config_directory "job_metrics_conf.xml") ;;
  write_file h metrics_conf EMPTY_JOB_METRICS_TEMPLATE ;;;
  ret (<["job_metrics_config_file" := PStr metrics_conf]> kwds).

(** What [galaxy_config] knows when it enters its [try] block. *)
Record locals := Locals {
  l_test_data_dir : option string;
  l_tool_data_table : option string;
  l_galaxy_root : value;
  l_config_directory : value;
  l_created_config_directory : bool;
}.

(** [galaxy_config] up to the [try].  The call itself binds [ctx],
    [tool_path] and [for_tests]; [__find_test_data(tool_path, **kwds)] binds
    [path], [__find_tool_data_table(tool_path, test_data_dir=..., **kwds)]
    binds [path] and [test_data_dir], and [__find_galaxy_root(ctx, **kwds)]
    binds [ctx]. *)
Definition setup (ctx : context) (tool_path : string) (kwds : gmap string value)
  : M locals :=
  lift (splat ["ctx"; "tool_path"; "for_tests"] kwds) ;;;
  test_data_dir <~ (lift (splat ["path"] kwds) ;;;
                    __find_test_data tool_path kwds) ;;
  tool_data_table <~ (lift (splat ["path"; "test_data_dir"] kwds) ;;;
                      __find_tool_data_table tool_path test_data_dir kwds) ;;
  galaxy_root <~ (if truthy (get kwds "install_galaxy" PNone) then ret PNone
                  else lift (splat ["ctx"] kwds) ;;;
                       __find_galaxy_root ctx kwds) ;;
  let config_directory := get kwds "config_directory" PNone in
  if negb (truthy config_directory) then
    config_directory <~ mkdtemp h ;;
    ret (Locals test_data_dir tool_data_table galaxy_root (PStr config_directory) true)
  else
    ret (Locals test_data_dir tool_data_table galaxy_root config_directory false).

(** The body of the [try], up to the [yield]: the yielded tuple, with the
    [properties] and [template_args] dictionaries it was built from. *)
Definition assemble (tool_path : string) (for_tests : bool)
    (kwds : gmap string value) (l : locals) : M assembled :=
  let config_directory := l_config_directory l in
  let config_join := os_path_join config_directory in
  installed <~ __install_galaxy_if_needed config_directory kwds ;;
  galaxy_root <~ (if installed
                  then p <~ lift (config_join "galaxy-central-master") ;; ret (PStr p)
                  else ret (l_galaxy_root l)) ;;
  kwds <~ __handle_dependency_resolution config_directory kwds ;;
  kwds <~ __handle_job_metrics config_directory kwds ;;
  tool_definition <~ __tool_conf_entry_for tool_path ;;
  empty_tool_conf <~ lift (config_join "empty_tool_conf.xml") ;;
  tool_conf <~ lift (config_join "tool_conf.xml") ;;
  database_location <~ lift (config_join "galaxy.sqlite") ;;
  preseeded_database <~
    try_except (urlretrieve h DATABASE_TEMPLATE_URL database_location ;;; ret true)
               (ret false) ;;
  let template_args :=
    make_template_args kwds config_directory database_location
      tool_definition tool_path tool_conf in
  let properties :=
    final_properties for_tests kwds tool_conf (of_option (l_tool_data_table l))
      empty_tool_conf (of_option (l_test_data_dir l)) in
  env <~ lift (final_env properties template_args preseeded_database) ;;
  web_config <~ lift (__sub (PStr WEB_SERVER_CONFIG_TEMPLATE) template_args) ;;
  galaxy_ini <~ lift (config_join "galaxy.ini") ;;
  write_file h galaxy_ini web_config ;;;
  tool_conf_contents <~ lift (__sub (PStr TOOL_CONF_TEMPLATE) template_args) ;;
  write_file h tool_conf tool_conf_contents ;;;
  write_file h empty_tool_conf EMPTY_TOOL_CONF_TEMPLATE ;;;
  ret (Assembled
         (mkGalaxyConfig galaxy_root config_directory env (of_option (l_test_data_dir l)))
         properties template_args).

(** The [finally] clause. *)
Definition cleanup (l : locals) : M unit :=
  if l_created_config_directory l then
    match l_config_directory l with
    | PStr d => rmtree h d
    | _ => raise AttributeError
    end
  else ret tt.

(** [with galaxy_config(ctx, tool_path, for_tests, **kwds) as config: body] *)
Definition galaxy_config {B} (ctx : context) (tool_path : string) (for_tests : bool)
    (kwds : gmap string value) (body : GalaxyConfig -> M B) : M B :=
  l <~ setup ctx tool_path kwds ;;
  try_finally (a <~ assemble tool_path for_tests kwds l ;; body (yielded a)) (cleanup l).

End galaxy_config.

(** ** Vocabulary of the statements *)

(** [key] is an identifier of the template pattern. *)
Fixpoint all_id_chars (s : string) : bool :=
  match s with
  | "" => true
  | String c s' => Template.id_char c && all_id_chars s'
  end.

Definition is_identifier (key : string) : bool :=
  match key with
  | String c s' => Template.id_start c && all_id_chars s'
  | "" => false
  end.

(** Number of [$] characters that end [s]. *)
Fixpoint trailing_dollars (s : string) : nat :=
  match s with
  | "" => 0
  | String c s' =>
      if Ascii.eqb c dollar && (trailing_dollars s' =? String.length s')%nat
      then S (trailing_dollars s')
      else trailing_dollars s'
  end.

(** [s[n:]] *)
Fixpoint drop_str (n : nat) (s : string) : string :=
  match n, s with
  | O, _ => s
  | S n', String _ s' => drop_str n' s'
  | S _, "" => ""
  end.

(** The text after a [$] is a braced identifier that [args] does not map. *)
Definition opens_unmapped (args : gmap string value) (rest : string) : bool :=
  match rest with
  | String c r =>
      Ascii.eqb c "{"%char
      && let '(i, r') := Template.span_id r in
         is_identifier i && startswith "}" r'
         && match args !! i with Some _ => false | None => true end
  | "" => false
  end.

(** Every [$] of [s] opens a braced placeholder whose key [args] lacks;
    a string without [$] is the simplest case. *)
Fixpoint settled (args : gmap string value) (s : string) : bool :=
  match s with
  | "" => true
  | String c s' =>
      (if Ascii.eqb c dollar then opens_unmapped args s' else true)
      && settled args s'
  end.

(** [s] has no delimiter. *)
Fixpoint no_dollar (s : string) : bool :=
  match s with
  | "" => true
  | String c s' => negb (Ascii.eqb c dollar) && no_dollar s'
  end.

(** Number of delimiters in [s]. *)
Fixpoint count_dollars (s : string) : nat :=
  match s with
  | "" => 0
  | String c s' => (if Ascii.eqb c dollar then 1 else 0) + count_dollars s'
  end.

(** The placeholder that the text after a delimiter opens: its key and the
    text of the whole match, [$key] or [${key}]. *)
Definition placeholder (rest : string) : option (string * string) :=
  match rest with
  | String c r =>
      if Template.id_start c then
        let '(i, _) := Template.span_id rest in Some (i, "$" +:+ i)
      else if Ascii.eqb c "{"%char then
        match r with
        | String c' _ =>
            if Template.id_start c' then
              let '(i, r') := Template.span_id r in
              if startswith "}" r' then Some (i, "${" +:+ i +:+ "}") else None
            else None
        | "" => None
        end
      else None
  | "" => None
  end.

(** A delimiter followed by [rest] is kept by a pass with [args]: it is not
    the first half of an escape, and the placeholder it opens, if any, has a
    key that [args] lacks or maps to the placeholder's own text. *)
Definition keeps (args : gmap string value) (rest : string) : bool :=
  negb (startswith "$" rest)
  && match placeholder rest with
     | Some (key, text) =>
         match args !! key with
         | Some v => String.eqb (str v) text
         | None => true
         end
     | None => true
     end.

(** Every [$] of [s] is kept by a pass with [args]. *)
Fixpoint stable (args : gmap string value) (s : string) : bool :=
  match s with
  | "" => true
  | String c s' =>
      (if Ascii.eqb c dollar then keeps args s' else true)
      && stable args s'
  end.

(** [r] is empty or starts with the delimiter. *)
Definition clean_start (r : string) : bool :=
  match r with
  | "" => true
  | String c _ => Ascii.eqb c dollar
  end.

(** [n] delimiters in a row. *)
Fixpoint dollars (n : nat) : string :=
  match n with
  | O => ""
  | S n' => String dollar (dollars n')
  end.

(** The [n]-th ancestor that the walk of [__find_galaxy_root] visits. *)
Definition ancestor (n : nat) (p : string) : string := Nat.iter n Path.dirname p.

(** [par_dir] holds a [run.sh] file and a [config] directory. *)
Definition is_galaxy_root (h : host) (f : gmap string node) (par_dir : string) : bool :=
  isfile_in h f (Path.join par_dir "run.sh")
  && isdir_in h f (Path.join par_dir "config").


Definition is_rmtree (e : event) : bool :=
  match e with
  | ERmtree _ => true
  | _ => false
  end.

(** [w'] has the trace of [w] followed by events that all satisfy [P]. *)
Definition extends (P : event -> bool) (w w' : world) : Prop :=
  exists evs, trace w' = trace w ++ evs /\ forallb P evs = true.

(** Whatever the world, [m] only adds events that satisfy [P]. *)
Definition appends {A} (P : event -> bool) (m : M A) : Prop :=
  forall w, extends P w (m w).1.


Definition not_rmtree (e : event) : bool := negb (is_rmtree e).
Definition is_warn (e : event) : bool :=
  match e with
  | EWarn _ => true
  | _ => false
  end.

(** An option usable where a path is wanted: unset, falsy, or a string. *)
Definition path_option (kwds : gmap string value) (key : string) : bool :=
  match get kwds key PNone with
  | PStr _ => true
  | v => negb (truthy v)
  end.

(** [s] has no upper-case letter. *)
Fixpoint no_upper (s : string) : bool :=
  match s with
  | "" => true
  | String c s' => negb (is_upper c) && no_upper s'
  end.

(** The name under which the property [key] is exported. *)
Definition override_var (key : string) : string :=
  "GALAXY_CONFIG_OVERRIDE_" +:+ upper key.

(** The session up to its [yield], without the [finally] clause. *)
Definition enter (h : host) (ctx : context) (tool_path : string) (for_tests : bool)
    (kwds : gmap string value) : M assembled :=
  l <~ setup h ctx tool_path kwds ;; assemble h tool_path for_tests kwds l.

(** The names that [galaxy_config] and the functions it calls with
    [**kwds] bind themselves: none of them may be a key of [kwds]. *)
Definition reserved_names : list string :=
  ["ctx"; "tool_path"; "for_tests"; "path"; "test_data_dir"].

(** The directory the session works in. *)
Definition working_directory (h : host) (kwds : gmap string value) : value :=
  if truthy (get kwds "config_directory" PNone)
  then get kwds "config_directory" PNone
  else PStr (tmp_name h).



(** A stock strategy is selected. *)
Definition stock_selected (kwds : gmap string value) : bool :=
  existsb (fun s => truthy (get kwds s.1 PNone)) STOCK_DEPENDENCY_RESOLUTION_STRATEGIES.

(** Events that neither create nor remove a directory. *)
Definition keeps_dirs (e : event) : bool :=
  match e with
  | EMkdtemp _ | ERmtree _ => false
  | _ => true
  end.

(** ** Vocabulary of the further properties *)

(** The stock resolver files a run of the loop writes, in order. *)
Definition stock_writes (cd : string) (strategies : list (string * string))
    (kwds : gmap string value) : list event :=
  flat_map (fun s : string * string =>
              if truthy (get kwds s.1 PNone)
              then [EWrite (Path.join cd "resolvers_conf.xml") s.2]
              else [])
           strategies.

(** The download of the database template goes through. *)
Definition fetch_succeeds (h : host) (path : string) : bool :=
  match served h with
  | Some _ => can_write h path
  | None => false
  end.

(** The command line of the installation pipeline. *)
Definition install_command (h : host) (cd : string) : string :=
  DEACTIVATE_COMMAND h +:+ ";cd " +:+ cd +:+ ";" +:+ DOWNLOAD_GALAXY h
  +:+ ";tar -zxvf master | tail;cd galaxy-central-master;"
  +:+ "virtualenv .venv;. .venv/bin/activate; sh scripts/common_startup.sh".

(** The two formats of [__tool_conf_entry_for]. *)
Definition tool_dir_entry : string := "<tool_dir dir=" +:+ dq +:+ "%s" +:+ dq +:+ " />".
Definition tool_file_entry : string := "<tool file=" +:+ dq +:+ "%s" +:+ dq +:+ " />".

(** The events of the [try] block of a session that reaches its [yield]
    in the directory [cd], from the template arguments it used. *)
Definition assemble_events (h : host) (cd : string) (kwds template_args : gmap string value)
  : list event :=
  (if truthy (get kwds "install_galaxy" PNone) then [EShell (install_command h cd)] else [])
  ++ stock_writes cd STOCK_DEPENDENCY_RESOLUTION_STRATEGIES kwds
  ++ [EWrite (Path.join cd "job_metrics_conf.xml") EMPTY_JOB_METRICS_TEMPLATE]
  ++ (if fetch_succeeds h (Path.join cd "galaxy.sqlite")
      then [EFetch DATABASE_TEMPLATE_URL (Path.join cd "galaxy.sqlite")] else [])
  ++ [EWrite (Path.join cd "galaxy.ini")
             (Template.safe_substitute WEB_SERVER_CONFIG_TEMPLATE template_args);
      EWrite (Path.join cd "tool_conf.xml")
             (Template.safe_substitute TOOL_CONF_TEMPLATE template_args);
      EWrite (Path.join cd "empty_tool_conf.xml") EMPTY_TOOL_CONF_TEMPLATE].

(** [post] cannot continue an identifier. *)
Definition ends_name (post : string) : bool :=
  match post with
  | "" => true
  | String c _ => negb (Template.id_char c)
  end.

Definition is_template (v : value) : bool :=
  match v with
  | PNone | PStr _ => true
  | _ => false
  end.

(** The generated [galaxy.ini] for a port. *)
Definition galaxy_ini_contents (port : string) : string :=
  nl +:+ "[server:main]" +:+ nl
  +:+ "use = egg:Paste#http" +:+ nl
  +:+ "port = " +:+ port +:+ nl
  +:+ "host = 127.0.0.1" +:+ nl
  +:+ "use_threadpool = True" +:+ nl
  +:+ "threadpool_kill_thread_limit = 10800" +:+ nl
  +:+ "[app:main]" +:+ nl
  +:+ "paste.app_factory = galaxy.web.buildapp:app_factory" +:+ nl.

(** The generated [tool_conf.xml] around the entry of the tool. *)
Definition tool_conf_contents (entry : string) : string :=
  "<toolbox>" +:+ nl
  +:+ "  <section id=" +:+ dq +:+ "data_source" +:+ dq
  +:+ " name=" +:+ dq +:+ "Data Source" +:+ dq +:+ ">" +:+ nl
  +:+ "    <tool file=" +:+ dq +:+ "data_source/upload.xml" +:+ dq +:+ " />" +:+ nl
  +:+ "  </section>" +:+ nl
  +:+ "  <section id=" +:+ dq +:+ "testing" +:+ dq
  +:+ " name=" +:+ dq +:+ "Test Tools" +:+ dq +:+ ">" +:+ nl
  +:+ "    " +:+ entry +:+ nl
  +:+ "  </section>" +:+ nl
  +:+ "</toolbox>" +:+ nl.

(** The host lets the session write each file it generates in [cd]. *)
Definition writes_permitted (h : host) (cd : string) (kwds : gmap string value) : bool :=
  (negb (stock_selected kwds) || can_write h (Path.join cd "resolvers_conf.xml"))
  && can_write h (Path.join cd "job_metrics_conf.xml")
  && can_write h (Path.join cd "galaxy.ini")
  && can_write h (Path.join cd "tool_conf.xml")
  && can_write h (Path.join cd "empty_tool_conf.xml").

(** The overrides that reach the property dictionary are strings. *)
Definition overrides_are_strings (kwds : gmap string value) : bool :=
  path_option kwds "job_config_file"
  && (stock_selected kwds
      || (path_option kwds "dependency_resolvers_config_file"
          && path_option kwds "tool_dependency_dir")).

(** Why a session that ends with [e] before its [yield] did so. *)
Definition error_cause (h : host) (ctx : context) (kwds : gmap string value)
    (w : world) (e : exn) : Prop :=
  match e with
  | AttributeError =>
      path_option kwds "test_data" = false
      \/ path_option kwds "tool_data_table" = false
      \/ path_option kwds "config_directory" = false
  | Exception msg =>
      msg = FAILED_TO_FIND_GALAXY_EXCEPTION
      /\ truthy (get kwds "install_galaxy" PNone) = false
      /\ find_galaxy_root_in h (fs w) ctx kwds = Raise (Exception msg)
  | UsageError msg =>
      msg = "At most one option from [['brew_dependency_resolution', 'dependency_resolvers_config_file', 'shed_brew_dependency_resolution']] may be specified"
      /\ (1 < selected_strategies kwds)%nat
  | IOError path => can_write h path = false
  | TypeError =>
      is_ok (splat reserved_names kwds) = false
      \/ overrides_are_strings kwds = false
  | OSError path =>
      path = tmp_name h
      /\ truthy (get kwds "config_directory" PNone) = false
      /\ mkdtemp_ok h = false
  | KeyError _ => False
  end.

(** ** Example inputs *)

Module Example.

(** A host where the temporary directory can be made and removed, every
    write succeeds, the download works and the installation pipeline leaves
    the file system alone. *)
Definition host0 : host :=
  Host "/home/u/tools" "/tmp/tmpAB" true (fun _ => true) (Some "sqlite")
       (fun _ f => f) (fun _ _ => None) "deactivate" "wget master".

(** The same host, but one where nothing below a directory can be removed:
    [rmtree] leaves the file system as it was and raises. *)
Definition host_stuck : host :=
  Host "/home/u/tools" "/tmp/tmpAB" true (fun _ => true) (Some "sqlite")
       (fun _ f => f) (fun _ f => Some f) "deactivate" "wget master".

(** A Galaxy checkout in [/home/u], tools with test data below it. *)
Definition fs0 : gmap string node :=
  list_to_map
    [ ("/", Dir); ("/home", Dir); ("/home/u", Dir);
      ("/home/u/run.sh", File "#!/bin/sh"); ("/home/u/config", Dir);
      ("/home/u/tools", Dir); ("/home/u/tools/test-data", Dir);
      ("/work", Dir); ("/work/notes.txt", File "mine") ].

Definition world0 : world := World fs0 [].

(** The same machine without a Galaxy checkout above the tools. *)
Definition fs1 : gmap string node :=
  list_to_map [ ("/", Dir); ("/home", Dir); ("/home/u", Dir); ("/home/u/tools", Dir) ].

Definition world1 : world := World fs1 [].

Definition ctx0 : context := Context ∅.

End Example.

(** * Facts *)

(** ** Strings *)

Lemma str_app_nil_l (s : string) : "" +:+ s = s.
Proof. reflexivity. Qed.

Lemma str_app_cons (c : ascii) (s t : string) : String c s +:+ t = String c (s +:+ t).
Proof. reflexivity. Qed.

Lemma str_app_nil_r (s : string) : s +:+ "" = s.
Proof. induction s as [|c s IH]; [done|]. by rewrite str_app_cons, IH. Qed.

Lemma str_app_assoc (s t u : string) : (s +:+ t) +:+ u = s +:+ t +:+ u.
Proof. induction s as [|c s IH]; [done|]. by rewrite !str_app_cons, IH. Qed.

Lemma str_length_app (s t : string) :
  String.length (s +:+ t) = String.length s + String.length t.
Proof. induction s as [|c s IH]; [done|]. rewrite str_app_cons. simpl. by rewrite IH. Qed.

Lemma drop_str_app (s t : string) : drop_str (String.length s) (s +:+ t) = t.
Proof. induction s as [|c s IH]; [done|]. by rewrite str_app_cons. Qed.

(** ** The library models on concrete inputs *)

Example normpath_examples :
  map Path.normpath ["/a/./b/../c//d/"; ""; "a/.."; "//x/"; "///x"; "../a"]
  = ["/a/c/d"; "."; "."; "//x"; "/x"; "../a"].
Proof. vm_compute. reflexivity. Qed.

Example dirname_examples :
  map Path.dirname ["/a/b/tool.xml"; "tool.xml"; "/"; "/a"; "a//b//"; "//"]
  = ["/a/b"; ""; "/"; "/"; "a//b"; "//"].
Proof. vm_compute. reflexivity. Qed.

Example join_examples :
  map (Path.join "/w") ["x"; "/x"; ""] = ["/w/x"; "/x"; "/w/"].
Proof. vm_compute. reflexivity. Qed.

Example safe_substitute_example :
  Template.safe_substitute "port = ${port} host=$host; $$ ${nope} $nope $ ${a-b} ${"
    {[ "port" := PInt 9090; "host" := PStr "127.0.0.1" ]}
  = "port = 9090 host=127.0.0.1; $ ${nope} $nope $ ${a-b} ${".
Proof. vm_compute. reflexivity. Qed.

Example upper_example : upper "job_config_file2" = "JOB_CONFIG_FILE2".
Proof. vm_compute. reflexivity. Qed.

(** ** Template substitution *)

Section template_facts.
Import Template.
Variable args : gmap string value.

Lemma dollar_not_id_char : id_char dollar = false.
Proof. reflexivity. Qed.

Lemma id_start_not_dollar c : id_start c = true -> Ascii.eqb c dollar = false.
Proof.
  intros H. destruct (Ascii.eqb_spec c dollar) as [->|]; [|done].
  by vm_compute in H.
Qed.

Lemma id_start_not_brace c : id_start c = true -> Ascii.eqb c "{"%char = false.
Proof.
  intros H. destruct (Ascii.eqb_spec c "{"%char) as [->|]; [|done].
  by vm_compute in H.
Qed.

Lemma startswith_char a x r : startswith (String a "") (String x r) = Ascii.eqb a x.
Proof. cbn [startswith]. apply andb_true_r. Qed.

Lemma span_id_length s i r :
  span_id s = (i, r) -> String.length s = String.length i + String.length r.
Proof.
  revert i r. induction s as [|c s IH]; intros i r; simpl.
  - by intros [= <- <-].
  - destruct (id_char c).
    + destruct (span_id s) as [i' r'] eqn:E. intros [= <- <-].
      simpl. by rewrite (IH _ _ eq_refl).
    + by intros [= <- <-].
Qed.

Lemma span_id_split s i r : span_id s = (i, r) -> s = i +:+ r.
Proof.
  revert i r. induction s as [|c s IH]; intros i r; simpl.
  - by intros [= <- <-].
  - destruct (id_char c).
    + destruct (span_id s) as [i' r'] eqn:E. intros [= <- <-].
      by rewrite str_app_cons, <- (IH _ _ eq_refl).
    + by intros [= <- <-].
Qed.

(** An identifier run stops in front of a character that is not one. *)
Lemma span_id_stop k c r :
  all_id_chars k = true -> id_char c = false ->
  span_id (k +:+ String c r) = (k, String c r).
Proof.
  intros Hk Hc. induction k as [|a k IH]; simpl in *.
  - by rewrite Hc.
  - apply andb_prop in Hk as [Ha Hk]. by rewrite Ha, (IH Hk).
Qed.

(** A delimiter further on does not change how far an identifier runs. *)
Lemma span_id_before_dollar s r :
  span_id (s +:+ String dollar r)
  = ((span_id s).1, (span_id s).2 +:+ String dollar r).
Proof.
  induction s as [|c s IH].
  - done.
  - rewrite str_app_cons. simpl. destruct (id_char c); [|done].
    rewrite IH. by destruct (span_id s).
Qed.

Lemma clean_start_inv r :
  clean_start r = true -> r = "" \/ exists r', r = String dollar r'.
Proof.
  destruct r as [|c r]; [by left|]. simpl.
  intros ->%Ascii.eqb_eq. right. by eexists.
Qed.

(** What [convert] sees is settled before the next delimiter. *)
Lemma convert_before_dollar s r :
  s <> "" -> convert args (s +:+ String dollar r) = convert args s.
Proof.
  destruct s as [|c s]; [done|]. intros _.
  rewrite str_app_cons. unfold convert.
  destruct (Ascii.eqb c dollar); [done|].
  destruct (id_start c).
  { rewrite <- str_app_cons, span_id_before_dollar. by destruct (span_id (String c s)). }
  destruct (Ascii.eqb c "{"); [|done].
  destruct s as [|c' s].
  { rewrite str_app_nil_l. done. }
  rewrite str_app_cons. destruct (id_start c'); [|done].
  rewrite <- str_app_cons, span_id_before_dollar.
  destruct (span_id (String c' s)) as [i r']. simpl.
  by destruct r'.
Qed.

Lemma convert_covers s : (convert args s).2 <= String.length s.
Proof.
  destruct s as [|c s]; [done|]. unfold convert.
  destruct (Ascii.eqb c dollar); [simpl; lia|].
  destruct (id_start c).
  { destruct (span_id (String c s)) as [i r] eqn:E.
    apply span_id_length in E. simpl in *. lia. }
  destruct (Ascii.eqb c "{"); [|simpl; lia].
  destruct s as [|c' s]; [simpl; lia|].
  destruct (id_start c'); [|simpl; lia].
  destruct (span_id (String c' s)) as [i r] eqn:E.
  apply span_id_length in E.
  destruct r as [|x r]; [simpl; lia|].
  rewrite startswith_char. cbn [String.length] in *.
  destruct (Ascii.eqb "}" x); cbn [snd]; lia.
Qed.

Lemma sub_from_skip a b :
  sub_from args (String.length a) (a +:+ b) = sub_from args 0 b.
Proof. induction a as [|c a IH]; [done|]. by rewrite str_app_cons. Qed.

(** Scanning splits at a delimiter that no earlier match reaches. *)
Lemma sub_from_app p : forall skip r,
  endswith_char dollar p = false -> clean_start r = true ->
  skip <= String.length p ->
  sub_from args skip (p +:+ r) = sub_from args skip p +:+ sub_from args 0 r.
Proof.
  induction p as [|c p IH]; intros skip r Hp Hr Hskip.
  - simpl in Hskip. by replace skip with 0 by lia.
  - assert (Hp' : endswith_char dollar p = false).
    { destruct p; [done|]. exact Hp. }
    rewrite str_app_cons. destruct skip as [|n]; simpl.
    + destruct (Ascii.eqb c dollar) eqn:Hc.
      * assert (p <> "") as Hne.
        { intros ->. simpl in Hp. congruence. }
        destruct (clean_start_inv _ Hr) as [->|[r' ->]].
        { by rewrite !str_app_nil_r. }
        rewrite convert_before_dollar by done.
        pose proof (convert_covers p) as Hle.
        destruct (convert args p) as [out n]. simpl in Hle.
        rewrite IH by done. by rewrite str_app_assoc.
      * rewrite IH by (done || lia). by rewrite str_app_cons.
    + simpl in Hskip. apply IH; (done || lia).
Qed.

Lemma sub_from_escape r :
  sub_from args 0 (String dollar (String dollar r)) = "$" +:+ sub_from args 0 r.
Proof. reflexivity. Qed.

Lemma sub_from_skip_S a c b :
  sub_from args (S (String.length a)) (a +:+ String c b) = sub_from args 0 b.
Proof. induction a as [|x a IH]; [done|]. by rewrite str_app_cons. Qed.

Lemma convert_braced c k post :
  id_start c = true -> all_id_chars k = true ->
  convert args (String "{" (String c k +:+ String "}" post))
  = (lookup_or args (String c k) ("${" +:+ String c k +:+ "}"),
     2 + String.length (String c k)).
Proof.
  intros Hc Hk. unfold convert.
  change (Ascii.eqb "{" dollar) with false. cbv iota.
  change (id_start "{") with false. cbv iota.
  rewrite Ascii.eqb_refl, str_app_cons, Hc, <- str_app_cons.
  rewrite span_id_stop; [|cbn [all_id_chars]; unfold id_char; by rewrite Hc, Hk|done].
  by rewrite startswith_char, Ascii.eqb_refl.
Qed.

(** A braced identifier at a delimiter position. *)
Lemma sub_from_braced key post :
  is_identifier key = true ->
  sub_from args 0 ("${" +:+ key +:+ "}" +:+ post)
  = lookup_or args key ("${" +:+ key +:+ "}") +:+ sub_from args 0 post.
Proof.
  intros Hk. destruct key as [|c k]; [done|].
  cbn [is_identifier] in Hk. apply andb_prop in Hk as [Hc Hk].
  change ("${" +:+ String c k +:+ "}" +:+ post)
    with (String dollar (String "{" (String c k +:+ String "}" post))).
  cbn [sub_from]. rewrite Ascii.eqb_refl, convert_braced by done.
  cbn [Nat.add sub_from]. by rewrite sub_from_skip_S.
Qed.

Lemma trailing_dollars_all n : trailing_dollars (dollars n) = n /\ String.length (dollars n) = n.
Proof.
  induction n as [|n [IH1 IH2]]; [done|].
  cbn [dollars trailing_dollars String.length].
  by rewrite IH1, IH2, Nat.eqb_refl, Ascii.eqb_refl.
Qed.

Lemma trailing_dollars_le s : trailing_dollars s <= String.length s.
Proof.
  induction s as [|c s IH]; [done|].
  cbn [trailing_dollars String.length].
  destruct (_ && _); lia.
Qed.

(** A string is a part that does not end in [$], then its trailing [$]s. *)
Lemma trailing_dollars_split s :
  exists p, s = p +:+ dollars (trailing_dollars s) /\ endswith_char dollar p = false.
Proof.
  induction s as [|c s (p & Hs & Hp)].
  - by exists "".
  - simpl. destruct (Ascii.eqb_spec c dollar) as [->|Hc]; simpl.
    + destruct (Nat.eqb_spec (trailing_dollars s) (String.length s)) as [E|E].
      * exists "". split; [|done]. rewrite str_app_nil_l. simpl. f_equal.
        assert (p = "") as ->.
        { pose proof (f_equal String.length Hs) as HL.
          rewrite str_length_app, (proj2 (trailing_dollars_all _)) in HL.
          destruct p; [done|]. simpl in HL. lia. }
        by rewrite str_app_nil_l in Hs.
      * exists (String dollar p). split.
        { by rewrite str_app_cons, <- Hs. }
        destruct p as [|a p]; [|done].
        rewrite str_app_nil_l in Hs.
        pose proof (f_equal String.length Hs) as HL.
        rewrite (proj2 (trailing_dollars_all _)) in HL. congruence.
    + exists (String c p). split.
      { by rewrite str_app_cons, <- Hs. }
      destruct p as [|a p]; [|done]. simpl.
      by apply Ascii.eqb_neq.
Qed.

Lemma sub_from_dollars n r :
  sub_from args 0 (dollars (2 * n) +:+ r) = dollars n +:+ sub_from args 0 r.
Proof.
  induction n as [|n IH]; [done|].
  replace (2 * S n) with (S (S (2 * n))) by lia.
  cbn [dollars]. rewrite !str_app_cons, sub_from_escape, IH. done.
Qed.

(** Substitution splits in front of a delimiter that an even number of
    [$] precedes. *)
Lemma safe_substitute_app pre r :
  Nat.even (trailing_dollars pre) = true -> clean_start r = true ->
  safe_substitute (pre +:+ r) args
  = safe_substitute pre args +:+ safe_substitute r args.
Proof.
  intros Hev Hr. unfold safe_substitute.
  destruct (trailing_dollars_split pre) as (p & Hs & Hp).
  apply Nat.even_spec in Hev as [n Hn]. rewrite Hn in Hs.
  rewrite Hs, str_app_assoc.
  rewrite sub_from_app; [|done| |lia].
  2:{ destruct n; [by rewrite str_app_nil_l|done]. }
  rewrite sub_from_dollars.
  rewrite (sub_from_app p 0 (dollars (2 * n))); [|done| |lia].
  2:{ by destruct n. }
  pose proof (sub_from_dollars n "") as Hd.
  rewrite str_app_nil_r in Hd. rewrite Hd. cbn [sub_from].
  by rewrite str_app_nil_r, str_app_assoc.
Qed.

Lemma drop_str_app_S a c b :
  drop_str (S (String.length a)) (a +:+ String c b) = b.
Proof. induction a as [|x a IH]; [done|]. by rewrite str_app_cons. Qed.

Lemma drop_str_braced x a c b :
  drop_str (2 + String.length a) (String x (a +:+ String c b)) = b.
Proof. exact (drop_str_app_S a c b). Qed.

(** On a settled string, scanning copies. *)
Lemma sub_from_settled s : forall skip,
  settled args s = true -> sub_from args skip s = drop_str skip s.
Proof.
  induction s as [|c s IH]; intros skip Hs.
  - by destruct skip.
  - cbn [settled] in Hs. apply andb_prop in Hs as [Hc Hs].
    destruct skip as [|n]; cbn [sub_from drop_str]; [|by apply IH].
    destruct (Ascii.eqb_spec c dollar) as [->|_]; [|by rewrite IH].
    destruct s as [|b r]; [done|].
    cbn [opens_unmapped] in Hc. apply andb_prop in Hc as [Hb Hc].
    apply Ascii.eqb_eq in Hb as ->.
    destruct (span_id r) as [i r'] eqn:E.
    apply andb_prop in Hc as [Hc Hnone].
    apply andb_prop in Hc as [Hi Hclose].
    pose proof (span_id_split _ _ _ E) as ->.
    destruct i as [|a i]; [done|].
    cbn [is_identifier] in Hi. apply andb_prop in Hi as [Ha Hi].
    destruct r' as [|x r'']; [done|].
    rewrite startswith_char in Hclose. apply Ascii.eqb_eq in Hclose as <-.
    rewrite convert_braced, IH by done.
    unfold lookup_or. destruct (args !! String a i); [done|].
    by rewrite drop_str_braced, !str_app_assoc.
Qed.

End template_facts.

(** C5, as amended: for every mapping and every template, a braced
    placeholder [${key}] whose key is an identifier and that an even number
    of [$] characters precedes (so that its delimiter is not the second half
    of an escape) is replaced by [str] of the mapped value when the key is
    mapped and copied verbatim when it is not, the text before and after
    being substituted on its own; a string template never raises; and
    [None] gives the empty string. *)
Theorem sub_replaces_placeholder (args : gmap string value) (pre key post : string) :
  is_identifier key = true ->
  Nat.even (trailing_dollars pre) = true ->
  __sub (PStr (pre +:+ "${" +:+ key +:+ "}" +:+ post)) args
  = Ok (Template.safe_substitute pre args
        +:+ match args !! key with
            | Some v => str v
            | None => "${" +:+ key +:+ "}"
            end
        +:+ Template.safe_substitute post args)
  /\ (forall template, exists out, __sub (PStr template) args = Ok out)
  /\ __sub PNone args = Ok "".
Proof.
  intros Hkey Hpre. split; [|split; [by eexists|done]].
  unfold __sub. f_equal.
  rewrite safe_substitute_app by done.
  unfold Template.safe_substitute at 2.
  by rewrite sub_from_braced.
Qed.

Lemma sub_replaces_placeholder_witness :
  __sub (PStr ("port = " +:+ "${" +:+ "port" +:+ "}" +:+ "; ${nope}"))
        {[ "port" := PInt 9090 ]}
  = Ok "port = 9090; ${nope}".
Proof.
  exact (proj1 (sub_replaces_placeholder {[ "port" := PInt 9090 ]}
                  "port = " "port" "; ${nope}" eq_refl eq_refl)).
Defined.

(** C5 as stated fails: after an escape the text [${port}] stays although
    [port] is mapped, and a braced key that is not an identifier stays
    although it is mapped. *)
Lemma sub_keeps_escaped_placeholder :
  __sub (PStr "$${port}") {[ "port" := PInt 9090 ]} = Ok "${port}"
  /\ __sub (PStr "${my-key}") {[ "my-key" := PStr "x" ]} = Ok "${my-key}".
Proof. split; vm_compute; reflexivity. Qed.

Section stable_facts.
Import Template.
Variable args : gmap string value.

Lemma count_dollars_app a b :
  count_dollars (a +:+ b) = count_dollars a + count_dollars b.
Proof.
  induction a as [|c a IH]; [done|].
  rewrite str_app_cons. cbn [count_dollars]. rewrite IH. lia.
Qed.

Lemma no_dollar_count s : no_dollar s = true -> count_dollars s = 0.
Proof.
  induction s as [|c s IH]; [done|]. cbn [no_dollar count_dollars].
  intros [Hc Hs]%andb_prop. rewrite (IH Hs).
  by destruct (Ascii.eqb c dollar).
Qed.

Lemma id_char_not_dollar c : id_char c = true -> Ascii.eqb c dollar = false.
Proof.
  intros H. destruct (Ascii.eqb_spec c dollar) as [->|]; [|done].
  by vm_compute in H.
Qed.

Lemma span_id_no_dollar s : forall i r, span_id s = (i, r) -> no_dollar i = true.
Proof.
  induction s as [|c s IH]; intros i r; simpl.
  - by intros [= <- <-].
  - destruct (id_char c) eqn:Hc.
    + destruct (span_id s) as [i' r'] eqn:E. intros [= <- <-].
      cbn [no_dollar]. by rewrite (id_char_not_dollar _ Hc), (IH _ _ eq_refl).
    + by intros [= <- <-].
Qed.

Lemma stable_app_no_dollar a b : no_dollar a = true -> stable args (a +:+ b) = stable args b.
Proof.
  induction a as [|c a IH]; [done|]. cbn [no_dollar].
  intros [Hc Ha]%andb_prop. rewrite str_app_cons. cbn [stable].
  rewrite (IH Ha). by destruct (Ascii.eqb c dollar).
Qed.

(** The match that starts at a delimiter, in the words of [placeholder]:
    what it covers is the placeholder's text, which holds no further
    delimiter. *)
Lemma convert_placeholder rest :
  if startswith "$" rest then convert args rest = ("$", 1)
  else match placeholder rest with
       | Some (key, text) =>
           exists body,
             text = String dollar body /\ no_dollar body = true
             /\ convert args rest = (lookup_or args key text, String.length body)
             /\ rest = body +:+ drop_str (String.length body) rest
       | None => convert args rest = ("$", 0)
       end.
Proof.
  destruct rest as [|c r]; [done|].
  rewrite startswith_char. unfold convert, placeholder.
  change (Ascii.eqb c dollar) with (Ascii.eqb c "$").
  rewrite (Ascii.eqb_sym "$" c).
  destruct (Ascii.eqb c "$") eqn:Hd; [done|].
  destruct (id_start c) eqn:Hs.
  { destruct (span_id (String c r)) as [i r'] eqn:E.
    exists i. split; [done|]. split; [by apply span_id_no_dollar in E|].
    split; [done|].
    pose proof (span_id_split _ _ _ E) as Hsplit.
    rewrite Hsplit at 2. by rewrite drop_str_app. }
  destruct (Ascii.eqb_spec c "{"%char) as [->|_]; [|done].
  destruct r as [|c' r]; [done|].
  destruct (id_start c') eqn:Hs'; [|done].
  destruct (span_id (String c' r)) as [i r'] eqn:E.
  destruct r' as [|x r'']; [done|].
  rewrite startswith_char.
  destruct (Ascii.eqb_spec "}"%char x) as [<-|_]; [|done].
  exists ("{" +:+ i +:+ "}"). split; [done|].
  pose proof (span_id_no_dollar _ _ _ E) as Hi.
  pose proof (span_id_split _ _ _ E) as Hsplit.
  split; [|split].
  - rewrite str_app_cons, str_app_nil_l. cbn [no_dollar]. cbn [Ascii.eqb]. cbn.
    clear -Hi. induction i as [|a i IH]; [done|].
    cbn [no_dollar] in *. apply andb_prop in Hi as [Ha Hi].
    rewrite str_app_cons. cbn [no_dollar]. by rewrite Ha, (IH Hi).
  - f_equal. rewrite str_app_cons, str_app_nil_l. cbn [String.length].
    rewrite str_length_app. cbn [String.length]. lia.
  - rewrite Hsplit.
    replace (String "{" (i +:+ String "}" r''))
      with (("{" +:+ i +:+ "}") +:+ r'') at 2.
    + by rewrite drop_str_app, !str_app_cons, str_app_nil_l, str_app_assoc.
    + by rewrite !str_app_cons, str_app_nil_l, str_app_assoc.
Qed.

(** A kept delimiter is copied together with what its match covers. *)
Lemma convert_keeps rest :
  keeps args rest = true ->
  (convert args rest).1 +:+ drop_str (convert args rest).2 rest = String dollar rest
  /\ stable args (drop_str (convert args rest).2 rest) = stable args rest.
Proof.
  unfold keeps. intros [Hesc Hkey]%andb_prop.
  pose proof (convert_placeholder rest) as Hc.
  destruct (startswith "$" rest); [done|].
  destruct (placeholder rest) as [[key text]|].
  - destruct Hc as (body & -> & Hbody & -> & Hrest). cbn [fst snd].
    split.
    + unfold lookup_or. destruct (args !! key) as [v|].
      * apply String.eqb_eq in Hkey as ->.
        rewrite str_app_cons. by rewrite <- Hrest.
      * rewrite str_app_cons. by rewrite <- Hrest.
    + rewrite Hrest at 2. by rewrite stable_app_no_dollar.
  - by rewrite Hc.
Qed.

(** On a stable string, scanning copies. *)
Lemma sub_from_stable s : forall skip,
  stable args s = true -> sub_from args skip s = drop_str skip s.
Proof.
  induction s as [|c s IH]; intros skip Hs.
  - by destruct skip.
  - cbn [stable] in Hs. apply andb_prop in Hs as [Hc Hs].
    destruct skip as [|n]; cbn [sub_from drop_str]; [|by apply IH].
    destruct (Ascii.eqb_spec c dollar) as [->|_]; [|by rewrite IH].
    destruct (convert_keeps s Hc) as [Hcopy _].
    destruct (convert args s) as [out n]. cbn [fst snd] in Hcopy.
    by rewrite IH.
Qed.

(** A settled string is stable. *)
Lemma settled_stable s : settled args s = true -> stable args s = true.
Proof.
  induction s as [|c s IH]; [done|]. cbn [settled stable].
  intros [Hc Hs]%andb_prop. rewrite (IH Hs), andb_true_r.
  destruct (Ascii.eqb c dollar); [|done].
  destruct s as [|b r]; [done|].
  cbn [opens_unmapped] in Hc. apply andb_prop in Hc as [Hb Hc].
  apply Ascii.eqb_eq in Hb as ->.
  destruct (span_id r) as [i r'] eqn:E.
  apply andb_prop in Hc as [Hc Hnone].
  apply andb_prop in Hc as [Hi Hclose].
  destruct i as [|a i]; [done|].
  cbn [is_identifier] in Hi. apply andb_prop in Hi as [Ha Hi].
  pose proof (span_id_split _ _ _ E) as Hr. rewrite str_app_cons in Hr.
  destruct r as [|c' r0]; [done|]. injection Hr as -> Hr.
  unfold keeps, placeholder. rewrite startswith_char.
  change (Ascii.eqb "$" "{") with false.
  change (id_start "{") with false.
  change (Ascii.eqb "{" "{") with true. cbn match. cbn [negb andb].
  rewrite Ha, E, Hclose.
  by destruct (args !! String a i).
Qed.

(** When no mapped value holds a delimiter, a pass never adds one, and it
    keeps their number only on a stable string. *)
Lemma sub_from_count s :
  (forall key v, args !! key = Some v -> no_dollar (str v) = true) ->
  forall skip,
    count_dollars (sub_from args skip s) <= count_dollars (drop_str skip s)
    /\ (count_dollars (sub_from args skip s) = count_dollars (drop_str skip s) ->
        stable args (drop_str skip s) = true).
Proof.
  intros Hplain. induction s as [|c s IH]; intros skip.
  - by destruct skip.
  - destruct skip as [|n]; cbn [sub_from drop_str]; [|by apply IH].
    cbn [stable count_dollars].
    destruct (Ascii.eqb_spec c dollar) as [->|Hc].
    + pose proof (convert_placeholder s) as Hconv.
      unfold keeps.
      destruct (startswith "$" s) eqn:Hesc.
      * rewrite Hconv. destruct s as [|c' s']; [done|].
        rewrite startswith_char in Hesc. apply Ascii.eqb_eq in Hesc as <-.
        destruct (IH 1) as [Hle _]. cbn [drop_str] in Hle.
        rewrite str_app_cons, str_app_nil_l. cbn [count_dollars Ascii.eqb].
        change (Ascii.eqb "$" dollar) with true. cbn iota.
        split; [lia|lia].
      * cbn [negb andb].
        destruct (placeholder s) as [[key text]|].
        -- destruct Hconv as (body & -> & Hbody & -> & Hrest).
           destruct (IH (String.length body)) as [Hle Hst].
           assert (Hcount : count_dollars s
                            = count_dollars (drop_str (String.length body) s)).
           { rewrite Hrest at 1. rewrite count_dollars_app, (no_dollar_count _ Hbody). lia. }
           assert (Hstable : stable args s
                             = stable args (drop_str (String.length body) s)).
           { rewrite Hrest at 1. by rewrite stable_app_no_dollar. }
           rewrite count_dollars_app. unfold lookup_or.
           destruct (args !! key) as [v|] eqn:Hv.
           ++ rewrite (no_dollar_count _ (Hplain _ _ Hv)). split; lia.
           ++ cbn [count_dollars]. change (Ascii.eqb dollar dollar) with true.
              cbn iota. rewrite (no_dollar_count _ Hbody).
              split; [lia|]. intros Heq. rewrite Hstable. apply Hst. lia.
        -- rewrite Hconv. destruct (IH 0) as [Hle Hst]. cbn [drop_str] in Hle, Hst.
           rewrite str_app_cons, str_app_nil_l. cbn [count_dollars].
           change (Ascii.eqb "$" dollar) with true. cbn iota.
           split; [lia|]. intros Heq. apply Hst. lia.
    + destruct (IH 0) as [Hle Hst]. cbn [drop_str] in Hle, Hst.
      cbn [count_dollars].
      destruct (Ascii.eqb c dollar) eqn:E; [by apply Ascii.eqb_eq in E|].
      cbn [andb]. split; [lia|]. intros Heq. apply Hst. lia.
Qed.

End stable_facts.

(** C6, as amended: substitution of a string template never raises,
    whatever placeholders it holds, and neither does a second pass over its
    result.  The second pass returns that result as it is whenever the
    result is stable: every [$] in it is followed by something other than
    [$], and where it opens a placeholder [$key] or [${key}] with an
    identifier as key, the mapping lacks the key or maps it to the
    placeholder's own text; so a lone [$], a [$] before a digit and a
    malformed [${...}] are all kept.  When no mapped value holds a [$], the
    second pass returns the result as it is only if it is stable. *)
Theorem sub_twice_stable (args : gmap string value) (template : string) :
  exists once twice,
    __sub (PStr template) args = Ok once
    /\ __sub (PStr once) args = Ok twice
    /\ (stable args once = true -> twice = once)
    /\ ((forall key v, args !! key = Some v -> no_dollar (str v) = true) ->
        twice = once -> stable args once = true).
Proof.
  exists (Template.safe_substitute template args),
         (Template.safe_substitute (Template.safe_substitute template args) args).
  split; [done|]. split; [done|]. split.
  - intros Hs. unfold Template.safe_substitute at 1. by rewrite sub_from_stable.
  - intros Hplain Heq.
    destruct (sub_from_count args (Template.safe_substitute template args) Hplain 0)
      as [_ Hst].
    apply Hst. cbn [drop_str].
    unfold Template.safe_substitute at 1 in Heq. by rewrite Heq.
Qed.

Lemma sub_twice_stable_witness :
  __sub (PStr "port 9090 of $who at ${host}: $5, $ and ${a-b}")
        {[ "port" := PInt 9090 ]}
  = Ok "port 9090 of $who at ${host}: $5, $ and ${a-b}".
Proof.
  destruct (sub_twice_stable {[ "port" := PInt 9090 ]}
              "port ${port} of $who at ${host}: $5, $ and ${a-b}")
    as (once & twice & H1 & H2 & Hst & _).
  cbn [__sub] in H1. injection H1 as <-.
  rewrite (Hst eq_refl) in H2. exact H2.
Defined.

(** C6 as stated fails: the first pass turns the escape [$$] into [$],
    and the second pass then reads [$port] as a placeholder. *)
Lemma sub_twice_differs :
  __sub (PStr "$$port") {[ "port" := PInt 9090 ]} = Ok "$port"
  /\ __sub (PStr "$port") {[ "port" := PInt 9090 ]} = Ok "9090".
Proof. split; vm_compute; reflexivity. Qed.

(** ** The override layer *)

Section override_facts.
Variable kwds : gmap string value.

Lemma override_loop_lookup (props : list string) :
  forall (properties : gmap string value) (key : string),
    foldl (fun properties prop =>
             let val := get kwds prop PNone in
             if truthy val then <[prop := val]> properties else properties)
          properties props !! key
    = if bool_decide (key ∈ props) && truthy (get kwds key PNone)
      then Some (get kwds key PNone)
      else properties !! key.
Proof.
  induction props as [|prop props IH]; intros properties key.
  - done.
  - cbn [foldl]. rewrite IH.
    destruct (decide (key = prop)) as [->|Hne].
    + rewrite (bool_decide_eq_true_2 (prop ∈ prop :: props)) by apply list_elem_of_here.
      destruct (truthy (get kwds prop PNone)) eqn:Ht.
      * rewrite andb_true_r, andb_true_l.
        destruct (bool_decide _); [done|]. by rewrite lookup_insert_eq.
      * by rewrite !andb_false_r.
    + rewrite (bool_decide_ext (key ∈ prop :: props) (key ∈ props))
        by (rewrite elem_of_cons; split; [by intros [?|?] | by right]).
      destruct (_ && _); [done|].
      destruct (truthy _); [|done].
      by rewrite lookup_insert_ne.
Qed.

Lemma handle_kwd_overrides_lookup (properties : gmap string value) (key : string) :
  __handle_kwd_overrides properties kwds !! key
  = if bool_decide (key ∈ kwds_gx_properties) && truthy (get kwds key PNone)
    then Some (get kwds key PNone)
    else properties !! key.
Proof. apply override_loop_lookup. Qed.

End override_facts.

(** C10: for an allow-listed key whose option is unset or falsy ([None],
    [False], [0], the empty string), [__handle_kwd_overrides] leaves the
    property dictionary as it was at that key: the value is neither
    replaced nor removed. *)
Theorem falsy_override_ignored
    (properties kwds : gmap string value) (prop : string) :
  prop ∈ kwds_gx_properties ->
  truthy (get kwds prop PNone) = false ->
  __handle_kwd_overrides properties kwds !! prop = properties !! prop.
Proof.
  intros _ Hf. rewrite handle_kwd_overrides_lookup, Hf.
  by rewrite andb_false_r.
Qed.

Lemma falsy_override_ignored_witness :
  __handle_kwd_overrides {[ "job_config_file" := PStr "derived.xml" ]}
    {[ "job_config_file" := PStr "" ]} !! "job_config_file"
  = ({[ "job_config_file" := PStr "derived.xml" ]} : gmap string value)
      !! "job_config_file".
Proof.
  apply (falsy_override_ignored {[ "job_config_file" := PStr "derived.xml" ]}
           {[ "job_config_file" := PStr "" ]} "job_config_file").
  - unfold kwds_gx_properties. left.
  - vm_compute. reflexivity.
Defined.

(** ** The monad *)

Lemma bind_ok {A B} (m : M A) (k : A -> M B) w w' b :
  bind m k w = (w', Ok b) ->
  exists a w1, m w = (w1, Ok a) /\ k a w1 = (w', Ok b).
Proof.
  unfold bind. destruct (m w) as [w1 [a|e]]; [|done].
  intros H. by exists a, w1.
Qed.

Lemma bind_step {A B} (m : M A) (k : A -> M B) w w1 a :
  m w = (w1, Ok a) -> bind m k w = k a w1.
Proof. unfold bind. by intros ->. Qed.

Lemma bind_raise {A B} (m : M A) (k : A -> M B) w w1 e :
  m w = (w1, Raise e) -> bind m k w = (w1, Raise e).
Proof. unfold bind. by intros ->. Qed.

Lemma lift_ok {A} (r : result A) w w' a :
  lift r w = (w', Ok a) -> r = Ok a /\ w' = w.
Proof. unfold lift. by intros [= <- ->]. Qed.

Lemma ret_ok {A} (x : A) w w' a : ret x w = (w', Ok a) -> x = a /\ w' = w.
Proof. unfold ret. by intros [= <- ->]. Qed.

Lemma try_finally_ret {A} (m : M A) w : try_finally m (ret tt) w = m w.
Proof. unfold try_finally, ret. by destruct (m w). Qed.

(** ** Traces *)

Section trace_facts.
Variable P : event -> bool.

Lemma extends_refl w : extends P w w.
Proof. exists []. by rewrite app_nil_r. Qed.

Lemma extends_trans w1 w2 w3 : extends P w1 w2 -> extends P w2 w3 -> extends P w1 w3.
Proof.
  intros (e1 & H1 & F1) (e2 & H2 & F2). exists (e1 ++ e2). split.
  - by rewrite H2, H1, app_assoc.
  - by rewrite forallb_app, F1, F2.
Qed.

Lemma extends_same_trace w w' : trace w' = trace w -> extends P w w'.
Proof. intros H. exists []. by rewrite app_nil_r. Qed.

Lemma appends_ret {A} (a : A) : appends P (ret a).
Proof. intros w. apply extends_refl. Qed.

Lemma appends_raise {A} e : appends P (@raise A e).
Proof. intros w. apply extends_refl. Qed.

Lemma appends_lift {A} (r : result A) : appends P (lift r).
Proof. intros w. apply extends_refl. Qed.

Lemma appends_get_fs : appends P get_fs.
Proof. intros w. apply extends_refl. Qed.

Lemma appends_set_fs f : appends P (set_fs f).
Proof. intros w. by apply extends_same_trace. Qed.

Lemma appends_emit e : P e = true -> appends P (emit e).
Proof. intros He w. exists [e]. split; [done|]. simpl. by rewrite He. Qed.

Lemma appends_bind {A B} (m : M A) (k : A -> M B) :
  appends P m -> (forall a, appends P (k a)) -> appends P (bind m k).
Proof.
  intros Hm Hk w. specialize (Hm w). unfold bind.
  destruct (m w) as [w1 [a|e]]; [|done].
  eapply extends_trans; [exact Hm|apply Hk].
Qed.

Lemma appends_try_finally {A} (m : M A) (c : M unit) :
  appends P m -> appends P c -> appends P (try_finally m c).
Proof.
  intros Hm Hc w. specialize (Hm w). unfold try_finally.
  destruct (m w) as [w1 r]. specialize (Hc w1).
  destruct (c w1) as [w2 [[]|e]]; by eapply extends_trans.
Qed.

Lemma appends_try_except {A} (m handler : M A) :
  appends P m -> appends P handler -> appends P (try_except m handler).
Proof.
  intros Hm Hh w. specialize (Hm w). unfold try_except.
  destruct (m w) as [w1 [a|e]]; [done|].
  eapply extends_trans; [exact Hm|apply Hh].
Qed.





(** The primitives add one event each. *)
Section primitives.
Variable h : host.

Lemma appends_warn msg : P (EWarn msg) = true -> appends P (warn msg).
Proof. apply appends_emit. Qed.

Lemma appends_write_file path content :
  P (EWrite path content) = true -> appends P (write_file h path content).
Proof.
  intros HP. unfold write_file. destruct (can_write h path).
  - apply appends_bind; [apply appends_get_fs|intros f].
    apply appends_bind; [apply appends_set_fs|intros _].
    by apply appends_emit.
  - apply appends_raise.
Qed.

Lemma appends_urlretrieve url path :
  P (EFetch url path) = true -> appends P (urlretrieve h url path).
Proof.
  intros HP. unfold urlretrieve.
  destruct (served h); [|apply appends_raise].
  destruct (can_write h path); [|apply appends_raise].
  apply appends_bind; [apply appends_get_fs|intros f].
  apply appends_bind; [apply appends_set_fs|intros _].
  by apply appends_emit.
Qed.

Lemma appends_mkdtemp : P (EMkdtemp (tmp_name h)) = true -> appends P (mkdtemp h).
Proof.
  intros HP. unfold mkdtemp. destruct (mkdtemp_ok h); [|apply appends_raise].
  apply appends_bind; [apply appends_get_fs|intros f].
  apply appends_bind; [apply appends_set_fs|intros _].
  apply appends_bind; [by apply appends_emit|intros _].
  apply appends_ret.
Qed.


Lemma appends_shell cmd : P (EShell cmd) = true -> appends P (shell h cmd).
Proof.
  intros HP. unfold shell.
  apply appends_bind; [apply appends_get_fs|intros f].
  apply appends_bind; [apply appends_set_fs|intros _].
  by apply appends_emit.
Qed.
End primitives.
End trace_facts.

(** ** The steps of the session *)

(** [x] is none of the elements of a list that is written out. *)
Ltac not_in_list :=
  let H := fresh "H" in
  intros H; repeat (apply elem_of_cons in H as [H|H]; [discriminate H|]);
  by apply elem_of_nil in H.

Section session_facts.
Variable h : host.

Lemma os_path_join_ok a b p : os_path_join a b = Ok p -> exists s, a = PStr s /\ p = Path.join s b.
Proof. destruct a; try done. intros [= <-]. by eexists. Qed.

Lemma handle_job_metrics_ok cdv kwds w w' kwds' :
  __handle_job_metrics h cdv kwds w = (w', Ok kwds') ->
  exists cd, cdv = PStr cd
    /\ kwds' = <["job_metrics_config_file" := PStr (Path.join cd "job_metrics_conf.xml")]> kwds.
Proof.
  unfold __handle_job_metrics.
  intros (p & w1 & [Hj ->]%lift_ok & H)%bind_ok.
  apply os_path_join_ok in Hj as (cd & -> & ->).
  apply bind_ok in H as ([] & w2 & _ & [<- _]%ret_ok).
  by exists cd.
Qed.

Lemma handle_dependency_resolution_ok cdv kwds w w' kwds' :
  __handle_dependency_resolution h cdv kwds w = (w', Ok kwds') ->
  (selected_strategies kwds <= 1)%nat
  /\ write_stock_strategies h cdv STOCK_DEPENDENCY_RESOLUTION_STRATEGIES kwds w
     = (w', Ok kwds').
Proof.
  unfold __handle_dependency_resolution.
  destruct (Nat.ltb_spec 1 (selected_strategies kwds)); [done|].
  intros H'. split; [lia|done].
Qed.

Lemma install_galaxy_if_needed_ok cdv kwds w w' installed :
  __install_galaxy_if_needed h cdv kwds w = (w', Ok installed) ->
  installed = truthy (get kwds "install_galaxy" PNone).
Proof.
  unfold __install_galaxy_if_needed.
  destruct (truthy (get kwds "install_galaxy" PNone)).
  - by intros (? & ? & _ & [<- _]%ret_ok)%bind_ok.
  - by intros [<- _]%ret_ok.
Qed.

(** What a completed assembly was built from. *)
Lemma assemble_ok tool_path for_tests kwds l w w' a :
  assemble h tool_path for_tests kwds l w = (w', Ok a) ->
  exists cd kwds1 w2 w3 preseeded_database tool_definition,
    l_config_directory l = PStr cd
    /\ (selected_strategies kwds <= 1)%nat
    /\ write_stock_strategies h (PStr cd) STOCK_DEPENDENCY_RESOLUTION_STRATEGIES kwds w2
       = (w3, Ok kwds1)
    /\ properties a
       = final_properties for_tests
           (<["job_metrics_config_file" := PStr (Path.join cd "job_metrics_conf.xml")]> kwds1)
           (Path.join cd "tool_conf.xml") (of_option (l_tool_data_table l))
           (Path.join cd "empty_tool_conf.xml") (of_option (l_test_data_dir l))
    /\ template_args a
       = make_template_args
           (<["job_metrics_config_file" := PStr (Path.join cd "job_metrics_conf.xml")]> kwds1)
           (PStr cd) (Path.join cd "galaxy.sqlite") tool_definition tool_path
           (Path.join cd "tool_conf.xml")
    /\ final_env (properties a) (template_args a) preseeded_database
       = Ok (env (yielded a))
    /\ galaxy_root (yielded a)
       = (if truthy (get kwds "install_galaxy" PNone)
          then PStr (Path.join cd "galaxy-central-master")
          else l_galaxy_root l)
    /\ config_directory (yielded a) = PStr cd
    /\ test_data_dir (yielded a) = of_option (l_test_data_dir l).
Proof.
  unfold assemble.
  intros (installed & w1 & Hinst & H)%bind_ok.
  apply install_galaxy_if_needed_ok in Hinst as ->.
  apply bind_ok in H as (groot & w2 & Hroot & H).
  apply bind_ok in H as (kwds1 & w3 & Hdep & H).
  apply handle_dependency_resolution_ok in Hdep as [Hsel Hstock].
  apply bind_ok in H as (kwds2 & w4 & Hmet & H).
  apply handle_job_metrics_ok in Hmet as (cd & Hcd & ->).
  rewrite Hcd in *.
  apply bind_ok in H as (tool_definition & w5 & _ & H).
  apply bind_ok in H as (empty_tool_conf & w6 & [[= <-] ->]%lift_ok & H).
  apply bind_ok in H as (tool_conf & w7 & [[= <-] ->]%lift_ok & H).
  apply bind_ok in H as (database_location & w8 & [[= <-] ->]%lift_ok & H).
  apply bind_ok in H as (preseeded & w9 & _ & H).
  apply bind_ok in H as (env & w10 & [Henv ->]%lift_ok & H).
  apply bind_ok in H as (web_config & w11 & _ & H).
  apply bind_ok in H as (galaxy_ini & w12 & _ & H).
  apply bind_ok in H as ([] & w13 & _ & H).
  apply bind_ok in H as (tool_conf_contents & w14 & _ & H).
  apply bind_ok in H as ([] & w15 & _ & H).
  apply bind_ok in H as ([] & w16 & _ & H).
  apply ret_ok in H as [<- _].
  exists cd, kwds1, w2, w3, preseeded, tool_definition. cbn.
  repeat split; try done.
  destruct (truthy (get kwds "install_galaxy" PNone)).
  - apply bind_ok in Hroot as (p & ? & [[= <-] ->]%lift_ok & [<- _]%ret_ok). done.
  - by apply ret_ok in Hroot as [<- _].
Qed.

(** The loop over the stock strategies sets two keys of [kwds] when a
    stock strategy is selected, and nothing otherwise. *)
Lemma write_stock_strategies_ok cdv strategies : forall kwds w w' kwds',
  Forall (fun s => s.1 <> "tool_dependency_dir"
                   /\ s.1 <> "dependency_resolvers_config_file") strategies ->
  write_stock_strategies h cdv strategies kwds w = (w', Ok kwds') ->
  if existsb (fun s => truthy (get kwds s.1 PNone)) strategies
  then exists cd, cdv = PStr cd
         /\ kwds' = <["dependency_resolvers_config_file" :=
                        PStr (Path.join cd "resolvers_conf.xml")]>
                    (<["tool_dependency_dir" :=
                         PStr (Path.join "config_directory" "deps")]> kwds)
  else kwds' = kwds.
Proof.
  induction strategies as [|[key conf] rest IH]; intros kwds w w' kwds' Hkeys Hrun.
  - by apply ret_ok in Hrun as [-> _].
  - apply Forall_cons in Hkeys as [[Hk1 Hk2] Hkeys]. cbn [fst] in *.
    cbn [write_stock_strategies] in Hrun. cbn [existsb fst].
    destruct (truthy (get kwds key PNone)) eqn:Ht; cbn [orb].
    + apply bind_ok in Hrun as (p & w1 & [Hj ->]%lift_ok & Hrun).
      apply os_path_join_ok in Hj as (cd & -> & ->).
      apply bind_ok in Hrun as ([] & w2 & _ & Hrun).
      apply IH in Hrun; [|done]. exists cd. split; [done|].
      destruct (existsb _ rest).
      * destruct Hrun as (cd' & [= <-] & ->).
        apply map_eq. intros k. rewrite !lookup_insert.
        by repeat case_decide.
      * done.
    + by apply IH in Hrun.
Qed.

Lemma join_nonempty a b : b <> "" -> Path.join a b <> "".
Proof.
  intros Hb. unfold Path.join.
  destruct (startswith "/" b); [done|].
  destruct (_ || _); intros E; apply (f_equal String.length) in E;
    rewrite ?str_length_app in E; cbn [String.length] in E;
    destruct b; (done || (cbn [String.length] in E; lia)).
Qed.

Lemma get_insert_eq (d : gmap string value) key v default :
  get (<[key := v]> d) key default = v.
Proof. unfold get. by rewrite lookup_insert_eq. Qed.

Lemma get_insert_ne (d : gmap string value) key key' v default :
  key <> key' -> get (<[key := v]> d) key' default = get d key' default.
Proof. intros. unfold get. by rewrite lookup_insert_ne. Qed.

Lemma get_some (d : gmap string value) key v default :
  d !! key = Some v -> get d key default = v.
Proof. unfold get. by intros ->. Qed.

Lemma make_properties_no_database_connection tool_conf tool_data_table
    empty_tool_conf test_data_dir :
  make_properties tool_conf tool_data_table empty_tool_conf test_data_dir
    !! "database_connection" = None.
Proof. vm_compute. reflexivity. Qed.

Lemma final_properties_database_connection for_tests kwds tool_conf
    tool_data_table empty_tool_conf test_data_dir :
  is_Some (final_properties for_tests kwds tool_conf tool_data_table
             empty_tool_conf test_data_dir !! "database_connection")
  <-> for_tests = false.
Proof.
  unfold final_properties. rewrite handle_kwd_overrides_lookup.
  rewrite (bool_decide_eq_false_2 ("database_connection" ∈ kwds_gx_properties))
    by not_in_list.
  cbn [andb]. destruct for_tests; cbn [negb].
  - rewrite make_properties_no_database_connection. split; [by intros [? ?]|done].
  - rewrite lookup_insert_eq. split; [done|by eexists].
Qed.

End session_facts.

(** ** The property dictionary of a session *)

Lemma enter_ok h ctx tool_path for_tests kwds w w' a :
  enter h ctx tool_path for_tests kwds w = (w', Ok a) ->
  exists l w1, setup h ctx tool_path kwds w = (w1, Ok l)
    /\ assemble h tool_path for_tests kwds l w1 = (w', Ok a).
Proof. apply bind_ok. Qed.

(** At most one strategy selected and the explicit file given: no stock
    strategy is selected. *)
Lemma explicit_resolvers_exclude_stock kwds :
  (selected_strategies kwds <= 1)%nat ->
  truthy (get kwds "dependency_resolvers_config_file" PNone) = true ->
  stock_selected kwds = false.
Proof.
  unfold selected_strategies, stock_selected. cbn [foldl existsb fst resolutions_strategies
    STOCK_DEPENDENCY_RESOLUTION_STRATEGIES].
  intros Hsel Hd. rewrite Hd in Hsel.
  destruct (truthy (get kwds "brew_dependency_resolution" PNone));
    destruct (truthy (get kwds "shed_brew_dependency_resolution" PNone));
    cbn in *; (done || lia).
Qed.

Lemma stock_keys_apart :
  Forall (fun s : string * string =>
            s.1 <> "tool_dependency_dir" /\ s.1 <> "dependency_resolvers_config_file")
         STOCK_DEPENDENCY_RESOLUTION_STRATEGIES.
Proof. by repeat constructor. Qed.

(** C1, as amended: in every session that reaches its [yield], the
    property [job_metrics_config_file] is the path of the job-metrics file
    the session wrote, whatever option the user gave under that name; a
    truthy user option [job_config_file] or
    [dependency_resolvers_config_file] is the value of that property; when a
    stock resolver strategy is selected, [tool_dependency_dir] is the
    directory the strategy derives, and otherwise a truthy user option
    [tool_dependency_dir] is the value of that property; and the override
    layer copies no option outside the allow-list into the property
    dictionary. *)
Theorem overrides_reach_properties
    (h : host) (ctx : context) (tool_path : string) (for_tests : bool)
    (kwds : gmap string value) (w w' : world) (a : assembled) :
  enter h ctx tool_path for_tests kwds w = (w', Ok a) ->
  (exists cd, config_directory (yielded a) = PStr cd
     /\ properties a !! "job_metrics_config_file"
        = Some (PStr (Path.join cd "job_metrics_conf.xml")))
  /\ (forall v, kwds !! "job_config_file" = Some v -> truthy v = true ->
                properties a !! "job_config_file" = Some v)
  /\ (forall v, kwds !! "dependency_resolvers_config_file" = Some v -> truthy v = true ->
                properties a !! "dependency_resolvers_config_file" = Some v)
  /\ (if stock_selected kwds
      then properties a !! "tool_dependency_dir" = Some (PStr "config_directory/deps")
      else forall v, kwds !! "tool_dependency_dir" = Some v -> truthy v = true ->
                     properties a !! "tool_dependency_dir" = Some v)
  /\ (forall (properties kwds' : gmap string value) key,
        key ∉ kwds_gx_properties ->
        __handle_kwd_overrides properties kwds' !! key = properties !! key).
Proof.
  intros (l & w1 & _ & Ha)%enter_ok.
  apply assemble_ok in Ha
    as (cd & kwds1 & w2 & w3 & pre & td & Hcd & Hsel & Hstock & Hprops & _ & _ & _ & Hycd & _).
  apply write_stock_strategies_ok in Hstock; [|apply stock_keys_apart].
  fold (stock_selected kwds) in Hstock.
  assert (Hjm : truthy (PStr (Path.join cd "job_metrics_conf.xml")) = true).
  { cbn [truthy]. apply negb_true_iff, String.eqb_neq. by apply join_nonempty. }
  split; [|split; [|split; [|split]]].
  - exists cd. split; [done|]. rewrite Hprops. unfold final_properties.
    rewrite handle_kwd_overrides_lookup, get_insert_eq, Hjm. done.
  - intros v Hv Ht. rewrite Hprops. unfold final_properties.
    rewrite handle_kwd_overrides_lookup, get_insert_ne by done.
    assert (get kwds1 "job_config_file" PNone = v) as ->.
    { apply get_some.
      destruct (stock_selected kwds); [|by subst].
      destruct Hstock as (? & _ & ->). by rewrite !lookup_insert_ne. }
    by rewrite Ht.
  - intros v Hv Ht. rewrite Hprops. unfold final_properties.
    rewrite handle_kwd_overrides_lookup, get_insert_ne by done.
    rewrite explicit_resolvers_exclude_stock in Hstock
      by (done || by rewrite (get_some _ _ _ _ Hv)).
    subst kwds1. by rewrite (get_some _ _ _ _ Hv), Ht.
  - destruct (stock_selected kwds).
    + destruct Hstock as (? & _ & ->). rewrite Hprops. unfold final_properties.
      rewrite handle_kwd_overrides_lookup, get_insert_ne by done.
      rewrite get_insert_ne, get_insert_eq by done. done.
    + subst kwds1. intros v Hv Ht. rewrite Hprops. unfold final_properties.
      rewrite handle_kwd_overrides_lookup, get_insert_ne by done.
      by rewrite (get_some _ _ _ _ Hv), Ht.
  - intros properties kwds' key Hkey.
    rewrite handle_kwd_overrides_lookup.
    by rewrite (bool_decide_eq_false_2 _ Hkey).
Qed.

Lemma overrides_reach_properties_witness :
  match (enter Example.host0 Example.ctx0 "cat.xml" false
           {[ "job_config_file" := PStr "/my/job_conf.xml" ]} Example.world0).2 with
  | Ok a => properties a !! "job_config_file" = Some (PStr "/my/job_conf.xml")
  | Raise _ => False
  end.
Proof.
  assert (Hok : is_ok (enter Example.host0 Example.ctx0 "cat.xml" false
                         {[ "job_config_file" := PStr "/my/job_conf.xml" ]}
                         Example.world0).2 = true)
    by (vm_compute; reflexivity).
  destruct (enter _ _ _ _ _ _) as [w' [a|e]] eqn:E; [|discriminate Hok].
  apply (overrides_reach_properties _ _ _ _ _ _ _ _ E);
    [apply lookup_singleton_eq|reflexivity].
Defined.

(** C1 as stated fails: the user's [job_metrics_config_file] never reaches
    the property dictionary, and with a stock strategy selected neither
    does the user's [tool_dependency_dir]. *)
Lemma user_job_metrics_replaced :
  match (enter Example.host0 Example.ctx0 "cat.xml" false
           {[ "job_metrics_config_file" := PStr "/my/metrics.xml";
              "tool_dependency_dir" := PStr "/my/deps";
              "brew_dependency_resolution" := PBool true ]} Example.world0).2 with
  | Ok a =>
      properties a !! "job_metrics_config_file"
      = Some (PStr "/tmp/tmpAB/job_metrics_conf.xml")
      /\ properties a !! "tool_dependency_dir" = Some (PStr "config_directory/deps")
  | Raise _ => False
  end.
Proof. vm_compute. by split. Qed.

(** C3: in every session that reaches its [yield], the property dictionary
    has the key [database_connection] exactly when [for_tests] is false. *)
Theorem database_connection_iff_not_for_tests
    (h : host) (ctx : context) (tool_path : string) (for_tests : bool)
    (kwds : gmap string value) (w w' : world) (a : assembled) :
  enter h ctx tool_path for_tests kwds w = (w', Ok a) ->
  (is_Some (properties a !! "database_connection") <-> for_tests = false).
Proof.
  intros (l & w1 & _ & Ha)%enter_ok.
  apply assemble_ok in Ha
    as (cd & kwds1 & w2 & w3 & pre & td & _ & _ & _ & -> & _).
  apply final_properties_database_connection.
Qed.

Lemma database_connection_iff_not_for_tests_witness :
  match (enter Example.host0 Example.ctx0 "cat.xml" true ∅ Example.world0).2 with
  | Ok a => ~ is_Some (properties a !! "database_connection")
  | Raise _ => False
  end.
Proof.
  assert (Hok : is_ok (enter Example.host0 Example.ctx0 "cat.xml" true ∅
                         Example.world0).2 = true)
    by (vm_compute; reflexivity).
  destruct (enter _ _ _ _ _ _) as [w' [a|e]] eqn:E; [|discriminate Hok].
  intros H%(database_connection_iff_not_for_tests _ _ _ _ _ _ _ _ E).
  discriminate H.
Defined.

(** ** The environment *)

Lemma is_lower_spec c :
  is_lower c = true <-> (97 <= nat_of_ascii c <= 122)%nat.
Proof. unfold is_lower. rewrite andb_true_iff, !Nat.leb_le. done. Qed.

Lemma is_upper_spec c :
  is_upper c = true <-> (65 <= nat_of_ascii c <= 90)%nat.
Proof. unfold is_upper. rewrite andb_true_iff, !Nat.leb_le. done. Qed.

Lemma upper_char_of_lower c :
  is_lower c = true -> nat_of_ascii (upper_char c) = (nat_of_ascii c - 32)%nat.
Proof.
  intros Hl. unfold upper_char. rewrite Hl.
  apply nat_ascii_embedding. pose proof (nat_ascii_bounded c). lia.
Qed.

Lemma upper_char_inj c d :
  is_upper c = false -> is_upper d = false -> upper_char c = upper_char d -> c = d.
Proof.
  intros Hc Hd E.
  rewrite <- (ascii_nat_embedding c), <- (ascii_nat_embedding d). f_equal.
  apply (f_equal nat_of_ascii) in E.
  apply not_true_iff_false in Hc, Hd. rewrite is_upper_spec in Hc, Hd.
  destruct (is_lower c) eqn:Lc, (is_lower d) eqn:Ld.
  - rewrite !upper_char_of_lower in E by done.
    apply is_lower_spec in Lc, Ld. lia.
  - rewrite upper_char_of_lower in E by done.
    unfold upper_char in E. rewrite Ld in E.
    apply is_lower_spec in Lc. lia.
  - rewrite (upper_char_of_lower d) in E by done.
    unfold upper_char in E. rewrite Lc in E.
    apply is_lower_spec in Ld. lia.
  - unfold upper_char in E. by rewrite Lc, Ld in E.
Qed.

Lemma upper_inj s : forall t,
  no_upper s = true -> no_upper t = true -> upper s = upper t -> s = t.
Proof.
  induction s as [|c s IH]; intros [|d t]; cbn [no_upper upper]; try done.
  intros [Hc Hs]%andb_prop [Hd Ht]%andb_prop [= E1 E2].
  apply negb_true_iff in Hc, Hd.
  f_equal; [by apply upper_char_inj|by apply IH].
Qed.

Lemma override_var_fmt key :
  fmt1 "GALAXY_CONFIG_OVERRIDE_%s" (upper key) = override_var key.
Proof.
  unfold override_var. generalize (upper key). intros u.
  rewrite <- (str_app_nil_r u) at 2. vm_compute. reflexivity.
Qed.

Lemma override_var_inj k k' :
  no_upper k = true -> no_upper k' = true -> override_var k = override_var k' -> k = k'.
Proof.
  intros Hk Hk' E. unfold override_var in E.
  apply (inj (String.app _)) in E. by apply upper_inj.
Qed.

(** [__build_env_for_galaxy] exports every property under its own name,
    and nothing else, when the keys have no upper-case letters. *)
Lemma build_env_for_galaxy_ok (template_args properties : gmap string value) :
  (forall k, is_Some (properties !! k) -> no_upper k = true) ->
  forall env, __build_env_for_galaxy properties template_args = Ok env ->
    (forall key value, properties !! key = Some value ->
       exists s, __sub value template_args = Ok s
                 /\ env !! override_var key = Some (PStr s))
    /\ (forall name, is_Some (env !! name) -> exists key, name = override_var key).
Proof.
  unfold __build_env_for_galaxy.
  apply (map_fold_weak_ind
           (fun r m =>
              (forall k, is_Some (m !! k) -> no_upper k = true) ->
              forall env, r = Ok env ->
                (forall key value, m !! key = Some value ->
                   exists s, __sub value template_args = Ok s
                             /\ env !! override_var key = Some (PStr s))
                /\ (forall name, is_Some (env !! name) -> exists key, name = override_var key))).
  - intros _ env [= <-]. split.
    + intros key value H. by rewrite lookup_empty in H.
    + intros name [? H]. by rewrite lookup_empty in H.
  - intros i x m r Hi IH Hlow env Henv.
    destruct r as [env0|e]; [|done].
    destruct (__sub x template_args) as [s|e] eqn:Hs; [|done].
    assert (env = <[override_var i := PStr s]> env0) as ->
      by (rewrite override_var_fmt in Henv; congruence).
    clear Henv.
    assert (Hlow' : forall k, is_Some (m !! k) -> no_upper k = true).
    { intros k [v Hk]. apply Hlow. destruct (decide (i = k)) as [->|]; [congruence|].
      rewrite lookup_insert_ne by done. by eexists. }
    destruct (IH Hlow' env0 eq_refl) as [IH1 IH2]. split.
    + intros key value Hkey. destruct (decide (i = key)) as [->|Hne].
      * rewrite lookup_insert_eq in Hkey. injection Hkey as <-.
        exists s. by rewrite lookup_insert_eq.
      * rewrite lookup_insert_ne in Hkey by done.
        destruct (IH1 _ _ Hkey) as (s' & Hs' & Hl). exists s'. split; [done|].
        rewrite lookup_insert_ne; [done|].
        intros E%override_var_inj; [done| |].
        -- apply Hlow. rewrite lookup_insert_eq. by eexists.
        -- apply Hlow'. by eexists.
    + intros name Hname. destruct (decide (override_var i = name)) as [<-|Hne].
      * by eexists.
      * rewrite lookup_insert_ne in Hname by done. by apply IH2.
Qed.

Lemma final_properties_keys for_tests kwds tool_conf tool_data_table
    empty_tool_conf test_data_dir key :
  is_Some (final_properties for_tests kwds tool_conf tool_data_table
             empty_tool_conf test_data_dir !! key) ->
  no_upper key = true.
Proof.
  unfold final_properties. rewrite handle_kwd_overrides_lookup.
  destruct (bool_decide (key ∈ kwds_gx_properties)) eqn:Hin.
  - intros _. apply bool_decide_eq_true_1 in Hin.
    repeat (apply elem_of_cons in Hin as [->|Hin]; [reflexivity|]).
    by apply elem_of_nil in Hin.
  - cbn [andb]. intros [v Hv].
    assert (make_properties tool_conf tool_data_table empty_tool_conf test_data_dir
              !! key = Some v \/ key = "database_connection") as [Hm| ->].
    { destruct for_tests; cbn [negb] in Hv; [by left|].
      destruct (decide ("database_connection" = key)) as [<-|]; [by right|].
      rewrite lookup_insert_ne in Hv by done. by left. }
    + unfold make_properties in Hm. apply elem_of_list_to_map_2 in Hm.
      repeat (apply elem_of_cons in Hm as [[= -> _]|Hm]; [reflexivity|]).
      by apply elem_of_nil in Hm.
    + reflexivity.
Qed.

Lemma test_env_loop_lookup (properties : gmap string value)
    (variants : list (string * string)) : forall env : gmap string value,
  NoDup variants.*1 ->
  (forall test_key gx_key, (test_key, gx_key) ∈ variants ->
     foldl (fun env '(test_key, gx_key) =>
              let value := get properties gx_key PNone in
              if decide (value = PNone) then env else <[test_key := value]> env)
           env variants !! test_key
     = if decide (get properties gx_key PNone = PNone) then env !! test_key
       else Some (get properties gx_key PNone))
  /\ (forall name, name ∉ variants.*1 ->
        foldl (fun env '(test_key, gx_key) =>
                 let value := get properties gx_key PNone in
                 if decide (value = PNone) then env else <[test_key := value]> env)
              env variants !! name
        = env !! name).
Proof.
  induction variants as [|[tk gk] rest IH]; intros env Hnd.
  - split; [by intros ?? ?%elem_of_nil|done].
  - cbn [fmap list_fmap fst] in Hnd. apply NoDup_cons in Hnd as [Hfresh Hnd].
    cbn [foldl].
    assert (Hstep : forall name, name <> tk ->
              (if decide (get properties gk PNone = PNone) then env
               else <[tk := get properties gk PNone]> env) !! name = env !! name).
    { intros name Hne. case_decide; [done|]. by rewrite lookup_insert_ne. }
    split.
    + intros test_key gx_key [[= -> ->]|Hin]%elem_of_cons.
      * rewrite (proj2 (IH _ Hnd)) by done.
        case_decide; [done|]. by rewrite lookup_insert_eq.
      * rewrite (proj1 (IH _ Hnd) _ _ Hin).
        assert (test_key <> tk) as Hne.
        { intros ->. apply Hfresh.
          apply (list_elem_of_fmap_2 fst) in Hin. exact Hin. }
        by rewrite Hstep.
    + intros name [Hne Hnin]%not_elem_of_cons.
      rewrite (proj2 (IH _ Hnd)) by done. by apply Hstep.
Qed.

Lemma test_property_variants_nodup : NoDup test_property_variants.*1.
Proof. apply (bool_decide_unpack _). vm_compute. exact I. Qed.

Lemma build_test_env_lookup (properties env : gmap string value) :
  (forall test_key gx_key, (test_key, gx_key) ∈ test_property_variants ->
     __build_test_env properties env !! test_key
     = if decide (get properties gx_key PNone = PNone) then env !! test_key
       else Some (get properties gx_key PNone))
  /\ (forall name, name ∉ test_property_variants.*1 ->
        __build_test_env properties env !! name = env !! name).
Proof.
  exact (test_env_loop_lookup properties test_property_variants env
           test_property_variants_nodup).
Qed.

(** An exported property name has a [C] where the legacy names and the
    two test variables have a [T]. *)
Lemma override_var_eighth key : String.get 7 (override_var key) = Some "C"%char.
Proof. reflexivity. Qed.

Lemma final_env_ok (properties template_args env : gmap string value) pre :
  (forall k, is_Some (properties !! k) -> no_upper k = true) ->
  final_env properties template_args pre = Ok env ->
  (forall key value, properties !! key = Some value ->
     exists s, __sub value template_args = Ok s
               /\ env !! override_var key = Some (PStr s))
  /\ (forall test_key gx_key, (test_key, gx_key) ∈ test_property_variants ->
        env !! test_key
        = match properties !! gx_key with
          | Some value => if decide (value = PNone) then None else Some value
          | None => None
          end).
Proof.
  intros Hlow. unfold final_env.
  destruct (__build_env_for_galaxy properties template_args) as [env0|e] eqn:E0; [|done].
  intros [= <-].
  destruct (build_env_for_galaxy_ok _ _ Hlow _ E0) as [Hvars Honly].
  destruct (build_test_env_lookup properties env0) as [Halias Hother].
  split.
  - intros key value Hkey. destruct (Hvars _ _ Hkey) as (s & Hs & Hl).
    exists s. split; [done|].
    pose proof (override_var_eighth key) as H8.
    assert (__build_test_env properties env0 !! override_var key = Some (PStr s)) as Ht.
    { rewrite Hother; [done|]. intros Hin. cbn in Hin.
      repeat (apply elem_of_cons in Hin as [Hin|Hin]; [by rewrite Hin in H8|]).
      by apply elem_of_nil in Hin. }
    rewrite lookup_insert_ne by (intros Hx; by rewrite <- Hx in H8).
    destruct pre; [|done].
    by rewrite lookup_insert_ne by (intros Hx; by rewrite <- Hx in H8).
  - intros test_key gx_key Hin.
    assert (env0 !! test_key = None) as Hnone.
    { destruct (env0 !! test_key) as [v|] eqn:Hv; [|done].
      destruct (Honly test_key) as [key ->]; [by eexists|].
      pose proof (override_var_eighth key) as H8. exfalso.
      unfold test_property_variants in Hin.
      repeat (apply elem_of_cons in Hin as [Hin|Hin];
              [apply (f_equal fst) in Hin; cbn [fst] in Hin; by rewrite Hin in H8|]).
      by apply elem_of_nil in Hin. }
    assert (__build_test_env properties env0 !! test_key
            = match properties !! gx_key with
              | Some value => if decide (value = PNone) then None else Some value
              | None => None
              end) as Ht.
    { rewrite (Halias _ _ Hin), Hnone. unfold get.
      destruct (properties !! gx_key) as [v|]; [|done]. by case_decide. }
    assert (test_key <> "GALAXY_TEST_UPLOAD_ASYNC"
            /\ test_key <> "GALAXY_TEST_DB_TEMPLATE") as [Hn1 Hn2].
    { unfold test_property_variants in Hin.
      repeat (apply elem_of_cons in Hin as [[= -> _]|Hin]; [done|]).
      by apply elem_of_nil in Hin. }
    rewrite lookup_insert_ne by done.
    destruct pre; [|done]. by rewrite lookup_insert_ne.
Qed.

(** The entries of [template_args]. *)
Lemma make_template_args_lookup kwds cdv db tdef tp tc :
  let ta := make_template_args kwds cdv db tdef tp tc in
  ta !! "port" = Some (get kwds "port" (PInt 9090))
  /\ ta !! "host" = Some (PStr "127.0.0.1")
  /\ ta !! "temp_directory" = Some cdv
  /\ ta !! "database_location" = Some (PStr db)
  /\ ta !! "tool_definition" = Some (PStr (fmt1 tdef tp))
  /\ ta !! "tool_conf" = Some (PStr tc)
  /\ ta !! "debug" = Some (get kwds "debug" (PStr "true"))
  /\ ta !! "master_api_key" = Some (get kwds "master_api_key" (PStr "test_key"))
  /\ ta !! "id_secret" = Some (get kwds "id_secret" (PStr "test_secret"))
  /\ ta !! "log_level" = Some (get kwds "log_level" (PStr "DEBUG")).
Proof.
  unfold make_template_args.
  generalize (get kwds "port" (PInt 9090)) (get kwds "debug" (PStr "true"))
             (get kwds "master_api_key" (PStr "test_key"))
             (get kwds "id_secret" (PStr "test_secret"))
             (get kwds "log_level" (PStr "DEBUG")) (fmt1 tdef tp).
  intros v1 v2 v3 v4 v5 s. vm_compute. repeat split.
Qed.

(** ... and there are no others. *)
Lemma make_template_args_names kwds cdv db tdef tp tc name :
  is_Some (make_template_args kwds cdv db tdef tp tc !! name) ->
  name ∈ ["port"; "host"; "temp_directory"; "database_location"; "tool_definition";
          "tool_conf"; "debug"; "master_api_key"; "id_secret"; "log_level"].
Proof.
  intros [v Hv]. unfold make_template_args in Hv.
  apply elem_of_list_to_map_2 in Hv.
  repeat (apply elem_of_cons in Hv as [[= -> _]|Hv];
          [apply (bool_decide_unpack _); vm_compute; exact I|]).
  by apply elem_of_nil in Hv.
Qed.

(** The options that [template_args] reads are as the caller gave them:
    the session itself assigns three other keys of [kwds]. *)
Lemma enter_template_args h ctx tool_path for_tests kwds w w' a :
  enter h ctx tool_path for_tests kwds w = (w', Ok a) ->
  exists cd kwds2 tool_definition preseeded_database,
    config_directory (yielded a) = PStr cd
    /\ (forall key default,
          key ∉ ["tool_dependency_dir"; "dependency_resolvers_config_file";
                 "job_metrics_config_file"] ->
          get kwds2 key default = get kwds key default)
    /\ template_args a
       = make_template_args kwds2 (PStr cd) (Path.join cd "galaxy.sqlite")
           tool_definition tool_path (Path.join cd "tool_conf.xml")
    /\ (forall k, is_Some (properties a !! k) -> no_upper k = true)
    /\ final_env (properties a) (template_args a) preseeded_database
       = Ok (env (yielded a)).
Proof.
  intros (l & w1 & _ & Ha)%enter_ok.
  apply assemble_ok in Ha
    as (cd & kwds1 & w2 & w3 & pre & td & _ & _ & Hstock & Hprops & Hta & Henv & _ & Hcd & _).
  exists cd, (<["job_metrics_config_file" := PStr (Path.join cd "job_metrics_conf.xml")]> kwds1),
         td, pre.
  split; [done|]. split; [|split; [done|split; [|done]]].
  - intros key default Hkey.
    rewrite get_insert_ne by (intros <-; apply Hkey; do 2 right; left).
    apply write_stock_strategies_ok in Hstock; [|exact stock_keys_apart].
    destruct (existsb _ _); [|by rewrite Hstock].
    destruct Hstock as (cd' & _ & ->).
    rewrite !get_insert_ne; [done| |].
    + intros <-. apply Hkey. left.
    + intros <-. apply Hkey. right. left.
  - rewrite Hprops. apply final_properties_keys.
Qed.

(** C9: in every session that reaches its [yield], every key of the
    property dictionary is exported as [GALAXY_CONFIG_OVERRIDE_] followed by
    the key in upper case.  The exported value is the empty string for
    [None] and otherwise the property's text after one pass of
    [Template.safe_substitute] over [template_args]: a placeholder
    [${name}] in it, not preceded by an escape, is replaced by the text of
    the template argument [name], and kept when there is no such argument.
    The template arguments are [port], [host], [temp_directory],
    [database_location], [tool_definition], [tool_conf], [debug],
    [master_api_key], [id_secret] and [log_level]: the working directory,
    paths below it and the caller's options with their defaults.  Each of
    the five legacy names ([GALAXY_TEST_MIGRATED_TOOL_CONF] and
    [GALAXY_TEST_SHED_TOOL_CONF] for [migrated_tools_config],
    [GALAXY_TEST_TOOL_CONF] for [tool_config_file], [GALAXY_TEST_FILE_DIR]
    for [test_data_dir], [GALAXY_TOOL_DEPENDENCY_DIR] for
    [tool_dependency_dir]) is in the environment exactly when its property
    is set to something other than [None], with the property's own value,
    not substituted. *)
Theorem env_exposes_properties
    (h : host) (ctx : context) (tool_path : string) (for_tests : bool)
    (kwds : gmap string value) (w w' : world) (a : assembled) :
  enter h ctx tool_path for_tests kwds w = (w', Ok a) ->
  let e := env (yielded a) in
  let args := template_args a in
  let alias (test_key gx_key : string) :=
    e !! test_key
    = match properties a !! gx_key with
      | Some value => if decide (value = PNone) then None else Some value
      | None => None
      end in
  (forall key value, properties a !! key = Some value ->
     match value with
     | PNone => e !! ("GALAXY_CONFIG_OVERRIDE_" +:+ upper key) = Some (PStr "")
     | PStr template =>
         e !! ("GALAXY_CONFIG_OVERRIDE_" +:+ upper key)
         = Some (PStr (Template.safe_substitute template args))
     | _ => False
     end)
  /\ (forall key pre name post,
        properties a !! key = Some (PStr (pre +:+ "${" +:+ name +:+ "}" +:+ post)) ->
        is_identifier name = true -> Nat.even (trailing_dollars pre) = true ->
        e !! ("GALAXY_CONFIG_OVERRIDE_" +:+ upper key)
        = Some (PStr (Template.safe_substitute pre args
                      +:+ match args !! name with
                          | Some v => str v
                          | None => "${" +:+ name +:+ "}"
                          end
                      +:+ Template.safe_substitute post args)))
  /\ (args !! "temp_directory" = Some (config_directory (yielded a))
      /\ (exists cd, config_directory (yielded a) = PStr cd
            /\ args !! "database_location" = Some (PStr (Path.join cd "galaxy.sqlite"))
            /\ args !! "tool_conf" = Some (PStr (Path.join cd "tool_conf.xml")))
      /\ is_Some (args !! "tool_definition")
      /\ args !! "host" = Some (PStr "127.0.0.1")
      /\ args !! "port" = Some (get kwds "port" (PInt 9090))
      /\ args !! "debug" = Some (get kwds "debug" (PStr "true"))
      /\ args !! "master_api_key" = Some (get kwds "master_api_key" (PStr "test_key"))
      /\ args !! "id_secret" = Some (get kwds "id_secret" (PStr "test_secret"))
      /\ args !! "log_level" = Some (get kwds "log_level" (PStr "DEBUG"))
      /\ forall name, is_Some (args !! name) ->
           name ∈ ["port"; "host"; "temp_directory"; "database_location";
                   "tool_definition"; "tool_conf"; "debug"; "master_api_key";
                   "id_secret"; "log_level"])
  /\ alias "GALAXY_TEST_MIGRATED_TOOL_CONF" "migrated_tools_config"
  /\ alias "GALAXY_TEST_SHED_TOOL_CONF" "migrated_tools_config"
  /\ alias "GALAXY_TEST_TOOL_CONF" "tool_config_file"
  /\ alias "GALAXY_TEST_FILE_DIR" "test_data_dir"
  /\ alias "GALAXY_TOOL_DEPENDENCY_DIR" "tool_dependency_dir".
Proof.
  intros (cd & kwds2 & td & pre & Hcd & Hk & Hta & Hlow & Henv)%enter_template_args.
  intros e args alias. subst e args alias. cbv beta.
  destruct (final_env_ok _ _ _ pre Hlow Henv) as [Hvars Halias].
  assert (Hexport : forall key value, properties a !! key = Some value ->
            match value with
            | PNone => env (yielded a) !! ("GALAXY_CONFIG_OVERRIDE_" +:+ upper key)
                       = Some (PStr "")
            | PStr template =>
                env (yielded a) !! ("GALAXY_CONFIG_OVERRIDE_" +:+ upper key)
                = Some (PStr (Template.safe_substitute template (template_args a)))
            | _ => False
            end).
  { intros key value Hkey. destruct (Hvars _ _ Hkey) as (s & Hs & He).
    destruct value; cbn [__sub] in Hs; try done; by injection Hs as <-. }
  split; [exact Hexport|]. split; [|split].
  - intros key before name post Hkey Hname Hbefore.
    rewrite (Hexport _ _ Hkey). do 2 f_equal.
    rewrite safe_substitute_app by done.
    unfold Template.safe_substitute at 2. by rewrite sub_from_braced.
  - destruct (make_template_args_lookup kwds2 (PStr cd) (Path.join cd "galaxy.sqlite")
                td tool_path (Path.join cd "tool_conf.xml"))
      as (T1 & T2 & T3 & T4 & T5 & T6 & T7 & T8 & T9 & T10).
    rewrite <- Hta in T1, T2, T3, T4, T5, T6, T7, T8, T9, T10.
    rewrite Hk in T1, T7, T8, T9, T10 by not_in_list.
    rewrite Hcd.
    split; [exact T3|]. split; [by exists cd|]. split; [by eexists|].
    split; [exact T2|]. split; [exact T1|]. split; [exact T7|].
    split; [exact T8|]. split; [exact T9|]. split; [exact T10|].
    intros name. rewrite Hta. apply make_template_args_names.
  - unfold test_property_variants in Halias.
    split; [apply Halias; left|].
    split; [apply Halias; right; left|].
    split; [apply Halias; do 2 right; left|].
    split; [apply Halias; do 3 right; left|].
    apply Halias; do 4 right; left.
Qed.

Lemma env_exposes_properties_witness :
  match (enter Example.host0 Example.ctx0 "cat.xml" false
           {[ "port" := PInt 8080 ]} Example.world0).2 with
  | Ok a =>
      env (yielded a) !! "GALAXY_CONFIG_OVERRIDE_NEW_FILE_PATH"
      = Some (PStr "/tmp/tmpAB/tmp")
      /\ template_args a !! "port" = Some (PInt 8080)
      /\ env (yielded a) !! "GALAXY_TEST_TOOL_CONF" = properties a !! "tool_config_file"
      /\ env (yielded a) !! "GALAXY_TOOL_DEPENDENCY_DIR" = None
  | Raise _ => False
  end.
Proof.
  assert (Hok : is_ok (enter Example.host0 Example.ctx0 "cat.xml" false
                         {[ "port" := PInt 8080 ]} Example.world0).2 = true)
    by (vm_compute; reflexivity).
  assert (Hp : match (enter Example.host0 Example.ctx0 "cat.xml" false
                        {[ "port" := PInt 8080 ]} Example.world0).2 with
               | Ok a => properties a !! "tool_config_file"
                         = Some (PStr "/tmp/tmpAB/tool_conf.xml")
                         /\ properties a !! "tool_dependency_dir" = None
                         /\ properties a !! "new_file_path"
                            = Some (PStr "${temp_directory}/tmp")
                         /\ config_directory (yielded a) = PStr "/tmp/tmpAB"
               | Raise _ => True
               end)
    by (vm_compute; repeat split; reflexivity).
  destruct (enter _ _ _ _ _ _) as [w' [a|e]] eqn:E; [|discriminate Hok].
  cbn [snd] in *. destruct Hp as (Hp1 & Hp2 & Hp3 & Hp4).
  destruct (env_exposes_properties _ _ _ _ _ _ _ _ E)
    as (_ & Hsub & (Htemp & _ & _ & _ & Hport & _) & _ & _ & Htool & _ & Hdeps).
  split; [|split; [|split]].
  - pose proof (Hsub "new_file_path" "" "temp_directory" "/tmp" Hp3 eq_refl eq_refl) as H.
    rewrite Htemp, Hp4 in H. exact H.
  - exact Hport.
  - by rewrite Htool, Hp1.
  - by rewrite Hdeps, Hp2.
Defined.

(** ** Root discovery *)

Section path_facts.
Import Path.

Lemma is_slash_eq c : is_slash c = true -> c = "/"%char.
Proof. apply Ascii.eqb_eq. Qed.

Lemma head_of_length p :
  (String.length (head_of p) <= String.length p)%nat
  /\ (String.length (head_of p) = String.length p -> head_of p = p).
Proof.
  induction p as [|c p [IH1 IH2]]; [done|]. cbn [head_of].
  destruct (has_slash p).
  - cbn [String.length]. split; [lia|]. intros [= E]. by rewrite IH2.
  - destruct (is_slash c) eqn:Hc; cbn [String.length].
    + split; [lia|]. intros [= E]. destruct p; [|done].
      by rewrite (is_slash_eq _ Hc).
    + split; [lia|done].
Qed.

Lemma rstrip_slash_length s :
  (String.length (rstrip_slash s) <= String.length s)%nat
  /\ (String.length (rstrip_slash s) = String.length s -> rstrip_slash s = s).
Proof.
  induction s as [|c s [IH1 IH2]]; [done|]. cbn [rstrip_slash].
  destruct (_ && _); cbn [String.length].
  - split; [lia|done].
  - split; [lia|]. intros [= E]. by rewrite IH2.
Qed.

(** [dirname] shortens a path, or gives it back. *)
Lemma dirname_shorter p :
  dirname p <> p -> (String.length (dirname p) < String.length p)%nat.
Proof.
  unfold dirname. intros Hne.
  destruct (head_of_length p) as [H1 H2].
  destruct (rstrip_slash_length (head_of p)) as [R1 R2].
  destruct (_ && _).
  - destruct (decide (String.length (rstrip_slash (head_of p)) = String.length p))
      as [E|]; [|lia].
    exfalso. apply Hne. rewrite R2 by lia. apply H2. lia.
  - destruct (decide (String.length (head_of p) = String.length p)) as [E|]; [|lia].
    exfalso. by apply Hne, H2.
Qed.

Lemma ancestor_succ n p : ancestor (S n) p = ancestor n (dirname p).
Proof. apply Nat.iter_succ_r. Qed.

Lemma ancestor_fixed n p : dirname p = p -> ancestor n p = p.
Proof.
  intros E. unfold ancestor. induction n as [|n IH]; [done|].
  by rewrite Nat.iter_succ, IH.
Qed.
End path_facts.

Section root_facts.
Variable h : host.
Variable f : gmap string node.

(** What the loop returns, given fuel for the length of the path. *)
Lemma find_root_loop_spec fuel : forall par_dir,
  (String.length par_dir < fuel)%nat ->
  match find_root_loop h f fuel par_dir with
  | Some (Some d) =>
      exists n, d = ancestor n par_dir
        /\ is_galaxy_root h f d = true
        /\ forall m, (m < n)%nat -> is_galaxy_root h f (ancestor m par_dir) = false
  | Some None => forall n, is_galaxy_root h f (ancestor n par_dir) = false
  | None => False
  end.
Proof.
  induction fuel as [|fuel IH]; intros par_dir Hlen; [lia|].
  cbn [find_root_loop]. fold (is_galaxy_root h f par_dir).
  destruct (is_galaxy_root h f par_dir) eqn:Hroot.
  - exists 0%nat. split; [done|]. split; [done|]. intros m ?. lia.
  - destruct (String.eqb_spec (Path.dirname par_dir) par_dir) as [Hfix|Hne].
    + intros n. by rewrite ancestor_fixed.
    + pose proof (dirname_shorter _ Hne) as Hshort.
      specialize (IH (Path.dirname par_dir) ltac:(lia)).
      destruct (find_root_loop h f fuel (Path.dirname par_dir)) as [[d|]|]; [| |done].
      * destruct IH as (n & -> & Hd & Hmin). exists (S n).
        rewrite ancestor_succ. split; [done|]. split; [done|].
        intros [|m] Hm; [done|]. rewrite ancestor_succ. apply Hmin. lia.
      * intros [|n]; [done|]. rewrite ancestor_succ. apply IH.
Qed.

(** Two first roots on the same walk are the same one. *)
Lemma first_root_unique p n n' :
  is_galaxy_root h f (ancestor n p) = true ->
  (forall m, (m < n)%nat -> is_galaxy_root h f (ancestor m p) = false) ->
  is_galaxy_root h f (ancestor n' p) = true ->
  (forall m, (m < n')%nat -> is_galaxy_root h f (ancestor m p) = false) ->
  n = n'.
Proof.
  intros H1 M1 H2 M2.
  destruct (Nat.lt_trichotomy n n') as [Hlt|[->|Hlt]]; [|done|].
  - rewrite (M2 _ Hlt) in H1. done.
  - rewrite (M1 _ Hlt) in H2. done.
Qed.
End root_facts.

(** ** Before the [try] *)

Section setup_facts.
Variable h : host.

Lemma os_path_abspath_spec v :
  match os_path_abspath h v with
  | Ok _ => True
  | Raise e => e = AttributeError
  end.
Proof. by destruct v. Qed.

Lemma path_option_abspath kwds key :
  path_option kwds key = true -> truthy (get kwds key PNone) = true ->
  exists s, get kwds key PNone = PStr s /\ s <> "".
Proof.
  unfold path_option. destruct (get kwds key PNone) as [|b|z|s]; cbn [truthy negb];
    try congruence.
  - intros H1 H2. rewrite H2 in H1. done.
  - intros H1 H2. rewrite H2 in H1. done.
  - intros _ Hs. exists s. split; [done|]. intros ->. done.
Qed.

(** [__find_test_data] reads the file system and may warn. *)
Lemma find_test_data_spec path kwds w :
  fs (__find_test_data h path kwds w).1 = fs w
  /\ extends is_warn w (__find_test_data h path kwds w).1
  /\ match (__find_test_data h path kwds w).2 with
     | Ok _ => True
     | Raise e => e = AttributeError /\ path_option kwds "test_data" = false
     end.
Proof.
  unfold __find_test_data, path_option.
  destruct (truthy (get kwds "test_data" PNone)) eqn:Ht.
  - destruct (get kwds "test_data" PNone) as [|b|z|s];
      cbn [truthy] in Ht; cbn; try discriminate Ht;
      (split; [done|]); (split; [apply extends_refl|]);
      try done; by rewrite Ht.
  - unfold __search_tool_path_for, bind, get_fs, ret, warn, emit. cbn.
    destruct (truthy (of_option _)); cbn.
    + split; [done|]. split; [apply extends_refl|done].
    + split; [done|]. split; [|done]. by exists [EWarn NO_TEST_DATA_MESSAGE].
Qed.

Lemma find_tool_data_table_spec path test_data_dir kwds w :
  (__find_tool_data_table h path test_data_dir kwds w).1 = w
  /\ match (__find_tool_data_table h path test_data_dir kwds w).2 with
     | Ok _ => True
     | Raise e => e = AttributeError /\ path_option kwds "tool_data_table" = false
     end.
Proof.
  unfold __find_tool_data_table, path_option.
  destruct (truthy (get kwds "tool_data_table" PNone)) eqn:Ht.
  - destruct (get kwds "tool_data_table" PNone) as [|b|z|s];
      cbn [truthy] in Ht; cbn; try discriminate Ht;
      (split; [done|]); try done; by rewrite Ht.
  - done.
Qed.

Lemma find_galaxy_root_run ctx kwds w :
  __find_galaxy_root h ctx kwds w = (w, find_galaxy_root_in h (fs w) ctx kwds).
Proof. done. Qed.

(** [splat] fails in one way only. *)
Lemma splat_raise bound kwds e : splat bound kwds = Raise e -> e = TypeError.
Proof. unfold splat. destruct (existsb _ _); [by intros [= <-]|done]. Qed.

Lemma splat_sub bound bound' kwds :
  bound ⊆ bound' -> is_ok (splat bound' kwds) = true -> splat bound kwds = Ok tt.
Proof.
  unfold splat. intros Hsub Hok.
  destruct (existsb _ bound') eqn:E'; [done|].
  destruct (existsb _ bound) eqn:E; [|done].
  apply existsb_exists in E as (x & Hx%list_elem_of_In & Hk).
  assert (existsb (fun name => bool_decide (is_Some (kwds !! name))) bound' = true)
    as Hc; [|congruence].
  apply existsb_exists. exists x. split; [|done]. by apply list_elem_of_In, Hsub.
Qed.

Lemma splat_sup bound bound' kwds :
  bound ⊆ bound' -> is_ok (splat bound kwds) = false -> is_ok (splat bound' kwds) = false.
Proof.
  intros Hsub Hb. destruct (is_ok (splat bound' kwds)) eqn:E; [|done].
  by rewrite (splat_sub _ _ _ Hsub E) in Hb.
Qed.

Lemma bind_splat_ok {A} bound kwds (m : M A) w :
  is_ok (splat bound kwds) = true -> (lift (splat bound kwds) ;;; m) w = m w.
Proof. intros H. unfold bind, lift. by destruct (splat bound kwds) as [[]|]. Qed.

(** One written-out list of names lies within another. *)
Ltac names_within :=
  unfold reserved_names; intros ?; rewrite !elem_of_cons, !elem_of_nil; tauto.

Lemma bind_splat_raise {A} bound kwds (m : M A) w :
  is_ok (splat bound kwds) = false ->
  (lift (splat bound kwds) ;;; m) w = (w, Raise TypeError).
Proof.
  intros H. unfold bind, lift.
  destruct (splat bound kwds) as [[]|e] eqn:E; [done|].
  by rewrite (splat_raise _ _ _ E).
Qed.

Lemma splat_reserved kwds :
  is_ok (splat ["ctx"; "tool_path"; "for_tests"] kwds) = true ->
  is_ok (splat ["path"; "test_data_dir"] kwds) = true ->
  is_ok (splat reserved_names kwds) = true.
Proof.
  unfold splat, reserved_names. cbn [existsb].
  destruct (bool_decide (is_Some (kwds !! "ctx"))); [done|].
  destruct (bool_decide (is_Some (kwds !! "tool_path"))); [done|].
  destruct (bool_decide (is_Some (kwds !! "for_tests"))); [done|].
  destruct (bool_decide (is_Some (kwds !! "path"))); [done|].
  by destruct (bool_decide (is_Some (kwds !! "test_data_dir"))).
Qed.

Lemma find_test_data_ok path kwds w w1 td :
  __find_test_data h path kwds w = (w1, Ok td) -> path_option kwds "test_data" = true.
Proof.
  unfold __find_test_data, path_option.
  destruct (truthy (get kwds "test_data" PNone)) eqn:Ht.
  - intros (p & ? & [Hp _]%lift_ok & _)%bind_ok.
    by destruct (get kwds "test_data" PNone).
  - intros _. destruct (get kwds "test_data" PNone); try done; by rewrite Ht.
Qed.

Lemma find_tool_data_table_ok path td kwds w w1 tdt :
  __find_tool_data_table h path td kwds w = (w1, Ok tdt) ->
  path_option kwds "tool_data_table" = true.
Proof.
  unfold __find_tool_data_table, path_option.
  destruct (truthy (get kwds "tool_data_table" PNone)) eqn:Ht.
  - intros (p & ? & [Hp _]%lift_ok & _)%bind_ok.
    by destruct (get kwds "tool_data_table" PNone).
  - intros _. destruct (get kwds "tool_data_table" PNone); try done; by rewrite Ht.
Qed.

(** What [setup] leaves behind: on success the locals and, at most, the
    fresh directory; on failure nothing but warnings, and the error of the
    first step that failed. *)
Lemma setup_spec ctx tool_path kwds w :
  let cd := get kwds "config_directory" PNone in
  let install := truthy (get kwds "install_galaxy" PNone) in
  match setup h ctx tool_path kwds w with
  | (w1, Ok l) =>
      l_created_config_directory l = negb (truthy cd)
      /\ l_config_directory l = (if truthy cd then cd else PStr (tmp_name h))
      /\ (if install then l_galaxy_root l = PNone
          else find_galaxy_root_in h (fs w) ctx kwds = Ok (l_galaxy_root l))
      /\ exists w0, fs w0 = fs w /\ extends is_warn w w0
          /\ (if truthy cd then w1 = w0
              else w1 = World (<[abspath h (tmp_name h) := Dir]> (fs w0))
                              (trace w0 ++ [EMkdtemp (tmp_name h)]))
  | (w1, Raise e) =>
      fs w1 = fs w /\ extends is_warn w w1
      /\ ((e = TypeError /\ is_ok (splat reserved_names kwds) = false)
          \/ (e = AttributeError
              /\ (path_option kwds "test_data" = false
                  \/ path_option kwds "tool_data_table" = false))
          \/ (install = false /\ find_galaxy_root_in h (fs w) ctx kwds = Raise e
              /\ is_ok (splat reserved_names kwds) = true
              /\ path_option kwds "test_data" = true
              /\ path_option kwds "tool_data_table" = true)
          \/ (e = OSError (tmp_name h) /\ truthy cd = false /\ mkdtemp_ok h = false
              /\ is_ok (splat reserved_names kwds) = true
              /\ path_option kwds "test_data" = true
              /\ path_option kwds "tool_data_table" = true
              /\ (install = true
                  \/ is_ok (find_galaxy_root_in h (fs w) ctx kwds) = true)))
  end.
Proof.
  intros cd install. unfold setup.
  destruct (is_ok (splat ["ctx"; "tool_path"; "for_tests"] kwds)) eqn:S1.
  2:{ rewrite bind_splat_raise by done. split; [done|]. split; [apply extends_refl|].
      left. split; [done|]. revert S1. apply splat_sup. names_within. }
  rewrite bind_splat_ok by done.
  destruct (is_ok (splat ["path"] kwds)) eqn:S2.
  2:{ rewrite (bind_raise _ _ w w TypeError) by (by apply bind_splat_raise).
      split; [done|]. split; [apply extends_refl|].
      left. split; [done|]. revert S2. apply splat_sup. names_within. }
  destruct (find_test_data_spec tool_path kwds w) as (Hfs1 & Hx1 & Hr1).
  destruct (__find_test_data h tool_path kwds w) as [w1 [tdd|e]] eqn:Htd;
    cbn [fst snd] in *.
  2:{ rewrite (bind_raise _ _ w w1 e)
        by (by rewrite bind_splat_ok).
      destruct Hr1 as [-> ?]. split; [done|]. split; [done|].
      right. left. by split; [|left]. }
  rewrite (bind_step _ _ w w1 tdd)
    by (by rewrite bind_splat_ok).
  destruct (is_ok (splat ["path"; "test_data_dir"] kwds)) eqn:S3.
  2:{ rewrite (bind_raise _ _ w1 w1 TypeError) by (by apply bind_splat_raise).
      split; [done|]. split; [done|].
      left. split; [done|]. revert S3. apply splat_sup. names_within. }
  destruct (find_tool_data_table_spec tool_path tdd kwds w1) as (Hw2 & Hr2).
  destruct (__find_tool_data_table h tool_path tdd kwds w1) as [w2 [tdt|e]] eqn:Htdt;
    cbn [fst snd] in *; subst w2.
  2:{ rewrite (bind_raise _ _ w1 w1 e)
        by (by rewrite bind_splat_ok).
      destruct Hr2 as [-> ?]. split; [done|]. split; [done|].
      right. left. by split; [|right]. }
  rewrite (bind_step _ _ w1 w1 tdt)
    by (by rewrite bind_splat_ok).
  fold install.
  pose proof (splat_reserved kwds S1 S3) as Hres.
  pose proof (find_test_data_ok _ _ _ _ _ Htd) as Hopt1.
  pose proof (find_tool_data_table_ok _ _ _ _ _ _ Htdt) as Hopt2.
  assert (Hroot : (if install then ret PNone
                   else lift (splat ["ctx"] kwds) ;;; __find_galaxy_root h ctx kwds) w1
                  = (w1, if install then Ok PNone
                         else find_galaxy_root_in h (fs w) ctx kwds)).
  { destruct install; [done|].
    rewrite bind_splat_ok; [by rewrite find_galaxy_root_run, Hfs1|].
    rewrite (splat_sub _ ["ctx"; "tool_path"; "for_tests"]); [done|names_within|done]. }
  assert (Hmk : forall root,
    (if negb (truthy cd)
     then config_directory <~ mkdtemp h ;;
          ret (Locals tdd tdt root (PStr config_directory) true)
     else ret (Locals tdd tdt root cd false)) w1
    = if truthy cd then (w1, Ok (Locals tdd tdt root cd false))
      else if mkdtemp_ok h
           then (World (<[abspath h (tmp_name h) := Dir]> (fs w1))
                       (trace w1 ++ [EMkdtemp (tmp_name h)]),
                 Ok (Locals tdd tdt root (PStr (tmp_name h)) true))
           else (w1, Raise (OSError (tmp_name h)))).
  { intros root. destruct (truthy cd); [done|]. cbn [negb].
    unfold mkdtemp. by destruct (mkdtemp_ok h). }
  destruct install eqn:Hinst.
  - rewrite (bind_step _ _ _ _ _ Hroot), Hmk. fold cd.
    destruct (truthy cd) eqn:Hcd; cbn.
    + repeat split; try done. by exists w1.
    + destruct (mkdtemp_ok h) eqn:Hok; cbn.
      * repeat split; try done. by exists w1.
      * split; [done|]. split; [done|]. do 3 right. repeat split; try done. by left.
  - destruct (find_galaxy_root_in h (fs w) ctx kwds) as [root|e] eqn:Hfind.
    + rewrite (bind_step _ _ _ _ _ Hroot), Hmk. fold cd.
      destruct (truthy cd) eqn:Hcd; cbn.
      * repeat split; try done. by exists w1.
      * destruct (mkdtemp_ok h) eqn:Hok; cbn.
        -- repeat split; try done. by exists w1.
        -- split; [done|]. split; [done|]. do 3 right. repeat split; try done. by right.
    + rewrite (bind_raise _ _ _ _ _ Hroot).
      split; [done|]. split; [done|]. right. right. by left.
Qed.

(** What a [setup] that went through needed. *)
Lemma setup_ok_inv ctx tool_path kwds w w1 l :
  setup h ctx tool_path kwds w = (w1, Ok l) ->
  is_ok (splat reserved_names kwds) = true
  /\ path_option kwds "test_data" = true
  /\ path_option kwds "tool_data_table" = true
  /\ (truthy (get kwds "config_directory" PNone) = false -> mkdtemp_ok h = true).
Proof.
  unfold setup. intros H.
  apply bind_ok in H as ([] & w0 & [S1 ->]%lift_ok & H).
  apply bind_ok in H as (td & w2 & Htd & H).
  apply bind_ok in Htd as ([] & ? & [S2 ->]%lift_ok & Htd).
  apply bind_ok in H as (tdt & w3 & Htdt & H).
  apply bind_ok in Htdt as ([] & ? & [S3 ->]%lift_ok & Htdt).
  apply bind_ok in H as (root & w4 & _ & H).
  split; [|split; [|split]].
  - apply splat_reserved; [by rewrite S1|by rewrite S3].
  - by eapply find_test_data_ok.
  - by eapply find_tool_data_table_ok.
  - intros Hcd. rewrite Hcd in H. cbn [negb] in H.
    apply bind_ok in H as (cd & w5 & Hmk & _).
    unfold mkdtemp in Hmk. by destruct (mkdtemp_ok h).
Qed.


(** When the arguments bind, [setup] is its steps without the binding. *)
Lemma setup_bound ctx tool_path kwds w :
  is_ok (splat reserved_names kwds) = true ->
  setup h ctx tool_path kwds w
  = (test_data_dir <~ __find_test_data h tool_path kwds ;;
     tool_data_table <~ __find_tool_data_table h tool_path test_data_dir kwds ;;
     galaxy_root <~ (if truthy (get kwds "install_galaxy" PNone) then ret PNone
                     else __find_galaxy_root h ctx kwds) ;;
     let config_directory := get kwds "config_directory" PNone in
     if negb (truthy config_directory) then
       config_directory <~ mkdtemp h ;;
       ret (Locals test_data_dir tool_data_table galaxy_root (PStr config_directory) true)
     else
       ret (Locals test_data_dir tool_data_table galaxy_root config_directory false)) w.
Proof.
  intros H. unfold setup.
  rewrite (splat_sub ["ctx"; "tool_path"; "for_tests"] reserved_names kwds ltac:(names_within) H).
  rewrite (splat_sub ["path"; "test_data_dir"] reserved_names kwds ltac:(names_within) H).
  rewrite (splat_sub ["path"] reserved_names kwds ltac:(names_within) H).
  rewrite (splat_sub ["ctx"] reserved_names kwds ltac:(names_within) H).
  reflexivity.
Qed.

(** The only error of the search for the root. *)
Lemma find_galaxy_root_in_raise f ctx kwds e :
  find_galaxy_root_in h f ctx kwds = Raise e ->
  e = Exception FAILED_TO_FIND_GALAXY_EXCEPTION.
Proof.
  unfold find_galaxy_root_in.
  destruct (truthy (get kwds "galaxy_root" PNone)); [done|].
  destruct (truthy (get (global_config ctx) "galaxy_root" PNone)) eqn:Hg.
  - unfold getitem, get in *. by destruct (global_config ctx !! "galaxy_root").
  - destruct (find_root_loop _ _ _ _) as [[d|]|]; [done| |]; by intros [= <-].
Qed.


End setup_facts.

(** C8: without a [galaxy_root] option and without a global default, root
    discovery returns the first directory, walking up from the current
    working directory through [dirname], that holds a [run.sh] file and a
    [config] directory, and raises the root-not-found exception exactly
    when no directory on that walk does.  Without [install_galaxy] the
    session takes its root from that discovery; it reaches the discovery
    whenever the arguments bind and the path options are well typed, and
    then fails with the discovery's error when the discovery fails; any
    other failure before the [try] is the [TypeError] of an argument bound
    twice, the [AttributeError] of an ill-typed path option, or the
    [OSError] of [mkdtemp].  With [install_galaxy] requested the session
    never runs root discovery: what it does before the [try] does not
    depend on the global configuration, it enters its [try] block with no
    root, fails only with one of those three errors, and yields the root of
    the installation inside the configuration directory. *)
Theorem root_discovery (h : host) (ctx : context) (kwds : gmap string value) :
  (truthy (get kwds "galaxy_root" PNone) = false ->
   truthy (get (global_config ctx) "galaxy_root" PNone) = false ->
   forall f,
     (forall r, find_galaxy_root_in h f ctx kwds = Ok r <->
        exists n, r = PStr (ancestor n (getcwd h))
          /\ is_galaxy_root h f (ancestor n (getcwd h)) = true
          /\ forall m, (m < n)%nat ->
                       is_galaxy_root h f (ancestor m (getcwd h)) = false)
     /\ (forall e, find_galaxy_root_in h f ctx kwds = Raise e <->
           e = Exception FAILED_TO_FIND_GALAXY_EXCEPTION
           /\ forall n, is_galaxy_root h f (ancestor n (getcwd h)) = false))
  /\ (truthy (get kwds "install_galaxy" PNone) = false ->
      forall tool_path w,
        match setup h ctx tool_path kwds w with
        | (_, Ok l) => find_galaxy_root_in h (fs w) ctx kwds = Ok (l_galaxy_root l)
        | (_, Raise e) =>
            (e = TypeError /\ is_ok (splat reserved_names kwds) = false)
            \/ (e = AttributeError
                /\ (path_option kwds "test_data" = false
                    \/ path_option kwds "tool_data_table" = false))
            \/ find_galaxy_root_in h (fs w) ctx kwds = Raise e
            \/ (e = OSError (tmp_name h)
                /\ truthy (get kwds "config_directory" PNone) = false
                /\ mkdtemp_ok h = false)
        end
        /\ (is_ok (splat reserved_names kwds) = true ->
            path_option kwds "test_data" = true ->
            path_option kwds "tool_data_table" = true ->
            forall e, find_galaxy_root_in h (fs w) ctx kwds = Raise e ->
                      (setup h ctx tool_path kwds w).2 = Raise e))
  /\ (truthy (get kwds "install_galaxy" PNone) = true ->
      forall tool_path for_tests w,
        (forall ctx', setup h ctx' tool_path kwds w = setup h ctx tool_path kwds w)
        /\ match setup h ctx tool_path kwds w with
           | (_, Ok l) => l_galaxy_root l = PNone
           | (_, Raise e) =>
               (e = TypeError /\ is_ok (splat reserved_names kwds) = false)
               \/ (e = AttributeError
                   /\ (path_option kwds "test_data" = false
                       \/ path_option kwds "tool_data_table" = false))
               \/ (e = OSError (tmp_name h)
                   /\ truthy (get kwds "config_directory" PNone) = false
                   /\ mkdtemp_ok h = false)
           end
        /\ forall w' a, enter h ctx tool_path for_tests kwds w = (w', Ok a) ->
             exists cd, config_directory (yielded a) = PStr cd
               /\ galaxy_root (yielded a) = PStr (Path.join cd "galaxy-central-master")).
Proof.
  split; [|split].
  - intros Hk Hg f. unfold find_galaxy_root_in. rewrite Hk, Hg.
    pose proof (find_root_loop_spec h f (S (String.length (getcwd h))) (getcwd h)
                  ltac:(lia)) as Hspec.
    destruct (find_root_loop h f _ _) as [[d|]|]; [| |done].
    + destruct Hspec as (n & -> & Hd & Hmin). split.
      * intros r. split.
        -- intros [= <-]. by exists n.
        -- intros (n' & -> & Hd' & Hmin').
           by rewrite (first_root_unique h f _ _ _ Hd Hmin Hd' Hmin').
      * intros e. split; [done|]. intros [_ Hnone]. by rewrite Hnone in Hd.
    + split.
      * intros r. split; [done|]. intros (n & _ & Hd & _). by rewrite Hspec in Hd.
      * intros e. split; [by intros [= <-]|by intros [-> _]].
  - intros Hinst tool_path w.
    pose proof (setup_spec h ctx tool_path kwds w) as Hs. cbv zeta in Hs.
    rewrite Hinst in Hs.
    destruct (setup h ctx tool_path kwds w) as [w1 [l|e]]; cbn [snd].
    + destruct Hs as (_ & _ & Hroot & _). split; [done|].
      intros _ _ _ e He. by rewrite He in Hroot.
    + destruct Hs as (_ & _ & [[-> ?]|[[-> ?]|[(_ & Hf & _)|(-> & ? & ? & Hres & Ho1 & Ho2 & Hr)]]]).
      * split; [by left|]. intros Hres. congruence.
      * split; [by right; left|]. intros _ Ho1 Ho2. destruct H; congruence.
      * split; [by right; right; left|]. intros _ _ _ e' He'. congruence.
      * split; [by do 3 right|]. intros _ _ _ e' He'.
        destruct Hr as [?|Hr]; [done|]. by rewrite He' in Hr.
  - intros Hinst tool_path for_tests w. split; [|split].
    + intros ctx'. unfold setup. by rewrite Hinst.
    + pose proof (setup_spec h ctx tool_path kwds w) as Hs. cbv zeta in Hs.
      rewrite Hinst in Hs.
      destruct (setup h ctx tool_path kwds w) as [w1 [l|e]].
      * by destruct Hs as (_ & _ & ? & _).
      * destruct Hs as (_ & _ & [[-> ?]|[[-> ?]|[(? & _)|(-> & ? & ? & _)]]]);
          [by left|by right; left|done|by right; right].
    + intros w' a (l & w1 & _ & Ha)%enter_ok.
      apply assemble_ok in Ha
        as (cd & kwds1 & w2 & w3 & pre & td & _ & _ & _ & _ & _ & _ & Hroot & Hcd & _).
      exists cd. split; [done|]. by rewrite Hinst in Hroot.
Qed.

Lemma root_discovery_witness :
  find_galaxy_root_in Example.host0 Example.fs0 Example.ctx0 ∅ = Ok (PStr "/home/u").
Proof.
  destruct (root_discovery Example.host0 Example.ctx0 ∅) as [Hwalk _].
  destruct (Hwalk ltac:(vm_compute; reflexivity) ltac:(vm_compute; reflexivity)
              Example.fs0) as [Hok _].
  apply Hok. exists 1%nat.
  split; [vm_compute; reflexivity|]. split; [vm_compute; reflexivity|].
  intros [|m] Hm; [vm_compute; reflexivity|lia].
Defined.

(** ** Discovery of associated paths *)

Section normpath_facts.
Import Path.

Lemma split_slash_cons s : exists c cs, split_slash s = c :: cs.
Proof.
  induction s as [|a s (c & cs & IH)]; [by eexists _, _|].
  cbn [split_slash]. destruct (is_slash a); [by eexists _, _|].
  rewrite IH. by eexists _, _.
Qed.

(** Splitting at a slash splits the list of components. *)
Lemma split_slash_app y s :
  split_slash (y +:+ String "/" s) = (split_slash y ++ split_slash s)%list.
Proof.
  induction y as [|a y IH].
  - done.
  - rewrite str_app_cons. cbn [split_slash]. destruct (is_slash a).
    + by rewrite IH.
    + rewrite IH. by destruct (split_slash_cons y) as (c & cs & ->).
Qed.

Lemma split_slash_dot t : split_slash ("./" +:+ t) = "." :: split_slash t.
Proof. reflexivity. Qed.

(** A [.] component changes nothing. *)
Lemma norm_comps_dot n a b : forall acc,
  norm_comps n (a ++ "." :: b) acc = norm_comps n (a ++ b) acc.
Proof.
  induction a as [|c a IH]; intros acc.
  - reflexivity.
  - cbn [app norm_comps].
    destruct (_ || _); [apply IH|].
    destruct (_ || _); [apply IH|].
    destruct acc; apply IH.
Qed.

Lemma startswith_app p x s : startswith p x = true -> startswith p (x +:+ s) = true.
Proof.
  revert x. induction p as [|a p IH]; intros x; [done|].
  destruct x as [|b x]; [done|]. rewrite str_app_cons. cbn [startswith].
  intros [-> Hp]%andb_prop. by rewrite (IH _ Hp).
Qed.

(** [x] ends in a slash: it is some [y] followed by a slash. *)
Lemma endswith_slash_inv x :
  endswith_char "/" x = true -> exists y, x = y +:+ "/".
Proof.
  induction x as [|a x IH]; [done|]. cbn [endswith_char].
  destruct x as [|b x].
  - intros ->%Ascii.eqb_eq. by exists "".
  - intros (y & ->)%IH. by exists (String a y).
Qed.
(** The leading slashes of a path are those of its directory part. *)
Lemma leading_slashes_dot y t p :
  startswith "/" (y +:+ "/") = true -> startswith "/" t = false ->
  p = "/" \/ p = "//" \/ p = "///" ->
  startswith p (y +:+ String "/" ("./" +:+ t)) = startswith p (y +:+ String "/" t).
Proof.
  intros Hy Ht Hp.
  assert (Hdot : Ascii.eqb "/" "." = false) by done.
  destruct t as [|c t]; [|cbn [startswith] in Ht; rewrite andb_true_r in Ht];
    destruct y as [|a [|b [|d y]]]; destruct Hp as [-> | [-> | ->]];
    rewrite ?str_app_cons, ?str_app_nil_l; cbn [startswith];
    rewrite ?Ascii.eqb_refl, ?Hdot, ?Ht, ?andb_true_r, ?andb_false_r, ?andb_false_l;
    done.
Qed.

(** A [./] in front of a relative path does not change where it leads. *)
Lemma normpath_dot y t :
  startswith "/" (y +:+ "/") = true -> startswith "/" t = false ->
  normpath (y +:+ String "/" ("./" +:+ t)) = normpath (y +:+ String "/" t).
Proof.
  intros Hy Ht. unfold normpath.
  assert (Hne : forall s, String.eqb (y +:+ String "/" s) "" = false).
  { intros s. by destruct y. }
  rewrite !Hne. cbv zeta.
  rewrite !(leading_slashes_dot y t) by auto.
  rewrite !split_slash_app, split_slash_dot.
  by rewrite !norm_comps_dot.
Qed.

(** The current directory [.] is the working directory of the process. *)
Lemma abspath_dot cwd target :
  isabs cwd = true -> isabs target = false ->
  abspath cwd (join "." target) = abspath cwd (join cwd target).
Proof.
  intros Hcwd Ht. unfold abspath, isabs in *.
  assert (join "." target = "./" +:+ target) as ->.
  { unfold join. by rewrite Ht. }
  assert (startswith "/" ("./" +:+ target) = false) as -> by done.
  unfold join. rewrite Ht.
  assert (startswith "/" ("./" +:+ target) = false) as -> by done.
  destruct (String.eqb_spec cwd "") as [->|Hne]; [done|]. cbn [orb].
  destruct (endswith_char "/" cwd) eqn:Hend.
  - rewrite (startswith_app _ _ _ Hcwd).
    apply endswith_slash_inv in Hend as (y & ->).
    rewrite !str_app_assoc. apply normpath_dot; [done|done].
  - assert (startswith "/" (cwd +:+ "/" +:+ target) = true) as ->
      by by apply startswith_app.
    apply (normpath_dot cwd target); [|done].
    by apply startswith_app.
Qed.
End normpath_facts.

Section search_facts.
Variable h : host.

Lemma normpath_nonempty path : Path.normpath path <> "".
Proof.
  unfold Path.normpath. destruct (String.eqb_spec path ""); [done|].
  cbv zeta.
  match goal with |- (if String.eqb ?x "" then _ else _) <> _ =>
    by destruct (String.eqb_spec x "") end.
Qed.

Lemma abspath_nonempty path : abspath h path <> "".
Proof. apply normpath_nonempty. Qed.

(** The loop returns the first hit, in the order of the list. *)
Lemma search_dirs_spec f target possible_dirs :
  match search_dirs h f target possible_dirs with
  | Some p =>
      exists i d, possible_dirs !! i = Some d
        /\ exists_in h f (Path.join d target) = true
        /\ p = abspath h (Path.join d target)
        /\ forall j d', (j < i)%nat -> possible_dirs !! j = Some d' ->
                        exists_in h f (Path.join d' target) = false
  | None =>
      forall d, d ∈ possible_dirs -> exists_in h f (Path.join d target) = false
  end.
Proof.
  induction possible_dirs as [|d0 rest IH]; cbn [search_dirs].
  - by intros d ?%elem_of_nil.
  - destruct (exists_in h f (Path.join d0 target)) eqn:Hd0.
    + exists 0%nat, d0. repeat split; try done. intros j d' Hj. lia.
    + destruct (search_dirs h f target rest) as [p|].
      * destruct IH as (i & d & Hi & Hd & -> & Hmin).
        exists (S i), d. repeat split; try done.
        intros [|j] d' Hj Hl; [by injection Hl as <-|].
        apply (Hmin j); [lia|done].
      * intros d [->|Hin]%elem_of_cons; [done|by apply IH].
Qed.

Lemma search_dirs_nonempty f target possible_dirs p :
  search_dirs h f target possible_dirs = Some p -> truthy (PStr p) = true.
Proof.
  induction possible_dirs as [|d0 rest IH]; cbn [search_dirs]; [done|].
  destruct (exists_in h f (Path.join d0 target)); [|done].
  intros [= <-]. cbn [truthy]. apply negb_true_iff, String.eqb_neq, abspath_nonempty.
Qed.
End search_facts.

(** C7: the search tries, in this order, the tool directory (the tool
    path itself when it is a directory, its [dirname] otherwise), the
    current directory [.], and the extra directories as given; it returns
    the absolute path of the target in the first of these where the target
    exists, and [None] when it exists in none; for a relative target, [.]
    leads to the working directory of the process.  A non-empty [test_data]
    or [tool_data_table] option is returned through [abspath] without
    looking at the file system; without the option the search decides. *)
Theorem find_associated_path (h : host) :
  (forall f path target extra_paths,
     let possible_dirs :=
       (if isdir_in h f path then path else Path.dirname path) :: "." :: extra_paths in
     match search_tool_path_in h f path target extra_paths with
     | Some p =>
         exists i d, possible_dirs !! i = Some d
           /\ exists_in h f (Path.join d target) = true
           /\ p = abspath h (Path.join d target)
           /\ forall j d', (j < i)%nat -> possible_dirs !! j = Some d' ->
                           exists_in h f (Path.join d' target) = false
     | None =>
         forall d, d ∈ possible_dirs -> exists_in h f (Path.join d target) = false
     end)
  /\ (Path.isabs (getcwd h) = true ->
      forall target, Path.isabs target = false ->
        abspath h (Path.join "." target) = abspath h (Path.join (getcwd h) target))
  /\ (forall path kwds w s,
        get kwds "test_data" PNone = PStr s -> s <> "" ->
        __find_test_data h path kwds w = (w, Ok (Some (abspath h s))))
  /\ (forall path test_data_dir kwds w s,
        get kwds "tool_data_table" PNone = PStr s -> s <> "" ->
        __find_tool_data_table h path test_data_dir kwds w
        = (w, Ok (Some (abspath h s))))
  /\ (forall path kwds w,
        truthy (get kwds "test_data" PNone) = false ->
        (__find_test_data h path kwds w).2
        = Ok (search_tool_path_in h (fs w) path "test-data" []))
  /\ (forall path test_data_dir kwds w,
        truthy (get kwds "tool_data_table" PNone) = false ->
        test_data_dir <> Some "" ->
        __find_tool_data_table h path test_data_dir kwds w
        = (w, Ok (search_tool_path_in h (fs w) path "tool_data_table_conf.xml.test"
                    (match test_data_dir with Some d => [d] | None => [] end)))).
Proof.
  split; [|split; [|split; [|split; [|split]]]].
  - intros f path target extra_paths possible_dirs.
    unfold search_tool_path_in.
    replace (if negb (isdir_in h f path) then Path.dirname path else path)
      with (if isdir_in h f path then path else Path.dirname path)
      by (by destruct (isdir_in h f path)).
    apply search_dirs_spec.
  - intros Hcwd target Ht. by apply abspath_dot.
  - intros path kwds w s Hs Hne. unfold __find_test_data. rewrite Hs.
    cbn [truthy]. by rewrite (proj2 (String.eqb_neq s "") Hne).
  - intros path tdd kwds w s Hs Hne. unfold __find_tool_data_table. rewrite Hs.
    cbn [truthy]. by rewrite (proj2 (String.eqb_neq s "") Hne).
  - intros path kwds w Hf. unfold __find_test_data. rewrite Hf.
    unfold __search_tool_path_for, bind, get_fs, ret. cbn [fst snd].
    destruct (search_tool_path_in h (fs w) path "test-data" []) as [p|] eqn:E.
    + unfold search_tool_path_in in E. apply search_dirs_nonempty in E.
      cbn [of_option]. by rewrite E.
    + done.
  - intros path tdd kwds w Hf Hne. unfold __find_tool_data_table. rewrite Hf.
    unfold __search_tool_path_for, bind, get_fs, ret.
    destruct tdd as [d|]; [|done]. cbn [truthy].
    destruct (String.eqb_spec d ""); [by subst|done].
Qed.

Lemma find_associated_path_witness :
  __find_test_data Example.host0 "cat.xml" {[ "test_data" := PStr "data" ]} Example.world1
  = (Example.world1, Ok (Some "/home/u/tools/data")).
Proof.
  destruct (find_associated_path Example.host0) as (_ & _ & Hoverride & _).
  apply (Hoverride "cat.xml" _ Example.world1 "data"); [vm_compute; reflexivity|done].
Defined.

(** ** The session as a whole *)

Lemma bind_assoc {A B C} (m : M A) (k : A -> M B) (g : B -> M C) w :
  bind (bind m k) g w = bind m (fun a => bind (k a) g) w.
Proof. unfold bind. by destruct (m w) as [w1 [a|e]]. Qed.

Lemma extends_mono (P Q : event -> bool) w w' :
  (forall e, P e = true -> Q e = true) -> extends P w w' -> extends Q w w'.
Proof.
  intros HPQ (evs & Ht & Hall). exists evs. split; [done|].
  rewrite forallb_forall in *. intros e He. by apply HPQ, Hall.
Qed.


Section whole_session.
Variable h : host.


(** With the caller's directory, [setup] makes none. *)
Lemma setup_appends_keeps_dirs ctx tool_path kwds :
  truthy (get kwds "config_directory" PNone) = true ->
  appends keeps_dirs (setup h ctx tool_path kwds).
Proof.
  intros Hcd w. pose proof (setup_spec h ctx tool_path kwds w) as Hs. cbv zeta in Hs.
  rewrite Hcd in Hs.
  destruct (setup h ctx tool_path kwds w) as [w1 [l|e]]; cbn [fst].
  - destruct Hs as (_ & _ & _ & w0 & _ & Hx & ->).
    apply (extends_mono is_warn); [by intros []|done].
  - destruct Hs as (_ & Hx & _).
    apply (extends_mono is_warn); [by intros []|done].
Qed.

Lemma write_stock_strategies_appends P cdv strategies :
  (forall p c, P (EWrite p c) = true) ->
  forall kwds, appends P (write_stock_strategies h cdv strategies kwds).
Proof.
  intros HP. induction strategies as [|[key conf] rest IH]; intros kwds.
  - apply appends_ret.
  - cbn [write_stock_strategies]. destruct (truthy _); [|apply IH].
    apply appends_bind; [apply appends_lift|intros p].
    apply appends_bind; [by apply appends_write_file|intros _].
    apply IH.
Qed.

(** [assemble] runs the installation, writes and fetches; nothing else. *)
Lemma assemble_appends P tool_path for_tests kwds l :
  (forall c, P (EShell c) = true) ->
  (forall p c, P (EWrite p c) = true) ->
  (forall u p, P (EFetch u p) = true) ->
  appends P (assemble h tool_path for_tests kwds l).
Proof.
  intros Hshell Hwrite Hfetch. unfold assemble.
  apply appends_bind.
  { unfold __install_galaxy_if_needed. destruct (truthy _); [|apply appends_ret].
    apply appends_bind; [by apply appends_shell|intros _; apply appends_ret]. }
  intros installed. apply appends_bind.
  { destruct installed; [|apply appends_ret].
    apply appends_bind; [apply appends_lift|intros ?; apply appends_ret]. }
  intros groot. apply appends_bind.
  { unfold __handle_dependency_resolution. destruct (_ <? _)%nat; [apply appends_raise|].
    by apply write_stock_strategies_appends. }
  intros kwds1. apply appends_bind.
  { unfold __handle_job_metrics.
    apply appends_bind; [apply appends_lift|intros p].
    apply appends_bind; [by apply appends_write_file|intros _; apply appends_ret]. }
  intros kwds2. apply appends_bind.
  { unfold __tool_conf_entry_for, os_path_isdir.
    apply appends_bind; [|intros ?; apply appends_ret].
    apply appends_bind; [apply appends_get_fs|intros ?; apply appends_ret]. }
  intros td. apply appends_bind; [apply appends_lift|intros etc].
  apply appends_bind; [apply appends_lift|intros tc].
  apply appends_bind; [apply appends_lift|intros dl].
  apply appends_bind.
  { apply appends_try_except; [|apply appends_ret].
    apply appends_bind; [by apply appends_urlretrieve|intros _; apply appends_ret]. }
  intros pre. apply appends_bind; [apply appends_lift|intros env].
  apply appends_bind; [apply appends_lift|intros wc].
  apply appends_bind; [apply appends_lift|intros gi].
  apply appends_bind; [by apply appends_write_file|intros _].
  apply appends_bind; [apply appends_lift|intros tcc].
  apply appends_bind; [by apply appends_write_file|intros _].
  apply appends_bind; [by apply appends_write_file|intros _].
  apply appends_ret.
Qed.




(** The [finally] clause, step by step. *)
Lemma cleanup_run l w :
  cleanup h l w
  = if l_created_config_directory l then
      match l_config_directory l with
      | PStr d =>
          if isdir_in h (fs w) d then
            match rmtree_leaves h d (fs w) with
            | None =>
                (World (filter (fun kv => under (abspath h d) kv.1 = false) (fs w))
                       (trace w ++ [ERmtree d]), Ok tt)
            | Some remains => (World remains (trace w), Raise (OSError d))
            end
          else (w, Raise (OSError d))
      | _ => (w, Raise AttributeError)
      end
    else (w, Ok tt).
Proof.
  unfold cleanup. destruct (l_created_config_directory l); [|done].
  destruct (l_config_directory l) as [| | |d]; try done.
  unfold rmtree, bind, get_fs. cbn [fs].
  destruct (isdir_in h (fs w) d); [|done].
  by destruct (rmtree_leaves h d (fs w)).
Qed.

End whole_session.




(** C4, as amended: with a caller-supplied [config_directory] the session
    ends as its last step left the world, having neither made nor removed a
    directory on the way to its [yield]; without one, either the session
    failed before it made a directory and the file system is untouched, or
    it made the temporary directory and, however its body ends, ends by
    calling [rmtree] on it.  When that removal succeeds nothing at or below
    the directory is left, every other path is as the body left it and the
    outcome is the body's; when the system leaves something behind, or the
    path is no longer a directory, the session ends with [OSError] in place
    of the body's outcome. *)
Theorem working_directory_cleanup
    (h : host) (ctx : context) (tool_path : string) (for_tests : bool)
    (kwds : gmap string value) {B} (body : GalaxyConfig -> M B) (w : world) :
  let '(w', r) := galaxy_config h ctx tool_path for_tests kwds body w in
  if truthy (get kwds "config_directory" PNone)
  then (w', r) = (a <~ enter h ctx tool_path for_tests kwds ;; body (yielded a)) w
       /\ appends keeps_dirs (enter h ctx tool_path for_tests kwds)
  else (exists e, r = Raise e
          /\ setup h ctx tool_path kwds w = (w', Raise e) /\ fs w' = fs w)
       \/ (exists w1 l evs,
             setup h ctx tool_path kwds w = (w1, Ok l)
             /\ l_created_config_directory l = true
             /\ l_config_directory l = PStr (tmp_name h)
             /\ trace w1 = evs ++ [EMkdtemp (tmp_name h)]
             /\ let '(w2, r2) :=
                  (a <~ assemble h tool_path for_tests kwds l ;; body (yielded a)) w1 in
                if isdir_in h (fs w2) (tmp_name h) then
                  match rmtree_leaves h (tmp_name h) (fs w2) with
                  | None =>
                      r = r2
                      /\ (forall p, under (abspath h (tmp_name h)) p = true ->
                                    fs w' !! p = None)
                      /\ (forall p, under (abspath h (tmp_name h)) p = false ->
                                    fs w' !! p = fs w2 !! p)
                      /\ trace w' = trace w2 ++ [ERmtree (tmp_name h)]
                  | Some remains =>
                      r = Raise (OSError (tmp_name h))
                      /\ fs w' = remains /\ trace w' = trace w2
                  end
                else r = Raise (OSError (tmp_name h)) /\ w' = w2).
Proof.
  destruct (galaxy_config h ctx tool_path for_tests kwds body w) as [w' r] eqn:Hrun.
  unfold galaxy_config in Hrun.
  pose proof (setup_spec h ctx tool_path kwds w) as Hs. cbv zeta in Hs.
  destruct (truthy (get kwds "config_directory" PNone)) eqn:Hcd.
  - split.
    + unfold enter. rewrite bind_assoc.
      destruct (setup h ctx tool_path kwds w) as [w1 [l|e]] eqn:Hsetup.
      * rewrite (bind_step _ _ _ _ _ Hsetup) in Hrun.
        rewrite (bind_step _ _ _ _ _ Hsetup).
        destruct Hs as (Hcreated & _). unfold cleanup in Hrun.
        rewrite Hcreated in Hrun. cbn [negb] in Hrun.
        by rewrite try_finally_ret in Hrun.
      * rewrite (bind_raise _ _ _ _ _ Hsetup) in Hrun.
        by rewrite (bind_raise _ _ _ _ _ Hsetup).
    + unfold enter. apply appends_bind; [by apply setup_appends_keeps_dirs|].
      intros l. by apply assemble_appends.
  - destruct (setup h ctx tool_path kwds w) as [w1 [l|e]] eqn:Hsetup.
    + right. rewrite (bind_step _ _ _ _ _ Hsetup) in Hrun.
      destruct Hs as (Hcreated & Hcdv & _ & w0 & _ & _ & ->).
      eexists _, l, (trace w0). do 4 (split; [done|]).
      unfold try_finally in Hrun.
      destruct ((a <~ assemble h tool_path for_tests kwds l ;; body (yielded a)) _)
        as [w2 r2].
      rewrite cleanup_run, Hcreated, Hcdv in Hrun. cbn [negb] in Hrun.
      destruct (isdir_in h (fs w2) (tmp_name h)).
      * destruct (rmtree_leaves h (tmp_name h) (fs w2)) as [remains|].
        -- by injection Hrun as <- <-.
        -- injection Hrun as <- <-. cbn [fs trace]. split; [done|].
           split; [|split; [|done]].
           ++ intros p Hp. apply map_lookup_filter_None. right.
              intros x _. cbn. by rewrite Hp.
           ++ intros p Hp. destruct (fs w2 !! p) as [x|] eqn:Hx.
              ** by apply map_lookup_filter_Some.
              ** apply map_lookup_filter_None. by left.
      * by injection Hrun as <- <-.
    + left. rewrite (bind_raise _ _ _ _ _ Hsetup) in Hrun.
      injection Hrun as <- <-. destruct Hs as (Hfs & _).
      by exists e.
Qed.

Lemma working_directory_cleanup_witness :
  fs (galaxy_config Example.host0 Example.ctx0 "cat.xml" false ∅
        (fun config => ret config) Example.world0).1 !! "/tmp/tmpAB/tool_conf.xml"
  = None.
Proof.
  pose proof (working_directory_cleanup Example.host0 Example.ctx0 "cat.xml" false ∅
                (fun config => ret config) Example.world0) as H.
  assert (Hok : is_ok (setup Example.host0 Example.ctx0 "cat.xml" ∅ Example.world0).2
                = true) by (vm_compute; reflexivity).
  assert (Hd : isdir_in Example.host0
                 (fs ((l <~ setup Example.host0 Example.ctx0 "cat.xml" ∅ ;;
                       a <~ assemble Example.host0 "cat.xml" false ∅ l ;;
                       ret (yielded a)) Example.world0).1) "/tmp/tmpAB" = true)
    by (vm_compute; reflexivity).
  destruct (galaxy_config _ _ _ _ _ _ _) as [w' r]. cbn [fst].
  assert (truthy (get (∅ : gmap string value) "config_directory" PNone) = false) as Hcd
    by (vm_compute; reflexivity).
  rewrite Hcd in H. destruct H as [(e & _ & Hs & _)|(w1 & l & evs & Hs & _ & _ & _ & H)].
  - rewrite Hs in Hok. discriminate Hok.
  - rewrite (bind_step _ _ _ _ _ Hs) in Hd.
    destruct ((a <~ assemble _ _ _ _ _ ;; _) w1) as [w2 r2]. cbn [fst] in Hd.
    change (tmp_name Example.host0) with "/tmp/tmpAB" in H. rewrite Hd in H.
    change (rmtree_leaves Example.host0 "/tmp/tmpAB" (fs w2)) with (@None (gmap string node)) in H.
    destruct H as (_ & Hgone & _). apply Hgone. vm_compute. reflexivity.
Defined.

(** C4 as stated fails: when the system leaves the directory's contents
    behind, [rmtree] raises and the generated files are still there. *)
Lemma ephemeral_directory_left_behind :
  let end_of_session :=
    galaxy_config Example.host_stuck Example.ctx0 "cat.xml" false ∅
      (fun config => ret config) Example.world0 in
  is_Some (fs end_of_session.1 !! "/tmp/tmpAB/tool_conf.xml")
  /\ fs end_of_session.1 !! "/tmp/tmpAB" = Some Dir
  /\ is_ok end_of_session.2 = false.
Proof. vm_compute. by split; [eexists|]. Qed.

(** * Further properties of the module *)

(** ** The run of a session, step by step *)

Section run_facts.
Variable h : host.

Lemma write_file_ok path content w w' u :
  write_file h path content w = (w', Ok u) ->
  can_write h path = true
  /\ w' = World (<[abspath h path := File content]> (fs w))
                (trace w ++ [EWrite path content]).
Proof.
  unfold write_file. destruct (can_write h path); [|done].
  cbv [bind get_fs set_fs emit]. cbn. by intros [= <- _].
Qed.

Lemma write_file_run path content w :
  can_write h path = true ->
  write_file h path content w
  = (World (<[abspath h path := File content]> (fs w))
           (trace w ++ [EWrite path content]), Ok tt).
Proof. unfold write_file. by intros ->. Qed.

Lemma fetch_run url path w :
  try_except (urlretrieve h url path ;;; ret true) (ret false) w
  = if fetch_succeeds h path
    then (World (<[abspath h path := File (default "" (served h))]> (fs w))
                (trace w ++ [EFetch url path]), Ok true)
    else (w, Ok false).
Proof.
  unfold fetch_succeeds, try_except, urlretrieve, bind.
  destruct (served h) as [c|]; [|done].
  by destruct (can_write h path).
Qed.

Lemma install_galaxy_if_needed_run cdv kwds w :
  __install_galaxy_if_needed h cdv kwds w
  = if truthy (get kwds "install_galaxy" PNone)
    then (World (shell_effect h
                   (DEACTIVATE_COMMAND h +:+ ";cd " +:+ str cdv +:+ ";"
                    +:+ DOWNLOAD_GALAXY h
                    +:+ ";tar -zxvf master | tail;cd galaxy-central-master;"
                    +:+ "virtualenv .venv;. .venv/bin/activate; sh scripts/common_startup.sh")
                   (fs w))
                (trace w ++ [EShell
                   (DEACTIVATE_COMMAND h +:+ ";cd " +:+ str cdv +:+ ";"
                    +:+ DOWNLOAD_GALAXY h
                    +:+ ";tar -zxvf master | tail;cd galaxy-central-master;"
                    +:+ "virtualenv .venv;. .venv/bin/activate; sh scripts/common_startup.sh")]),
          Ok true)
    else (w, Ok false).
Proof.
  unfold __install_galaxy_if_needed. destruct (truthy _); [|done].
  assert (Hcmd : forall d c x,
    str_join ";" [d; fmt1 "cd %s" c; x; "tar -zxvf master | tail";
                  "cd galaxy-central-master"; "virtualenv .venv";
                  ". .venv/bin/activate; sh scripts/common_startup.sh"]
    = d +:+ ";cd " +:+ c +:+ ";" +:+ x
      +:+ ";tar -zxvf master | tail;cd galaxy-central-master;"
      +:+ "virtualenv .venv;. .venv/bin/activate; sh scripts/common_startup.sh").
  { intros d c x. cbn [str_join fmt1].
    repeat (rewrite ?str_app_cons, ?str_app_nil_l, ?str_app_nil_r, ?str_app_assoc).
    reflexivity. }
  rewrite Hcmd. reflexivity.
Qed.

Lemma write_stock_strategies_trace cd strategies : forall kwds w w' kwds',
  Forall (fun s : string * string =>
            s.1 <> "tool_dependency_dir"
            /\ s.1 <> "dependency_resolvers_config_file") strategies ->
  write_stock_strategies h (PStr cd) strategies kwds w = (w', Ok kwds') ->
  trace w' = trace w ++ stock_writes cd strategies kwds
  /\ Forall (fun e => match e with
                      | EWrite p _ => can_write h p = true
                      | _ => True
                      end) (stock_writes cd strategies kwds).
Proof.
  induction strategies as [|[key conf] rest IH]; intros kwds w w' kwds' Hkeys Hrun.
  - apply ret_ok in Hrun as [_ ->]. cbn. by rewrite app_nil_r.
  - apply Forall_cons in Hkeys as [[Hk1 Hk2] Hkeys]. cbn [fst] in *.
    cbn [write_stock_strategies] in Hrun.
    unfold stock_writes. cbn [flat_map fst snd].
    fold (stock_writes cd rest kwds).
    destruct (truthy (get kwds key PNone)) eqn:Ht.
    + apply bind_ok in Hrun as (p & w1 & [[= <-] ->]%lift_ok & Hrun).
      apply bind_ok in Hrun as ([] & w2 & [Hcw ->]%write_file_ok & Hrun).
      apply IH in Hrun as [Htr Hall]; [|done].
      assert (Hsame : stock_writes cd rest
                (<["dependency_resolvers_config_file" :=
                     PStr (Path.join cd "resolvers_conf.xml")]>
                 (<["tool_dependency_dir" :=
                      PStr (Path.join "config_directory" "deps")]> kwds))
              = stock_writes cd rest kwds).
      { unfold stock_writes. clear -Hkeys. induction Hkeys as [|s rest' [H1 H2] _ IH'].
        - done.
        - cbn [flat_map]. rewrite IH'.
          by rewrite !get_insert_ne. }
      rewrite Hsame in *. split.
      * rewrite Htr. cbn [trace]. by rewrite <- app_assoc.
      * by apply Forall_cons.
    + apply IH in Hrun as [Htr Hall]; done.
Qed.

Lemma find_test_data_run path kwds w :
  __find_test_data h path kwds w
  = if truthy (get kwds "test_data" PNone)
    then (w, match os_path_abspath h (get kwds "test_data" PNone) with
             | Ok p => Ok (Some p)
             | Raise e => Raise e
             end)
    else match search_tool_path_in h (fs w) path "test-data" [] with
         | Some p => (w, Ok (Some p))
         | None => (World (fs w) (trace w ++ [EWarn NO_TEST_DATA_MESSAGE]), Ok None)
         end.
Proof.
  unfold __find_test_data. destruct (truthy (get kwds "test_data" PNone)).
  - unfold bind, lift. by destruct (os_path_abspath h _).
  - unfold __search_tool_path_for, bind, get_fs, ret. cbn [fs].
    unfold search_tool_path_in.
    destruct (search_dirs h (fs w) "test-data" _) as [p|] eqn:Hs; [|done].
    apply search_dirs_nonempty in Hs. cbn [of_option]. by rewrite Hs.
Qed.

Lemma setup_trace ctx tool_path kwds w w1 l :
  setup h ctx tool_path kwds w = (w1, Ok l) ->
  trace w1
  = trace w
    ++ (match l_test_data_dir l with Some _ => [] | None => [EWarn NO_TEST_DATA_MESSAGE] end)
    ++ (if truthy (get kwds "config_directory" PNone) then []
        else [EMkdtemp (tmp_name h)]).
Proof.
  intros H. pose proof (setup_ok_inv _ _ _ _ _ _ _ H) as (Hbound & _).
  rewrite setup_bound in H by done.
  apply bind_ok in H as (td & w2 & Htd & H).
  apply bind_ok in H as (tdt & w3 & Htdt & H).
  pose proof (find_tool_data_table_spec h tool_path td kwds w2) as [Hw3 _].
  rewrite Htdt in Hw3. cbn [fst] in Hw3. subst w3.
  apply bind_ok in H as (root & w4 & Hroot & H).
  assert (w4 = w2) as ->.
  { destruct (truthy (get kwds "install_galaxy" PNone)).
    - by apply ret_ok in Hroot as [_ ->].
    - rewrite find_galaxy_root_run in Hroot. by injection Hroot as <- _. }
  assert (Hw2 : trace w2
                = trace w ++ (match td with Some _ => [] | None => [EWarn NO_TEST_DATA_MESSAGE] end)).
  { rewrite find_test_data_run in Htd.
    destruct (truthy (get kwds "test_data" PNone)).
    - injection Htd as <- Htd. destruct (os_path_abspath h _); [|done].
      injection Htd as <-. by rewrite app_nil_r.
    - destruct (search_tool_path_in h (fs w) tool_path "test-data" []).
      + injection Htd as <- <-. by rewrite app_nil_r.
      + by injection Htd as <- <-. }
  cbv zeta in H.
  destruct (truthy (get kwds "config_directory" PNone)); cbn [negb] in H.
  - apply ret_ok in H as [<- ->]. cbn [l_test_data_dir]. by rewrite app_nil_r.
  - apply bind_ok in H as (cd & w5 & Hmk & [<- ->]%ret_ok). cbn [l_test_data_dir].
    unfold mkdtemp in Hmk. destruct (mkdtemp_ok h); [|done].
    cbv [bind get_fs set_fs emit ret] in Hmk. cbn in Hmk.
    injection Hmk as <- _. cbn [trace]. by rewrite Hw2, <- app_assoc.
Qed.

Lemma tool_conf_entry_for_run tool_path w :
  __tool_conf_entry_for h tool_path w
  = (w, Ok (if isdir_in h (fs w) tool_path then tool_dir_entry else tool_file_entry)).
Proof. reflexivity. Qed.

(** Everything a completed assembly tells about its run. *)
Lemma assemble_run_ok tool_path for_tests kwds l w w' a :
  assemble h tool_path for_tests kwds l w = (w', Ok a) ->
  exists cd kwds1 tool_definition,
    l_config_directory l = PStr cd
    /\ (selected_strategies kwds <= 1)%nat
    /\ kwds1 = (if stock_selected kwds
                then <["dependency_resolvers_config_file" :=
                         PStr (Path.join cd "resolvers_conf.xml")]>
                     (<["tool_dependency_dir" :=
                          PStr (Path.join "config_directory" "deps")]> kwds)
                else kwds)
    /\ properties a
       = final_properties for_tests
           (<["job_metrics_config_file" := PStr (Path.join cd "job_metrics_conf.xml")]> kwds1)
           (Path.join cd "tool_conf.xml") (of_option (l_tool_data_table l))
           (Path.join cd "empty_tool_conf.xml") (of_option (l_test_data_dir l))
    /\ template_args a
       = make_template_args
           (<["job_metrics_config_file" := PStr (Path.join cd "job_metrics_conf.xml")]> kwds1)
           (PStr cd) (Path.join cd "galaxy.sqlite") tool_definition tool_path
           (Path.join cd "tool_conf.xml")
    /\ (tool_definition = tool_dir_entry \/ tool_definition = tool_file_entry)
    /\ final_env (properties a) (template_args a)
         (fetch_succeeds h (Path.join cd "galaxy.sqlite"))
       = Ok (env (yielded a))
    /\ yielded a
       = mkGalaxyConfig
           (if truthy (get kwds "install_galaxy" PNone)
            then PStr (Path.join cd "galaxy-central-master")
            else l_galaxy_root l)
           (PStr cd) (env (yielded a)) (of_option (l_test_data_dir l))
    /\ trace w' = trace w ++ assemble_events h cd kwds (template_args a)
    /\ Forall (fun e => match e with
                        | EWrite p _ => can_write h p = true
                        | _ => True
                        end) (assemble_events h cd kwds (template_args a)).
Proof.
  unfold assemble.
  intros (installed & w1 & Hinst & H)%bind_ok.
  apply bind_ok in H as (groot & w2 & Hroot & H).
  apply bind_ok in H as (kwds1 & w3 & Hdep & H).
  apply handle_dependency_resolution_ok in Hdep as [Hsel Hstock].
  apply bind_ok in H as (kwds2 & w4 & Hmet & H).
  pose proof Hmet as Hmet'.
  apply handle_job_metrics_ok in Hmet' as (cd & Hcd & ->).
  rewrite Hcd in *.
  unfold __handle_job_metrics in Hmet.
  apply bind_ok in Hmet as (mp & w3' & [[= <-] ->]%lift_ok & Hmet).
  apply bind_ok in Hmet as ([] & w3'' & [Hcw1 ->]%write_file_ok & [_ ->]%ret_ok).
  apply bind_ok in H as (tool_definition & w5 & Htd & H).
  rewrite tool_conf_entry_for_run in Htd. injection Htd as <- <-.
  apply bind_ok in H as (empty_tool_conf & w6 & [[= <-] ->]%lift_ok & H).
  apply bind_ok in H as (tool_conf & w7 & [[= <-] ->]%lift_ok & H).
  apply bind_ok in H as (database_location & w8 & [[= <-] ->]%lift_ok & H).
  apply bind_ok in H as (preseeded & w9 & Hfetch & H).
  rewrite fetch_run in Hfetch.
  apply bind_ok in H as (env0 & w10 & [Henv ->]%lift_ok & H).
  apply bind_ok in H as (web_config & w11 & [[= <-] ->]%lift_ok & H).
  apply bind_ok in H as (galaxy_ini & w12 & [[= <-] ->]%lift_ok & H).
  apply bind_ok in H as ([] & w13 & [Hcw2 ->]%write_file_ok & H).
  apply bind_ok in H as (tool_conf_contents & w14 & [[= <-] ->]%lift_ok & H).
  apply bind_ok in H as ([] & w15 & [Hcw3 ->]%write_file_ok & H).
  apply bind_ok in H as ([] & w16 & [Hcw4 ->]%write_file_ok & H).
  apply ret_ok in H as [<- ->].
  pose proof (write_stock_strategies_ok h _ _ _ _ _ _ (stock_keys_apart) Hstock) as Hk.
  fold (stock_selected kwds) in Hk.
  apply write_stock_strategies_trace in Hstock as [Hst Hstw]; [|apply stock_keys_apart].
  rewrite install_galaxy_if_needed_run in Hinst.
  eexists cd, kwds1, _. cbn [properties template_args yielded env].
  assert (Hpre : preseeded = fetch_succeeds h (Path.join cd "galaxy.sqlite")
                 /\ trace w9 = (trace w ++
                      (if truthy (get kwds "install_galaxy" PNone)
                       then [EShell (install_command h cd)] else [])
                      ++ stock_writes cd STOCK_DEPENDENCY_RESOLUTION_STRATEGIES kwds
                      ++ [EWrite (Path.join cd "job_metrics_conf.xml") EMPTY_JOB_METRICS_TEMPLATE]
                      ++ (if fetch_succeeds h (Path.join cd "galaxy.sqlite")
                          then [EFetch DATABASE_TEMPLATE_URL (Path.join cd "galaxy.sqlite")]
                          else []))%list).
  { assert (Hw2 : trace w2 = (trace w ++
                      (if truthy (get kwds "install_galaxy" PNone)
                       then [EShell (install_command h cd)] else []))%list).
    { destruct (truthy (get kwds "install_galaxy" PNone)).
      - injection Hinst as <- <-.
        apply bind_ok in Hroot as (p & ? & [_ ->]%lift_ok & [_ ->]%ret_ok). done.
      - injection Hinst as <- <-. apply ret_ok in Hroot as [_ ->].
        by rewrite app_nil_r. }
    destruct (fetch_succeeds h (Path.join cd "galaxy.sqlite")).
    - injection Hfetch as <- <-. split; [done|]. cbn [trace].
      rewrite Hst, Hw2. by rewrite <- !app_assoc.
    - injection Hfetch as <- <-. split; [done|]. cbn [trace].
      rewrite Hst, Hw2. by rewrite <- !app_assoc. }
  destruct Hpre as [-> Hw9].
  split; [done|]. split; [done|]. split.
  { destruct (stock_selected kwds); [|done]. by destruct Hk as (? & [= <-] & ->). }
  split; [done|]. split; [done|].
  split; [destruct (isdir_in _ _ _); [by left|by right]|].
  split; [done|]. split.
  { f_equal. destruct (truthy (get kwds "install_galaxy" PNone)).
    - injection Hinst as <- <-.
      by apply bind_ok in Hroot as (p & ? & [[= <-] ->]%lift_ok & [<- _]%ret_ok).
    - injection Hinst as <- <-. by apply ret_ok in Hroot as [<- _]. }
  split.
  { cbn [trace]. rewrite Hw9. unfold assemble_events.
    rewrite <- !app_assoc. reflexivity. }
  unfold assemble_events. rewrite !Forall_app. repeat split.
  - by destruct (truthy _); constructor.
  - done.
  - by constructor.
  - by destruct (fetch_succeeds _ _); constructor.
  - by repeat constructor.
Qed.

End run_facts.

(** X1: in every session that reaches its [yield], the events added to the
    trace are, in this order: the warning about missing test data exactly
    when no test-data directory was found; the [mkdtemp] of the working
    directory exactly when the caller gave none; the installation command
    when [install_galaxy] is set; the resolver file of the selected stock
    strategy, if any; the job metrics file; the fetch of the database template when
    it succeeds; then [galaxy.ini], [tool_conf.xml] and
    [empty_tool_conf.xml], the first two with the substituted templates. *)
Theorem session_events
    (h : host) (ctx : context) (tool_path : string) (for_tests : bool)
    (kwds : gmap string value) (w w' : world) (a : assembled) :
  enter h ctx tool_path for_tests kwds w = (w', Ok a) ->
  exists cd,
    config_directory (yielded a) = PStr cd
    /\ PStr cd = (if truthy (get kwds "config_directory" PNone)
                  then get kwds "config_directory" PNone
                  else PStr (tmp_name h))
    /\ trace w'
       = trace w
         ++ match test_data_dir (yielded a) with
            | PNone => [EWarn NO_TEST_DATA_MESSAGE]
            | _ => []
            end
         ++ (if truthy (get kwds "config_directory" PNone) then []
             else [EMkdtemp (tmp_name h)])
         ++ assemble_events h cd kwds (template_args a).
Proof.
  intros (l & w1 & Hs & Ha)%enter_ok.
  pose proof (setup_spec h ctx tool_path kwds w) as Hspec. cbv zeta in Hspec.
  rewrite Hs in Hspec. destruct Hspec as (_ & Hcd & _).
  pose proof (setup_trace h _ _ _ _ _ _ Hs) as Ht1.
  apply assemble_run_ok in Ha
    as (cd & kwds1 & td & Hl & _ & _ & _ & _ & _ & _ & Hy & Ht & _).
  exists cd. rewrite Hy. cbn [config_directory test_data_dir].
  split; [done|]. split; [by rewrite <- Hl, Hcd|].
  rewrite Ht, Ht1, <- !app_assoc. do 2 f_equal.
  by destruct (l_test_data_dir l).
Qed.

Lemma session_events_witness :
  match enter Example.host0 Example.ctx0 "cat.xml" false ∅ Example.world0 with
  | (w', Ok a) =>
      exists contents,
        trace w'
        = [ EMkdtemp "/tmp/tmpAB";
            EWrite "/tmp/tmpAB/job_metrics_conf.xml" EMPTY_JOB_METRICS_TEMPLATE;
            EFetch DATABASE_TEMPLATE_URL "/tmp/tmpAB/galaxy.sqlite";
            EWrite "/tmp/tmpAB/galaxy.ini" contents.1;
            EWrite "/tmp/tmpAB/tool_conf.xml" contents.2;
            EWrite "/tmp/tmpAB/empty_tool_conf.xml" EMPTY_TOOL_CONF_TEMPLATE ]
  | (_, Raise _) => False
  end.
Proof.
  assert (Hok : is_ok (enter Example.host0 Example.ctx0 "cat.xml" false ∅
                         Example.world0).2 = true)
    by (vm_compute; reflexivity).
  assert (Hp : match (enter Example.host0 Example.ctx0 "cat.xml" false ∅
                        Example.world0).2 with
               | Ok a => test_data_dir (yielded a) = PStr "/home/u/tools/test-data"
               | Raise _ => True
               end)
    by (vm_compute; reflexivity).
  destruct (enter _ _ _ _ _ _) as [w' [a|e]] eqn:E; [|discriminate Hok].
  cbn [snd] in Hp.
  destruct (session_events _ _ _ _ _ _ _ _ E) as (cd & _ & Hcd & Ht).
  assert (Hev : forall ta,
            assemble_events Example.host0 "/tmp/tmpAB" ∅ ta
            = [ EWrite "/tmp/tmpAB/job_metrics_conf.xml" EMPTY_JOB_METRICS_TEMPLATE;
                EFetch DATABASE_TEMPLATE_URL "/tmp/tmpAB/galaxy.sqlite";
                EWrite "/tmp/tmpAB/galaxy.ini"
                       (Template.safe_substitute WEB_SERVER_CONFIG_TEMPLATE ta);
                EWrite "/tmp/tmpAB/tool_conf.xml"
                       (Template.safe_substitute TOOL_CONF_TEMPLATE ta);
                EWrite "/tmp/tmpAB/empty_tool_conf.xml" EMPTY_TOOL_CONF_TEMPLATE ])
    by reflexivity.
  vm_compute in Hcd. injection Hcd as Hcd. rewrite Hcd, Hp, Hev in Ht.
  eexists (_, _). exact Ht.
Defined.

(** ** More on the substitution *)

Section template_more.
Import Template.
Variable args : gmap string value.

Lemma no_dollar_settled s : no_dollar s = true -> settled args s = true.
Proof.
  induction s as [|c s IH]; [done|]. cbn [no_dollar settled].
  intros [Hc Hs]%andb_prop. rewrite (IH Hs).
  by destruct (Ascii.eqb c dollar).
Qed.

Lemma safe_substitute_no_dollar s :
  no_dollar s = true -> safe_substitute s args = s.
Proof.
  intros Hs. unfold safe_substitute.
  by rewrite (sub_from_settled args s 0 (no_dollar_settled s Hs)).
Qed.

Lemma span_id_all k post :
  all_id_chars k = true -> ends_name post = true -> span_id (k +:+ post) = (k, post).
Proof.
  intros Hk Hp. destruct post as [|c r].
  - rewrite str_app_nil_r. induction k as [|a k IH]; [done|].
    cbn [all_id_chars] in Hk. apply andb_prop in Hk as [Ha Hk].
    cbn [span_id]. by rewrite Ha, (IH Hk).
  - apply span_id_stop; [done|]. by apply negb_true_iff in Hp.
Qed.

Lemma sub_from_named key post :
  is_identifier key = true -> ends_name post = true ->
  sub_from args 0 ("$" +:+ key +:+ post)
  = lookup_or args key ("$" +:+ key) +:+ sub_from args 0 post.
Proof.
  intros Hk Hp. destruct key as [|c k]; [done|].
  cbn [is_identifier] in Hk. apply andb_prop in Hk as [Hc Hk].
  change ("$" +:+ String c k +:+ post) with (String dollar (String c k +:+ post)).
  cbn [sub_from]. rewrite Ascii.eqb_refl.
  assert (Hconv : convert args (String c k +:+ post)
                  = (lookup_or args (String c k) ("$" +:+ String c k),
                     String.length (String c k))).
  { rewrite str_app_cons. unfold convert.
    rewrite (id_start_not_dollar c Hc), Hc. rewrite <- str_app_cons.
    rewrite span_id_all; [done| |done].
    cbn [all_id_chars]. unfold id_char. by rewrite Hc, Hk. }
  rewrite Hconv. by rewrite sub_from_skip.
Qed.

End template_more.

(** X2: the unbraced form.  A name [$key] whose key is an identifier, that an
    even number of [$] precedes and that no identifier character follows, is
    replaced by [str] of the mapped value when the key is mapped and copied
    verbatim when it is not, the text before and after being substituted on
    its own. *)
Theorem sub_replaces_named (args : gmap string value) (pre key post : string) :
  is_identifier key = true ->
  ends_name post = true ->
  Nat.even (trailing_dollars pre) = true ->
  __sub (PStr (pre +:+ "$" +:+ key +:+ post)) args
  = Ok (Template.safe_substitute pre args
        +:+ match args !! key with
            | Some v => str v
            | None => "$" +:+ key
            end
        +:+ Template.safe_substitute post args).
Proof.
  intros Hkey Hpost Hpre. unfold __sub. f_equal.
  rewrite safe_substitute_app by done.
  unfold Template.safe_substitute at 2.
  by rewrite sub_from_named.
Qed.

Lemma sub_replaces_named_witness :
  __sub (PStr ("listen on " +:+ "$" +:+ "port" +:+ "/tcp")) {[ "port" := PInt 9090 ]}
  = Ok "listen on 9090/tcp".
Proof.
  exact (sub_replaces_named {[ "port" := PInt 9090 ]}
           "listen on " "port" "/tcp" eq_refl eq_refl eq_refl).
Defined.

(** X3: a template without the delimiter [$] comes back unchanged, whatever
    the mapping. *)
Theorem sub_keeps_plain_text (args : gmap string value) (template : string) :
  no_dollar template = true -> __sub (PStr template) args = Ok template.
Proof. intros H. unfold __sub. by rewrite safe_substitute_no_dollar. Qed.

Lemma sub_keeps_plain_text_witness :
  __sub (PStr "sqlalchemy+sqlite://") {[ "sqlite" := PStr "x" ]}
  = Ok "sqlalchemy+sqlite://".
Proof. exact (sub_keeps_plain_text _ "sqlalchemy+sqlite://" eq_refl). Defined.

(** ** More on the environment and the overrides *)

Lemma sub_is_template v args : is_ok (__sub v args) = is_template v.
Proof. by destruct v. Qed.

Lemma sub_raises v args e : __sub v args = Raise e -> e = TypeError /\ is_template v = false.
Proof. destruct v; try done; by intros [= <-]. Qed.

(** The two outcomes of [__build_env_for_galaxy]. *)
Lemma build_env_for_galaxy_cases (properties template_args : gmap string value) :
  match __build_env_for_galaxy properties template_args with
  | Ok env =>
      (forall key value, properties !! key = Some value -> is_template value = true)
      /\ (forall name, is_Some (env !! name) ->
            exists key, is_Some (properties !! key) /\ name = override_var key)
  | Raise e =>
      e = TypeError
      /\ exists key value, properties !! key = Some value /\ is_template value = false
  end.
Proof.
  unfold __build_env_for_galaxy.
  apply (map_fold_weak_ind
           (fun (r : result (gmap string value)) (m : gmap string value) =>
              match r with
              | Ok env =>
                  (forall key value, m !! key = Some value -> is_template value = true)
                  /\ (forall name, is_Some (env !! name) ->
                        exists key, is_Some (m !! key) /\ name = override_var key)
              | Raise e =>
                  e = TypeError
                  /\ exists key value, m !! key = Some value /\ is_template value = false
              end)).
  - split.
    + intros key value H. by rewrite lookup_empty in H.
    + intros name [? H]. by rewrite lookup_empty in H.
  - intros i x m r Hi IH. destruct r as [env0|e].
    + destruct IH as [IH1 IH2].
      destruct (__sub x template_args) as [s|e] eqn:Hs.
      * rewrite override_var_fmt. split.
        -- intros key value Hkey. destruct (decide (i = key)) as [->|Hne].
           ++ rewrite lookup_insert_eq in Hkey. injection Hkey as <-.
              by rewrite <- (sub_is_template x template_args), Hs.
           ++ rewrite lookup_insert_ne in Hkey by done. by eapply IH1.
        -- intros name Hname. destruct (decide (override_var i = name)) as [<-|Hne].
           ++ exists i. by rewrite lookup_insert_eq.
           ++ rewrite lookup_insert_ne in Hname by done.
              destruct (IH2 _ Hname) as (key & [v Hkey] & ->). exists key.
              split; [|done]. destruct (decide (i = key)) as [->|]; [congruence|].
              rewrite lookup_insert_ne by done. by eexists.
      * apply sub_raises in Hs as [-> Hx]. split; [done|].
        exists i, x. by rewrite lookup_insert_eq.
    + destruct IH as (-> & key & value & Hkey & Hv). split; [done|].
      exists key, value. split; [|done].
      destruct (decide (i = key)) as [->|]; [congruence|].
      by rewrite lookup_insert_ne.
Qed.

(** X4: [__handle_kwd_overrides] removes no key, adds keys of
    [kwds_gx_properties] only, gives each key either the value it had or a
    truthy value of [kwds], and changes nothing when applied a second
    time. *)
Theorem overrides_keep_properties (properties kwds : gmap string value) :
  (forall key, is_Some (properties !! key) ->
               is_Some (__handle_kwd_overrides properties kwds !! key))
  /\ (forall key, is_Some (__handle_kwd_overrides properties kwds !! key) ->
                  is_Some (properties !! key) \/ key ∈ kwds_gx_properties)
  /\ (forall key value, __handle_kwd_overrides properties kwds !! key = Some value ->
                        properties !! key = Some value
                        \/ (kwds !! key = Some value /\ truthy value = true))
  /\ __handle_kwd_overrides (__handle_kwd_overrides properties kwds) kwds
     = __handle_kwd_overrides properties kwds.
Proof.
  split; [|split; [|split]].
  - intros key Hk. rewrite handle_kwd_overrides_lookup.
    by destruct (_ && _).
  - intros key. rewrite handle_kwd_overrides_lookup.
    destruct (bool_decide (key ∈ kwds_gx_properties)) eqn:Hd.
    + apply bool_decide_eq_true in Hd. by right.
    + by left.
  - intros key value. rewrite handle_kwd_overrides_lookup.
    destruct (bool_decide _ && truthy (get kwds key PNone)) eqn:Hd; [|by left].
    apply andb_prop in Hd as [_ Ht]. intros [= <-]. right.
    unfold get in *. destruct (kwds !! key); [done|discriminate Ht].
  - apply map_eq. intros key. rewrite !handle_kwd_overrides_lookup.
    by destruct (_ && _).
Qed.

(** X5: [__build_env_for_galaxy] returns an environment exactly when every
    value of the property dictionary is [None] or a string, and otherwise
    raises [TypeError], whichever entry the iteration meets first. *)
Theorem build_env_type_error (properties template_args : gmap string value) :
  (is_ok (__build_env_for_galaxy properties template_args) = true
   <-> forall key value, properties !! key = Some value -> is_template value = true)
  /\ (forall e, __build_env_for_galaxy properties template_args = Raise e -> e = TypeError).
Proof.
  pose proof (build_env_for_galaxy_cases properties template_args) as H.
  destruct (__build_env_for_galaxy properties template_args) as [env|e].
  - destruct H as [H _]. by repeat split.
  - destruct H as (-> & key & value & Hkey & Hv). split; [split|].
    + done.
    + intros Hall. by rewrite (Hall _ _ Hkey) in Hv.
    + by intros e [= <-].
Qed.

Lemma build_env_type_error_witness :
  __build_env_for_galaxy {[ "job_config_file" := PInt 3 ]} ∅ = Raise TypeError.
Proof.
  destruct (build_env_type_error {[ "job_config_file" := PInt 3 ]} ∅) as [Hok Herr].
  destruct (__build_env_for_galaxy _ _) as [env|e] eqn:E.
  - exfalso. assert (H : is_template (PInt 3) = true); [|discriminate H].
    apply (proj1 Hok eq_refl "job_config_file"). apply lookup_singleton_eq.
  - f_equal. by apply Herr.
Defined.

Lemma overrides_keep_properties_witness :
  is_Some (__handle_kwd_overrides {[ "cleanup_job" := PStr "never" ]}
             {[ "job_config_file" := PStr "/my/job_conf.xml" ]} !! "cleanup_job").
Proof.
  destruct (overrides_keep_properties {[ "cleanup_job" := PStr "never" ]}
              {[ "job_config_file" := PStr "/my/job_conf.xml" ]}) as [Hkeep _].
  apply Hkeep. rewrite lookup_singleton_eq. by eexists.
Defined.

(** ** What the environment holds *)

Lemma make_properties_lookup tc tdt etc td :
  let p := make_properties tc tdt etc td in
  p !! "file_path" = Some (PStr "${temp_directory}files")
  /\ p !! "new_file_path" = Some (PStr "${temp_directory}/tmp")
  /\ p !! "job_working_directory" = Some (PStr "${temp_directory}/job_working_directory")
  /\ p !! "template_cache_path" = Some (PStr "${temp_directory}/compiled_templates")
  /\ p !! "citation_cache_data_dir" = Some (PStr "${temp_directory}/citations/data")
  /\ p !! "citation_cache_lock_dir" = Some (PStr "${temp_directory}/citations/lock")
  /\ p !! "integrated_tool_panel_config"
     = Some (PStr "${temp_directory}/integrated_tool_panel_conf.xml")
  /\ p !! "master_api_key" = Some (PStr "${master_api_key}")
  /\ p !! "id_secret" = Some (PStr "${id_secret}")
  /\ p !! "log_level" = Some (PStr "${log_level}")
  /\ p !! "debug" = Some (PStr "${debug}")
  /\ p !! "tool_config_file" = Some (PStr tc)
  /\ p !! "migrated_tools_config" = Some (PStr etc)
  /\ p !! "tool_data_table_config_path" = Some tdt
  /\ p !! "test_data_dir" = Some td.
Proof. vm_compute. repeat split. Qed.

Lemma final_properties_literal ft kwds tc tdt etc td key :
  key ∉ kwds_gx_properties -> key <> "database_connection" ->
  final_properties ft kwds tc tdt etc td !! key = make_properties tc tdt etc td !! key.
Proof.
  intros Hk Hd. unfold final_properties. rewrite handle_kwd_overrides_lookup.
  rewrite (bool_decide_eq_false_2 _ Hk). cbn [andb].
  destruct (negb ft); [|done]. by rewrite lookup_insert_ne.
Qed.

Lemma final_properties_database ft kwds tc tdt etc td :
  final_properties ft kwds tc tdt etc td !! "database_connection"
  = if ft then None
    else Some (PStr "sqlite:///${database_location}?isolation_level=IMMEDIATE").
Proof.
  unfold final_properties. rewrite handle_kwd_overrides_lookup.
  rewrite bool_decide_eq_false_2 by not_in_list. cbn [andb].
  destruct ft; cbn [negb].
  - apply make_properties_no_database_connection.
  - by rewrite lookup_insert_eq.
Qed.

Lemma no_dollar_trailing s : no_dollar s = true -> trailing_dollars s = 0.
Proof.
  induction s as [|c s IH]; [done|]. cbn [no_dollar trailing_dollars].
  intros [Hc Hs]%andb_prop. apply negb_true_iff in Hc. rewrite Hc. cbn [andb].
  by apply IH.
Qed.

(** One braced placeholder in otherwise plain text. *)
Lemma sub_one_placeholder args pre key post v :
  no_dollar pre = true -> no_dollar post = true -> is_identifier key = true ->
  args !! key = Some v ->
  __sub (PStr (pre +:+ "${" +:+ key +:+ "}" +:+ post)) args = Ok (pre +:+ str v +:+ post).
Proof.
  intros Hpre Hpost Hkey Hv. unfold __sub. f_equal.
  rewrite safe_substitute_app; [| |done].
  2:{ by rewrite no_dollar_trailing. }
  unfold Template.safe_substitute at 2. rewrite sub_from_braced by done.
  fold (Template.safe_substitute post args).
  rewrite !safe_substitute_no_dollar by done.
  unfold Template.lookup_or. by rewrite Hv.
Qed.

(** What a session that reaches its [yield] was built from. *)
Lemma enter_run_ok h ctx tool_path for_tests kwds w w' a :
  enter h ctx tool_path for_tests kwds w = (w', Ok a) ->
  exists cd kwds2 tool_data_table tool_definition,
    config_directory (yielded a) = PStr cd
    /\ (forall key default,
          key ∉ ["tool_dependency_dir"; "dependency_resolvers_config_file";
                 "job_metrics_config_file"] ->
          get kwds2 key default = get kwds key default)
    /\ properties a
       = final_properties for_tests kwds2 (Path.join cd "tool_conf.xml") tool_data_table
           (Path.join cd "empty_tool_conf.xml") (test_data_dir (yielded a))
    /\ template_args a
       = make_template_args kwds2 (PStr cd) (Path.join cd "galaxy.sqlite")
           tool_definition tool_path (Path.join cd "tool_conf.xml")
    /\ (tool_definition = tool_dir_entry \/ tool_definition = tool_file_entry)
    /\ final_env (properties a) (template_args a)
         (fetch_succeeds h (Path.join cd "galaxy.sqlite"))
       = Ok (env (yielded a)).
Proof.
  intros (l & w1 & Hs & Ha)%enter_ok.
  apply assemble_run_ok in Ha
    as (cd & kwds1 & td & Hl & _ & Hk1 & Hp & Hta & Htd & Henv & Hy & _).
  exists cd, (<["job_metrics_config_file" := PStr (Path.join cd "job_metrics_conf.xml")]> kwds1),
         (of_option (l_tool_data_table l)), td.
  rewrite Hy at 1 2. cbn [config_directory test_data_dir].
  repeat split; try done.
  intros key default Hkey.
  rewrite get_insert_ne by (intros <-; apply Hkey; do 2 right; left).
  rewrite Hk1. destruct (stock_selected kwds); [|done].
  rewrite !get_insert_ne; [done| |].
  - intros <-. apply Hkey. left.
  - intros <-. apply Hkey. right. left.
Qed.

(** Every property of a session is exported under its override name. *)
Lemma enter_exports h ctx tool_path for_tests kwds w w' a key value :
  enter h ctx tool_path for_tests kwds w = (w', Ok a) ->
  properties a !! key = Some value ->
  exists s, __sub value (template_args a) = Ok s
            /\ env (yielded a) !! override_var key = Some (PStr s).
Proof.
  intros (cd & kwds2 & tdt & td & _ & _ & Hp & _ & _ & Henv)%enter_run_ok Hkey.
  apply final_env_ok in Henv as [Hvars _]; [by apply Hvars|].
  rewrite Hp. apply final_properties_keys.
Qed.

(** The names of the environment. *)
Lemma final_env_names (properties template_args env : gmap string value) pre :
  final_env properties template_args pre = Ok env ->
  env !! "GALAXY_TEST_UPLOAD_ASYNC" = Some (PStr "false")
  /\ env !! "GALAXY_TEST_DB_TEMPLATE"
     = (if pre then Some (PStr DATABASE_TEMPLATE_URL) else None)
  /\ (forall name, is_Some (env !! name) ->
        (exists key, is_Some (properties !! key) /\ name = override_var key)
        \/ name ∈ test_property_variants.*1
        \/ name = "GALAXY_TEST_DB_TEMPLATE"
        \/ name = "GALAXY_TEST_UPLOAD_ASYNC").
Proof.
  unfold final_env.
  pose proof (build_env_for_galaxy_cases properties template_args) as Hc.
  destruct (__build_env_for_galaxy properties template_args) as [env0|e]; [|done].
  destruct Hc as [_ Honly]. intros [= <-].
  destruct (build_test_env_lookup properties env0) as [_ Hother].
  split; [by rewrite lookup_insert_eq|]. split.
  - rewrite lookup_insert_ne by done. destruct pre; [by rewrite lookup_insert_eq|].
    rewrite Hother by (cbn; not_in_list).
    destruct (env0 !! "GALAXY_TEST_DB_TEMPLATE") as [v|] eqn:Hv; [|done].
    destruct (Honly "GALAXY_TEST_DB_TEMPLATE") as (key & _ & Hkey); [by eexists|].
    pose proof (override_var_eighth key) as H8. by rewrite <- Hkey in H8.
  - intros name Hname.
    destruct (decide (name = "GALAXY_TEST_UPLOAD_ASYNC")) as [->|Hn1]; [by do 3 right|].
    rewrite lookup_insert_ne in Hname by done.
    destruct (decide (name = "GALAXY_TEST_DB_TEMPLATE")) as [->|Hn2]; [by do 2 right; left|].
    assert (Hname' : is_Some (__build_test_env properties env0 !! name)).
    { destruct pre; [|done]. by rewrite lookup_insert_ne in Hname. }
    destruct (decide (name ∈ test_property_variants.*1)) as [Hin|Hout]; [by right; left|].
    rewrite Hother in Hname' by done. left. by apply Honly.
Qed.

(** X6: in every session that reaches its [yield] in the directory [cd], the
    environment places the file path at [cd] followed by [files] without a
    separator, the other working paths at [cd] followed by [/] and their
    fixed names, and, outside tests only, the database connection at the
    SQLite file [galaxy.sqlite] of [cd]. *)
Theorem env_working_paths
    (h : host) (ctx : context) (tool_path : string) (for_tests : bool)
    (kwds : gmap string value) (w w' : world) (a : assembled) (cd : string) :
  enter h ctx tool_path for_tests kwds w = (w', Ok a) ->
  config_directory (yielded a) = PStr cd ->
  let e := env (yielded a) in
  e !! "GALAXY_CONFIG_OVERRIDE_FILE_PATH" = Some (PStr (cd +:+ "files"))
  /\ e !! "GALAXY_CONFIG_OVERRIDE_NEW_FILE_PATH" = Some (PStr (cd +:+ "/tmp"))
  /\ e !! "GALAXY_CONFIG_OVERRIDE_JOB_WORKING_DIRECTORY"
     = Some (PStr (cd +:+ "/job_working_directory"))
  /\ e !! "GALAXY_CONFIG_OVERRIDE_TEMPLATE_CACHE_PATH"
     = Some (PStr (cd +:+ "/compiled_templates"))
  /\ e !! "GALAXY_CONFIG_OVERRIDE_CITATION_CACHE_DATA_DIR"
     = Some (PStr (cd +:+ "/citations/data"))
  /\ e !! "GALAXY_CONFIG_OVERRIDE_CITATION_CACHE_LOCK_DIR"
     = Some (PStr (cd +:+ "/citations/lock"))
  /\ e !! "GALAXY_CONFIG_OVERRIDE_INTEGRATED_TOOL_PANEL_CONFIG"
     = Some (PStr (cd +:+ "/integrated_tool_panel_conf.xml"))
  /\ e !! "GALAXY_CONFIG_OVERRIDE_DATABASE_CONNECTION"
     = (if for_tests then None
        else Some (PStr ("sqlite:///" +:+ Path.join cd "galaxy.sqlite"
                         +:+ "?isolation_level=IMMEDIATE"))).
Proof.
  intros Hrun Hcd e.
  pose proof Hrun as (cd' & kwds2 & tdt & td & Hcd' & _ & Hp & Hta & _ & Henv)%enter_run_ok.
  rewrite Hcd in Hcd'. injection Hcd' as <-.
  destruct (make_template_args_lookup kwds2 (PStr cd) (Path.join cd "galaxy.sqlite")
              td tool_path (Path.join cd "tool_conf.xml"))
    as (_ & _ & Htemp & Hdb & _).
  rewrite <- Hta in Htemp, Hdb.
  destruct (make_properties_lookup (Path.join cd "tool_conf.xml") tdt
              (Path.join cd "empty_tool_conf.xml") (test_data_dir (yielded a)))
    as (P1 & P2 & P3 & P4 & P5 & P6 & P7 & _).
  assert (Hdir : forall key post,
            key ∉ kwds_gx_properties -> key <> "database_connection" ->
            make_properties (Path.join cd "tool_conf.xml") tdt
              (Path.join cd "empty_tool_conf.xml") (test_data_dir (yielded a)) !! key
            = Some (PStr ("" +:+ "${" +:+ "temp_directory" +:+ "}" +:+ post)) ->
            no_dollar post = true ->
            e !! override_var key = Some (PStr (cd +:+ post))).
  { intros key post Hk1 Hk2 Hkey Hpost.
    rewrite <- (final_properties_literal for_tests kwds2), <- Hp in Hkey by done.
    destruct (enter_exports _ _ _ _ _ _ _ _ _ _ Hrun Hkey) as (s & Hs & He).
    rewrite (sub_one_placeholder _ "" "temp_directory" post (PStr cd)) in Hs by done.
    injection Hs as <-. exact He. }
  split; [apply (Hdir "file_path" "files"); [not_in_list|done|exact P1|done]|].
  split; [apply (Hdir "new_file_path" "/tmp"); [not_in_list|done|exact P2|done]|].
  split; [apply (Hdir "job_working_directory" "/job_working_directory");
          [not_in_list|done|exact P3|done]|].
  split; [apply (Hdir "template_cache_path" "/compiled_templates");
          [not_in_list|done|exact P4|done]|].
  split; [apply (Hdir "citation_cache_data_dir" "/citations/data");
          [not_in_list|done|exact P5|done]|].
  split; [apply (Hdir "citation_cache_lock_dir" "/citations/lock");
          [not_in_list|done|exact P6|done]|].
  split; [apply (Hdir "integrated_tool_panel_config" "/integrated_tool_panel_conf.xml");
          [not_in_list|done|exact P7|done]|].
  pose proof (final_properties_database for_tests kwds2 (Path.join cd "tool_conf.xml") tdt
                (Path.join cd "empty_tool_conf.xml") (test_data_dir (yielded a))) as Hd.
  rewrite <- Hp in Hd. destruct for_tests.
  - destruct (e !! "GALAXY_CONFIG_OVERRIDE_DATABASE_CONNECTION") as [v|] eqn:Hv; [|done].
    exfalso. apply final_env_names in Henv as (_ & _ & Hnames).
    destruct (Hnames "GALAXY_CONFIG_OVERRIDE_DATABASE_CONNECTION")
      as [(key & Hkey & Hname)|[Hin|[?|?]]]; [by eexists| | |done|done].
    + apply (override_var_inj "database_connection") in Hname as <-; [|done|].
      * rewrite Hd in Hkey. by destruct Hkey.
      * rewrite Hp in Hkey. by apply final_properties_keys in Hkey.
    + revert Hin. cbn. not_in_list.
  - destruct (enter_exports _ _ _ _ _ _ _ _ _ _ Hrun Hd) as (s & Hs & He).
    rewrite (sub_one_placeholder _ "sqlite:///" "database_location"
               "?isolation_level=IMMEDIATE" (PStr (Path.join cd "galaxy.sqlite"))) in Hs by done.
    injection Hs as <-. exact He.
Qed.

Lemma env_working_paths_witness :
  match (enter Example.host0 Example.ctx0 "cat.xml" false
           {[ "config_directory" := PStr "/work" ]} Example.world0).2 with
  | Ok a =>
      env (yielded a) !! "GALAXY_CONFIG_OVERRIDE_FILE_PATH" = Some (PStr "/workfiles")
      /\ env (yielded a) !! "GALAXY_CONFIG_OVERRIDE_NEW_FILE_PATH" = Some (PStr "/work/tmp")
  | Raise _ => False
  end.
Proof.
  assert (Hok : is_ok (enter Example.host0 Example.ctx0 "cat.xml" false
                         {[ "config_directory" := PStr "/work" ]}
                         Example.world0).2 = true)
    by (vm_compute; reflexivity).
  assert (Hp : match (enter Example.host0 Example.ctx0 "cat.xml" false
                        {[ "config_directory" := PStr "/work" ]} Example.world0).2 with
               | Ok a => config_directory (yielded a) = PStr "/work"
               | Raise _ => True
               end)
    by (vm_compute; reflexivity).
  destruct (enter _ _ _ _ _ _) as [w' [a|e]] eqn:E; [|discriminate Hok].
  cbn [snd] in *.
  destruct (env_working_paths _ _ _ _ _ _ _ _ _ E Hp) as (H1 & H2 & _).
  split; [exact H1|exact H2].
Defined.

(** X7: in every session that reaches its [yield], the master API key, the id
    secret, the log level and the debug flag are exported as [str] of the
    value [kwds] holds for them, copied verbatim, the defaults [test_key],
    [test_secret], [DEBUG] and [true] being used only when the key is
    missing from [kwds]. *)
Theorem env_user_settings
    (h : host) (ctx : context) (tool_path : string) (for_tests : bool)
    (kwds : gmap string value) (w w' : world) (a : assembled) :
  enter h ctx tool_path for_tests kwds w = (w', Ok a) ->
  let e := env (yielded a) in
  e !! "GALAXY_CONFIG_OVERRIDE_MASTER_API_KEY"
  = Some (PStr (str (get kwds "master_api_key" (PStr "test_key"))))
  /\ e !! "GALAXY_CONFIG_OVERRIDE_ID_SECRET"
     = Some (PStr (str (get kwds "id_secret" (PStr "test_secret"))))
  /\ e !! "GALAXY_CONFIG_OVERRIDE_LOG_LEVEL"
     = Some (PStr (str (get kwds "log_level" (PStr "DEBUG"))))
  /\ e !! "GALAXY_CONFIG_OVERRIDE_DEBUG"
     = Some (PStr (str (get kwds "debug" (PStr "true")))).
Proof.
  intros Hrun e.
  pose proof Hrun as (cd & kwds2 & tdt & td & Hcd & Hk & Hp & Hta & _ & Henv)%enter_run_ok.
  destruct (make_template_args_lookup kwds2 (PStr cd) (Path.join cd "galaxy.sqlite")
              td tool_path (Path.join cd "tool_conf.xml"))
    as (_ & _ & _ & _ & _ & _ & T1 & T2 & T3 & T4).
  rewrite <- Hta in T1, T2, T3, T4.
  rewrite Hk in T1, T2, T3, T4 by not_in_list.
  destruct (make_properties_lookup (Path.join cd "tool_conf.xml") tdt
              (Path.join cd "empty_tool_conf.xml") (test_data_dir (yielded a)))
    as (_ & _ & _ & _ & _ & _ & _ & P1 & P2 & P3 & P4 & _).
  assert (Hset : forall key v,
            key ∉ kwds_gx_properties -> key <> "database_connection" ->
            is_identifier key = true ->
            make_properties (Path.join cd "tool_conf.xml") tdt
              (Path.join cd "empty_tool_conf.xml") (test_data_dir (yielded a)) !! key
            = Some (PStr ("" +:+ "${" +:+ key +:+ "}" +:+ "")) ->
            template_args a !! key = Some v ->
            e !! override_var key = Some (PStr (str v))).
  { intros key v Hk1 Hk2 Hid Hkey Hv.
    rewrite <- (final_properties_literal for_tests kwds2), <- Hp in Hkey by done.
    destruct (enter_exports _ _ _ _ _ _ _ _ _ _ Hrun Hkey) as (s & Hs & He).
    rewrite (sub_one_placeholder _ "" key "" v) in Hs by done.
    injection Hs as <-. by rewrite str_app_nil_l, str_app_nil_r in He. }
  split; [apply (Hset "master_api_key"); [not_in_list|done|done|exact P1|exact T2]|].
  split; [apply (Hset "id_secret"); [not_in_list|done|done|exact P2|exact T3]|].
  split; [apply (Hset "log_level"); [not_in_list|done|done|exact P3|exact T4]|].
  apply (Hset "debug"); [not_in_list|done|done|exact P4|exact T1].
Qed.

Lemma env_user_settings_witness :
  match (enter Example.host0 Example.ctx0 "cat.xml" false
           {[ "master_api_key" := PStr "s3cret$$"; "debug" := PNone ]}
           Example.world0).2 with
  | Ok a =>
      env (yielded a) !! "GALAXY_CONFIG_OVERRIDE_MASTER_API_KEY" = Some (PStr "s3cret$$")
      /\ env (yielded a) !! "GALAXY_CONFIG_OVERRIDE_DEBUG" = Some (PStr "None")
      /\ env (yielded a) !! "GALAXY_CONFIG_OVERRIDE_LOG_LEVEL" = Some (PStr "DEBUG")
  | Raise _ => False
  end.
Proof.
  assert (Hok : is_ok (enter Example.host0 Example.ctx0 "cat.xml" false
                         {[ "master_api_key" := PStr "s3cret$$"; "debug" := PNone ]}
                         Example.world0).2 = true)
    by (vm_compute; reflexivity).
  destruct (enter _ _ _ _ _ _) as [w' [a|e]] eqn:E; [|discriminate Hok].
  cbn [snd].
  destruct (env_user_settings _ _ _ _ _ _ _ _ E) as (H1 & _ & H3 & H4).
  split; [exact H1|]. split; [exact H4|exact H3].
Defined.

(** X8: in every session that reaches its [yield], [GALAXY_TEST_UPLOAD_ASYNC]
    is [false]; [GALAXY_TEST_DB_TEMPLATE] is the template URL exactly when
    the download succeeded and is absent otherwise; and every other name of
    the environment is the override name of a property or one of the legacy
    names of [test_property_variants]. *)
Theorem env_test_variables
    (h : host) (ctx : context) (tool_path : string) (for_tests : bool)
    (kwds : gmap string value) (w w' : world) (a : assembled) (cd : string) :
  enter h ctx tool_path for_tests kwds w = (w', Ok a) ->
  config_directory (yielded a) = PStr cd ->
  env (yielded a) !! "GALAXY_TEST_UPLOAD_ASYNC" = Some (PStr "false")
  /\ env (yielded a) !! "GALAXY_TEST_DB_TEMPLATE"
     = (if fetch_succeeds h (Path.join cd "galaxy.sqlite")
        then Some (PStr DATABASE_TEMPLATE_URL) else None)
  /\ (forall name, is_Some (env (yielded a) !! name) ->
        (exists key, is_Some (properties a !! key)
                     /\ name = "GALAXY_CONFIG_OVERRIDE_" +:+ upper key)
        \/ name ∈ test_property_variants.*1
        \/ name = "GALAXY_TEST_DB_TEMPLATE"
        \/ name = "GALAXY_TEST_UPLOAD_ASYNC").
Proof.
  intros Hrun Hcd.
  pose proof Hrun as (cd' & kwds2 & tdt & td & Hcd' & _ & _ & _ & _ & Henv)%enter_run_ok.
  rewrite Hcd in Hcd'. injection Hcd' as <-.
  by apply final_env_names in Henv.
Qed.

Lemma env_test_variables_witness :
  match (enter (Host "/home/u/tools" "/tmp/tmpAB" true (fun _ => true) None
                     (fun _ f => f) (fun _ _ => None) "deactivate" "wget master")
               Example.ctx0 "cat.xml" false ∅ Example.world0).2 with
  | Ok a =>
      env (yielded a) !! "GALAXY_TEST_UPLOAD_ASYNC" = Some (PStr "false")
      /\ env (yielded a) !! "GALAXY_TEST_DB_TEMPLATE" = None
  | Raise _ => False
  end.
Proof.
  assert (Hok : is_ok (enter (Host "/home/u/tools" "/tmp/tmpAB" true (fun _ => true) None
                                   (fun _ f => f) (fun _ _ => None) "deactivate" "wget master")
                             Example.ctx0 "cat.xml" false ∅ Example.world0).2 = true)
    by (vm_compute; reflexivity).
  assert (Hp : match (enter (Host "/home/u/tools" "/tmp/tmpAB" true (fun _ => true) None
                                  (fun _ f => f) (fun _ _ => None) "deactivate" "wget master")
                            Example.ctx0 "cat.xml" false ∅ Example.world0).2 with
               | Ok a => config_directory (yielded a) = PStr "/tmp/tmpAB"
               | Raise _ => True
               end)
    by (vm_compute; reflexivity).
  destruct (enter _ _ _ _ _ _) as [w' [a|e]] eqn:E; [|discriminate Hok].
  cbn [snd] in *.
  destruct (env_test_variables _ _ _ _ _ _ _ _ _ E Hp) as (H1 & H2 & _).
  split; [exact H1|exact H2].
Defined.

(** ** Root, clean-up, test data and generated files *)

(** X9: a truthy [galaxy_root] of [kwds] is returned as it is, whatever the
    file system and the global configuration hold, and without the checkout
    being looked for; failing that, a truthy [galaxy_root] of the global
    configuration is; and unless [install_galaxy] is set the session yields
    that root. *)
Theorem explicit_root_wins (h : host) (ctx : context) (kwds : gmap string value) :
  (truthy (get kwds "galaxy_root" PNone) = true ->
   (forall f, find_galaxy_root_in h f ctx kwds = Ok (get kwds "galaxy_root" PNone))
   /\ (truthy (get kwds "install_galaxy" PNone) = false ->
       forall tool_path for_tests w w' a,
         enter h ctx tool_path for_tests kwds w = (w', Ok a) ->
         galaxy_root (yielded a) = get kwds "galaxy_root" PNone))
  /\ (truthy (get kwds "galaxy_root" PNone) = false ->
      truthy (get (global_config ctx) "galaxy_root" PNone) = true ->
      (forall f, find_galaxy_root_in h f ctx kwds
                 = Ok (get (global_config ctx) "galaxy_root" PNone))
      /\ (truthy (get kwds "install_galaxy" PNone) = false ->
          forall tool_path for_tests w w' a,
            enter h ctx tool_path for_tests kwds w = (w', Ok a) ->
            galaxy_root (yielded a) = get (global_config ctx) "galaxy_root" PNone)).
Proof.
  assert (Hsession : forall v,
            (forall f, find_galaxy_root_in h f ctx kwds = Ok v) ->
            truthy (get kwds "install_galaxy" PNone) = false ->
            forall tool_path for_tests w w' a,
              enter h ctx tool_path for_tests kwds w = (w', Ok a) ->
              galaxy_root (yielded a) = v).
  { intros v Hv Hinst tool_path for_tests w w' a (l & w1 & Hs & Ha)%enter_ok.
    pose proof (setup_spec h ctx tool_path kwds w) as Hspec. cbv zeta in Hspec.
    rewrite Hs, Hinst, Hv in Hspec. destruct Hspec as (_ & _ & [= Hroot] & _).
    apply assemble_run_ok in Ha as (cd & kwds1 & td & _ & _ & _ & _ & _ & _ & _ & Hy & _).
    rewrite Hy. cbn [galaxy_root]. by rewrite Hinst. }
  split.
  - intros Hk.
    assert (Hf : forall f, find_galaxy_root_in h f ctx kwds = Ok (get kwds "galaxy_root" PNone)).
    { intros f. unfold find_galaxy_root_in. by rewrite Hk. }
    split; [done|]. by apply Hsession.
  - intros Hk Hg.
    assert (Hf : forall f, find_galaxy_root_in h f ctx kwds
                           = Ok (get (global_config ctx) "galaxy_root" PNone)).
    { intros f. unfold find_galaxy_root_in. rewrite Hk, Hg.
      unfold getitem, get in *. by destruct (global_config ctx !! "galaxy_root"). }
    split; [done|]. by apply Hsession.
Qed.

Lemma explicit_root_wins_witness :
  find_galaxy_root_in Example.host0 Example.fs0
    (Context {[ "galaxy_root" := PStr "/opt/galaxy" ]})
    {[ "galaxy_root" := PStr "/srv/galaxy" ]}
  = Ok (PStr "/srv/galaxy").
Proof.
  destruct (explicit_root_wins Example.host0
              (Context {[ "galaxy_root" := PStr "/opt/galaxy" ]})
              {[ "galaxy_root" := PStr "/srv/galaxy" ]}) as [Hk _].
  destruct (Hk eq_refl) as [Hf _]. exact (Hf Example.fs0).
Defined.

(** X10: the [finally] clause changes the outcome of a session only when the
    removal of the temporary directory fails.  When the set-up failed or
    the caller gave the working directory, the session ends exactly as it
    does without the clause.  Otherwise the clause calls [rmtree] on the
    temporary directory: when that is still a directory and the system
    removes all of it, the result, value or exception, is that of the
    session without the clause and the removal is the one event added; when
    the system leaves something behind, or the path is no longer a
    directory, the session ends with [OSError] in place of that result and
    no removal is recorded. *)
Theorem cleanup_outcome
    (h : host) (ctx : context) (tool_path : string) (for_tests : bool)
    (kwds : gmap string value) {B} (body : GalaxyConfig -> M B) (w : world) :
  let uncleaned := (a <~ enter h ctx tool_path for_tests kwds ;; body (yielded a)) w in
  let cleaned := galaxy_config h ctx tool_path for_tests kwds body w in
  if is_ok (setup h ctx tool_path kwds w).2
     && negb (truthy (get kwds "config_directory" PNone))
  then
    if isdir_in h (fs uncleaned.1) (tmp_name h) then
      match rmtree_leaves h (tmp_name h) (fs uncleaned.1) with
      | None =>
          cleaned.2 = uncleaned.2
          /\ trace cleaned.1 = trace uncleaned.1 ++ [ERmtree (tmp_name h)]
      | Some remains =>
          cleaned.2 = Raise (OSError (tmp_name h))
          /\ fs cleaned.1 = remains
          /\ trace cleaned.1 = trace uncleaned.1
      end
    else cleaned = (uncleaned.1, Raise (OSError (tmp_name h)))
  else cleaned = uncleaned.
Proof.
  cbv zeta. unfold galaxy_config, enter. rewrite bind_assoc.
  pose proof (setup_spec h ctx tool_path kwds w) as Hspec. cbv zeta in Hspec.
  destruct (setup h ctx tool_path kwds w) as [w1 [l|e]] eqn:Hs; cbn [snd is_ok andb].
  2:{ by rewrite !(bind_raise _ _ _ _ _ Hs). }
  rewrite !(bind_step _ _ _ _ _ Hs).
  destruct Hspec as (Hcreated & Hcd & _).
  unfold try_finally. destruct (bind _ _ w1) as [w2 r]. cbn [fst snd].
  rewrite cleanup_run, Hcreated, Hcd.
  destruct (truthy (get kwds "config_directory" PNone)); cbn [negb]; [done|].
  destruct (isdir_in h (fs w2) (tmp_name h)); [|done].
  by destruct (rmtree_leaves h (tmp_name h) (fs w2)).
Qed.

Lemma cleanup_outcome_witness :
  (galaxy_config Example.host0 Example.ctx0 "cat.xml" false ∅
     (fun _ => @raise unit (Exception "tests failed")) Example.world0).2
  = Raise (Exception "tests failed")
  /\ (galaxy_config Example.host_stuck Example.ctx0 "cat.xml" false ∅
        (fun _ => @raise unit (Exception "tests failed")) Example.world0).2
     = Raise (OSError "/tmp/tmpAB").
Proof.
  split.
  - pose proof (cleanup_outcome Example.host0 Example.ctx0 "cat.xml" false ∅
                  (fun _ => @raise unit (Exception "tests failed")) Example.world0) as H.
    cbv zeta in H.
    assert (Hc : is_ok (setup Example.host0 Example.ctx0 "cat.xml" ∅ Example.world0).2
                 && negb (truthy (get (∅ : gmap string value) "config_directory" PNone))
                 = true) by (vm_compute; reflexivity).
    assert (Hd : isdir_in Example.host0
                   (fs ((a <~ enter Example.host0 Example.ctx0 "cat.xml" false ∅ ;;
                         @raise unit (Exception "tests failed")) Example.world0).1)
                   (tmp_name Example.host0) = true) by (vm_compute; reflexivity).
    rewrite Hc, Hd in H.
    change (rmtree_leaves Example.host0 _ _) with (@None (gmap string node)) in H.
    destruct H as [H _]. rewrite H. vm_compute. reflexivity.
  - pose proof (cleanup_outcome Example.host_stuck Example.ctx0 "cat.xml" false ∅
                  (fun _ => @raise unit (Exception "tests failed")) Example.world0) as H.
    cbv zeta in H.
    assert (Hc : is_ok (setup Example.host_stuck Example.ctx0 "cat.xml" ∅ Example.world0).2
                 && negb (truthy (get (∅ : gmap string value) "config_directory" PNone))
                 = true) by (vm_compute; reflexivity).
    assert (Hd : isdir_in Example.host_stuck
                   (fs ((a <~ enter Example.host_stuck Example.ctx0 "cat.xml" false ∅ ;;
                         @raise unit (Exception "tests failed")) Example.world0).1)
                   (tmp_name Example.host_stuck) = true) by (vm_compute; reflexivity).
    rewrite Hc, Hd in H.
    change (rmtree_leaves Example.host_stuck (tmp_name Example.host_stuck) ?f)
      with (Some f) in H.
    destruct H as [H _]. exact H.
Defined.

Lemma setup_test_data h ctx tool_path kwds w w1 l :
  setup h ctx tool_path kwds w = (w1, Ok l) ->
  exists w0, __find_test_data h tool_path kwds w = (w0, Ok (l_test_data_dir l)).
Proof.
  intros H. pose proof (setup_ok_inv _ _ _ _ _ _ _ H) as (Hbound & _).
  rewrite setup_bound in H by done.
  apply bind_ok in H as (td & w2 & Htd & H). exists w2. rewrite Htd. do 2 f_equal.
  apply bind_ok in H as (tdt & w3 & _ & H).
  apply bind_ok in H as (root & w4 & _ & H). cbv zeta in H.
  destruct (negb _).
  - by apply bind_ok in H as (cd & w5 & _ & [<- _]%ret_ok).
  - by apply ret_ok in H as [<- _].
Qed.

(** X11: in every session that reaches its [yield], the test-data directory of
    the yielded configuration is [None] or a string.  It is [None] exactly
    when no [test_data] was given and the search found nothing: the warning
    is then in the trace, [GALAXY_TEST_FILE_DIR] is absent and the override
    of [test_data_dir] is the empty string.  Otherwise it is the path given
    or found, exported as it is in [GALAXY_TEST_FILE_DIR] and after one
    substitution in the override. *)
Theorem test_data_reaches_env
    (h : host) (ctx : context) (tool_path : string) (for_tests : bool)
    (kwds : gmap string value) (w w' : world) (a : assembled) :
  enter h ctx tool_path for_tests kwds w = (w', Ok a) ->
  match test_data_dir (yielded a) with
  | PNone =>
      truthy (get kwds "test_data" PNone) = false
      /\ search_tool_path_in h (fs w) tool_path "test-data" [] = None
      /\ EWarn NO_TEST_DATA_MESSAGE ∈ trace w'
      /\ env (yielded a) !! "GALAXY_TEST_FILE_DIR" = None
      /\ env (yielded a) !! "GALAXY_CONFIG_OVERRIDE_TEST_DATA_DIR" = Some (PStr "")
  | PStr p =>
      (if truthy (get kwds "test_data" PNone)
       then os_path_abspath h (get kwds "test_data" PNone) = Ok p
       else search_tool_path_in h (fs w) tool_path "test-data" [] = Some p)
      /\ env (yielded a) !! "GALAXY_TEST_FILE_DIR" = Some (PStr p)
      /\ env (yielded a) !! "GALAXY_CONFIG_OVERRIDE_TEST_DATA_DIR"
         = Some (PStr (Template.safe_substitute p (template_args a)))
  | _ => False
  end.
Proof.
  intros Hrun.
  pose proof Hrun as (cd & kwds2 & tdt & td & _ & _ & Hp & _ & _ & Henv)%enter_run_ok.
  assert (Hprop : properties a !! "test_data_dir" = Some (test_data_dir (yielded a))).
  { rewrite Hp, final_properties_literal by (not_in_list || done).
    by destruct (make_properties_lookup (Path.join cd "tool_conf.xml") tdt
                   (Path.join cd "empty_tool_conf.xml") (test_data_dir (yielded a)))
      as (_ & _ & _ & _ & _ & _ & _ & _ & _ & _ & _ & _ & _ & _ & P). }
  destruct (enter_exports _ _ _ _ _ _ _ _ _ _ Hrun Hprop) as (s & Hs & He).
  apply final_env_ok in Henv as [_ Halias]; [|rewrite Hp; apply final_properties_keys].
  specialize (Halias "GALAXY_TEST_FILE_DIR" "test_data_dir").
  rewrite Hprop in Halias.
  assert (Hin : ("GALAXY_TEST_FILE_DIR", "test_data_dir") ∈ test_property_variants)
    by (unfold test_property_variants; do 3 right; left).
  specialize (Halias Hin). clear Hin.
  apply enter_ok in Hrun as (l & w1 & Hsetup & Ha).
  pose proof (setup_trace h _ _ _ _ _ _ Hsetup) as Ht1.
  destruct (setup_test_data _ _ _ _ _ _ _ Hsetup) as (w0 & Htd).
  apply assemble_run_ok in Ha as (cd' & kwds1 & td' & _ & _ & _ & _ & _ & _ & _ & Hy & Ht & _).
  assert (Htdd : test_data_dir (yielded a) = of_option (l_test_data_dir l))
    by (by rewrite Hy).
  rewrite find_test_data_run in Htd.
  destruct (l_test_data_dir l) as [p|]; cbn [of_option] in Htdd; rewrite Htdd in *.
  - split; [|split].
    + destruct (truthy (get kwds "test_data" PNone)).
      * injection Htd as _ Htd. by destruct (os_path_abspath h _) as [q|]; [injection Htd as ->|].
      * by destruct (search_tool_path_in _ _ _ _ _) as [q|]; [injection Htd as _ ->|].
    + rewrite Halias. by case_decide.
    + cbn [__sub] in Hs. by injection Hs as <-.
  - assert (Hmiss : truthy (get kwds "test_data" PNone) = false
                    /\ search_tool_path_in h (fs w) tool_path "test-data" [] = None).
    { destruct (truthy (get kwds "test_data" PNone)).
      - injection Htd as _ Htd. by destruct (os_path_abspath h _).
      - by destruct (search_tool_path_in _ _ _ _ _). }
    destruct Hmiss as [Hm1 Hm2]. split; [done|]. split; [done|]. split; [|split].
    + rewrite Ht, Ht1. rewrite !elem_of_app. left. right. left. apply list_elem_of_here.
    + rewrite Halias. by case_decide.
    + cbn [__sub] in Hs. by injection Hs as <-.
Qed.

Lemma test_data_reaches_env_witness :
  match (enter Example.host0 Example.ctx0 "cat.xml" false ∅ Example.world0).2 with
  | Ok a =>
      env (yielded a) !! "GALAXY_TEST_FILE_DIR" = Some (PStr "/home/u/tools/test-data")
  | Raise _ => False
  end.
Proof.
  assert (Hok : is_ok (enter Example.host0 Example.ctx0 "cat.xml" false ∅
                         Example.world0).2 = true)
    by (vm_compute; reflexivity).
  assert (Hp : match (enter Example.host0 Example.ctx0 "cat.xml" false ∅
                        Example.world0).2 with
               | Ok a => test_data_dir (yielded a) = PStr "/home/u/tools/test-data"
               | Raise _ => True
               end)
    by (vm_compute; reflexivity).
  destruct (enter _ _ _ _ _ _) as [w' [a|e]] eqn:E; [|discriminate Hok].
  cbn [snd] in *.
  pose proof (test_data_reaches_env _ _ _ _ _ _ _ _ E) as H.
  rewrite Hp in H. exact (proj1 (proj2 H)).
Defined.

Lemma sub_placeholder_then args pre key rest v :
  no_dollar pre = true -> is_identifier key = true -> args !! key = Some v ->
  Template.safe_substitute (pre +:+ "${" +:+ key +:+ "}" +:+ rest) args
  = pre +:+ str v +:+ Template.safe_substitute rest args.
Proof.
  intros Hpre Hkey Hv.
  rewrite safe_substitute_app; [| |done].
  2:{ by rewrite no_dollar_trailing. }
  unfold Template.safe_substitute at 2. rewrite sub_from_braced by done.
  rewrite safe_substitute_no_dollar by done.
  unfold Template.lookup_or. by rewrite Hv.
Qed.

Lemma web_config_contents args port :
  args !! "port" = Some port -> args !! "host" = Some (PStr "127.0.0.1") ->
  Template.safe_substitute WEB_SERVER_CONFIG_TEMPLATE args = galaxy_ini_contents (str port).
Proof.
  intros Hport Hhost.
  change WEB_SERVER_CONFIG_TEMPLATE
    with ((nl +:+ "[server:main]" +:+ nl +:+ "use = egg:Paste#http" +:+ nl +:+ "port = ")
          +:+ "${" +:+ "port" +:+ "}"
          +:+ ((nl +:+ "host = ") +:+ "${" +:+ "host" +:+ "}"
               +:+ (nl +:+ "use_threadpool = True" +:+ nl
                    +:+ "threadpool_kill_thread_limit = 10800" +:+ nl
                    +:+ "[app:main]" +:+ nl
                    +:+ "paste.app_factory = galaxy.web.buildapp:app_factory" +:+ nl))).
  rewrite (sub_placeholder_then _ _ "port" _ port) by done.
  rewrite (sub_placeholder_then _ _ "host" _ (PStr "127.0.0.1")) by done.
  rewrite safe_substitute_no_dollar by done.
  reflexivity.
Qed.

Lemma tool_conf_template_contents args entry :
  args !! "tool_definition" = Some (PStr entry) ->
  Template.safe_substitute TOOL_CONF_TEMPLATE args = tool_conf_contents entry.
Proof.
  intros Hentry.
  change TOOL_CONF_TEMPLATE
    with (("<toolbox>" +:+ nl
           +:+ "  <section id=" +:+ dq +:+ "data_source" +:+ dq
           +:+ " name=" +:+ dq +:+ "Data Source" +:+ dq +:+ ">" +:+ nl
           +:+ "    <tool file=" +:+ dq +:+ "data_source/upload.xml" +:+ dq +:+ " />" +:+ nl
           +:+ "  </section>" +:+ nl
           +:+ "  <section id=" +:+ dq +:+ "testing" +:+ dq
           +:+ " name=" +:+ dq +:+ "Test Tools" +:+ dq +:+ ">" +:+ nl
           +:+ "    ")
          +:+ "${" +:+ "tool_definition" +:+ "}"
          +:+ (nl +:+ "  </section>" +:+ nl +:+ "</toolbox>" +:+ nl)).
  rewrite (sub_placeholder_then _ _ "tool_definition" _ (PStr entry)) by done.
  rewrite safe_substitute_no_dollar by done.
  reflexivity.
Qed.

(** The loop over the stock strategies touches one path only. *)
Lemma write_stock_strategies_fs h cd strategies : forall kwds w w' kwds' p,
  write_stock_strategies h (PStr cd) strategies kwds w = (w', Ok kwds') ->
  (existsb (fun s => truthy (get kwds s.1 PNone)) strategies = true ->
   p <> abspath h (Path.join cd "resolvers_conf.xml")) ->
  Forall (fun s : string * string =>
            s.1 <> "tool_dependency_dir"
            /\ s.1 <> "dependency_resolvers_config_file") strategies ->
  fs w' !! p = fs w !! p.
Proof.
  induction strategies as [|[key conf] rest IH]; intros kwds w w' kwds' p Hrun Hp Hkeys.
  - by apply ret_ok in Hrun as [_ ->].
  - apply Forall_cons in Hkeys as [[Hk1 Hk2] Hkeys]. cbn [fst] in *.
    cbn [write_stock_strategies] in Hrun. cbn [existsb fst] in Hp.
    destruct (truthy (get kwds key PNone)) eqn:Ht; cbn [orb] in Hp.
    + apply bind_ok in Hrun as (q & w1 & [[= <-] ->]%lift_ok & Hrun).
      apply bind_ok in Hrun as ([] & w2 & [_ ->]%write_file_ok & Hrun).
      rewrite (IH _ _ _ _ p Hrun); [|by intros _; apply Hp|done].
      cbn [fs]. rewrite lookup_insert_ne; [done|]. intros E. by apply Hp.
    + by apply (IH _ _ _ _ p Hrun).
Qed.

(** Which entry the session writes for the tool, from the file system it
    looks at. *)
Lemma assemble_entry h tool_path for_tests kwds l w w' a cd :
  assemble h tool_path for_tests kwds l w = (w', Ok a) ->
  l_config_directory l = PStr cd ->
  truthy (get kwds "install_galaxy" PNone) = false ->
  (stock_selected kwds = true ->
   abspath h tool_path <> abspath h (Path.join cd "resolvers_conf.xml")) ->
  abspath h tool_path <> abspath h (Path.join cd "job_metrics_conf.xml") ->
  template_args a !! "tool_definition"
  = Some (PStr (fmt1 (if isdir_in h (fs w) tool_path
                      then tool_dir_entry else tool_file_entry) tool_path)).
Proof.
  unfold assemble. intros H Hcd Hinst Hres Hmet. rewrite Hcd in H.
  apply bind_ok in H as (installed & w1 & Hi & H).
  rewrite install_galaxy_if_needed_run, Hinst in Hi. injection Hi as <- <-.
  apply bind_ok in H as (groot & w2 & [_ ->]%ret_ok & H).
  apply bind_ok in H as (kwds1 & w3 & Hdep & H).
  apply handle_dependency_resolution_ok in Hdep as [_ Hstock].
  apply (write_stock_strategies_fs _ _ _ _ _ _ _ (abspath h tool_path)) in Hstock;
    [|exact Hres|exact stock_keys_apart].
  apply bind_ok in H as (kwds2 & w4 & Hm & H).
  unfold __handle_job_metrics in Hm.
  apply bind_ok in Hm as (mp & w3' & [[= <-] ->]%lift_ok & Hm).
  apply bind_ok in Hm as ([] & w3'' & [_ ->]%write_file_ok & [_ ->]%ret_ok).
  apply bind_ok in H as (tool_definition & w5 & Htd & H).
  rewrite tool_conf_entry_for_run in Htd. injection Htd as Hw5 Htdef.
  unfold isdir_in in Htdef. cbn [fs] in Htdef.
  rewrite lookup_insert_ne, Hstock in Htdef by (intros E; by apply Hmet).
  fold (isdir_in h (fs w) tool_path) in Htdef. subst tool_definition w5.
  apply bind_ok in H as (empty_tool_conf & w6 & [[= <-] ->]%lift_ok & H).
  apply bind_ok in H as (tool_conf & w7 & [[= <-] ->]%lift_ok & H).
  apply bind_ok in H as (database_location & w8 & [[= <-] ->]%lift_ok & H).
  apply bind_ok in H as (preseeded & w9 & _ & H).
  apply bind_ok in H as (env0 & w10 & _ & H).
  apply bind_ok in H as (web_config & w11 & _ & H).
  apply bind_ok in H as (galaxy_ini & w12 & _ & H).
  apply bind_ok in H as ([] & w13 & _ & H).
  apply bind_ok in H as (tcc & w14 & _ & H).
  apply bind_ok in H as ([] & w15 & _ & H).
  apply bind_ok in H as ([] & w16 & _ & H).
  apply ret_ok in H as [<- _]. cbn [template_args].
  by destruct (make_template_args_lookup kwds2 (PStr cd) (Path.join cd "galaxy.sqlite")
                 (if isdir_in h (fs w) tool_path then tool_dir_entry else tool_file_entry)
                 tool_path (Path.join cd "tool_conf.xml"))
    as (_ & _ & _ & _ & T & _).
Qed.

(** X12: in every session that reaches its [yield], the [galaxy.ini] written
    is the server template with [str] of the port of [kwds] (9090 when
    [kwds] has no port) and the host 127.0.0.1, and the [tool_conf.xml]
    written is the toolbox template around one entry, [tool_dir] or [tool],
    that holds the tool path verbatim.  When no installation is requested
    and the tool path is none of the paths the session makes before it
    looks (the temporary directory, the resolver file of a stock strategy,
    the job metrics file), the entry is the [tool_dir] one exactly when the
    tool path is a directory in the file system the session started in. *)
Theorem generated_file_contents
    (h : host) (ctx : context) (tool_path : string) (for_tests : bool)
    (kwds : gmap string value) (w w' : world) (a : assembled) (cd : string) :
  enter h ctx tool_path for_tests kwds w = (w', Ok a) ->
  config_directory (yielded a) = PStr cd ->
  EWrite (Path.join cd "galaxy.ini")
         (galaxy_ini_contents (str (get kwds "port" (PInt 9090)))) ∈ trace w'
  /\ (EWrite (Path.join cd "tool_conf.xml")
             (tool_conf_contents ("<tool_dir dir=" +:+ dq +:+ tool_path +:+ dq +:+ " />"))
        ∈ trace w'
      \/ EWrite (Path.join cd "tool_conf.xml")
                (tool_conf_contents ("<tool file=" +:+ dq +:+ tool_path +:+ dq +:+ " />"))
           ∈ trace w')
  /\ (truthy (get kwds "install_galaxy" PNone) = false ->
      (truthy (get kwds "config_directory" PNone) = false ->
       abspath h tool_path <> abspath h cd) ->
      (stock_selected kwds = true ->
       abspath h tool_path <> abspath h (Path.join cd "resolvers_conf.xml")) ->
      abspath h tool_path <> abspath h (Path.join cd "job_metrics_conf.xml") ->
      EWrite (Path.join cd "tool_conf.xml")
             (tool_conf_contents
                (if isdir_in h (fs w) tool_path
                 then "<tool_dir dir=" +:+ dq +:+ tool_path +:+ dq +:+ " />"
                 else "<tool file=" +:+ dq +:+ tool_path +:+ dq +:+ " />"))
        ∈ trace w').
Proof.
  intros Hrun Hcd.
  pose proof Hrun as (cd' & kwds2 & tdt & td & Hcd' & Hk & _ & Hta & Htd & _)%enter_run_ok.
  rewrite Hcd in Hcd'. injection Hcd' as <-.
  destruct (make_template_args_lookup kwds2 (PStr cd) (Path.join cd "galaxy.sqlite")
              td tool_path (Path.join cd "tool_conf.xml"))
    as (Tport & Thost & _ & _ & Tdef & _).
  rewrite <- Hta in Tport, Thost, Tdef. rewrite Hk in Tport by not_in_list.
  apply enter_ok in Hrun as (l & w1 & Hsetup & Ha).
  pose proof Ha
    as (cd' & _ & _ & Hl & _ & _ & _ & _ & _ & _ & Hy & Ht & _)%assemble_run_ok.
  rewrite Hy in Hcd. injection Hcd as ->.
  rewrite Ht. unfold assemble_events.
  rewrite (web_config_contents _ _ Tport Thost).
  split; [|split].
  - rewrite !elem_of_app. do 5 right. apply list_elem_of_here.
  - rewrite (tool_conf_template_contents _ _ Tdef).
    destruct Htd as [-> | ->]; [left|right];
      rewrite !elem_of_app; do 5 right; apply elem_of_cons; right;
      apply list_elem_of_here.
  - intros Hinst Hwork Hres Hmet.
    pose proof (assemble_entry _ _ _ _ _ _ _ _ _ Ha Hl Hinst Hres Hmet) as Hentry.
    assert (Hsame : isdir_in h (fs w1) tool_path = isdir_in h (fs w) tool_path).
    { pose proof (setup_spec h ctx tool_path kwds w) as Hspec. cbv zeta in Hspec.
      rewrite Hsetup in Hspec. destruct Hspec as (_ & Hcdl & _ & w0 & Hfs & _ & Hw1).
      destruct (truthy (get kwds "config_directory" PNone)).
      - subst w1. unfold isdir_in. by rewrite Hfs.
      - rewrite Hl in Hcdl. injection Hcdl as ->. subst w1.
        unfold isdir_in. cbn [fs]. rewrite lookup_insert_ne, Hfs; [done|].
        intros E. by apply Hwork. }
    rewrite Hsame in Hentry.
    rewrite (tool_conf_template_contents _ _ Hentry).
    destruct (isdir_in h (fs w) tool_path);
      rewrite !elem_of_app; do 5 right; apply elem_of_cons; right;
      apply list_elem_of_here.
Qed.

Lemma generated_file_contents_witness :
  match enter Example.host0 Example.ctx0 "/home/u/tools" false
              {[ "port" := PInt 8080; "config_directory" := PStr "/work" ]}
              Example.world0 with
  | (w', Ok _) =>
      EWrite "/work/galaxy.ini" (galaxy_ini_contents "8080") ∈ trace w'
      /\ EWrite "/work/tool_conf.xml"
                (tool_conf_contents
                   ("<tool_dir dir=" +:+ dq +:+ "/home/u/tools" +:+ dq +:+ " />"))
           ∈ trace w'
  | (_, Raise _) => False
  end.
Proof.
  assert (Hok : is_ok (enter Example.host0 Example.ctx0 "/home/u/tools" false
                         {[ "port" := PInt 8080; "config_directory" := PStr "/work" ]}
                         Example.world0).2 = true)
    by (vm_compute; reflexivity).
  assert (Hp : match (enter Example.host0 Example.ctx0 "/home/u/tools" false
                        {[ "port" := PInt 8080; "config_directory" := PStr "/work" ]}
                        Example.world0).2 with
               | Ok a => config_directory (yielded a) = PStr "/work"
               | Raise _ => True
               end)
    by (vm_compute; reflexivity).
  assert (Hd : isdir_in Example.host0 (fs Example.world0) "/home/u/tools" = true)
    by (vm_compute; reflexivity).
  destruct (enter _ _ _ _ _ _) as [w' [a|e]] eqn:E; [|discriminate Hok].
  cbn [snd] in *.
  destruct (generated_file_contents _ _ _ _ _ _ _ _ _ E Hp) as (H1 & _ & H3).
  split; [exact H1|].
  rewrite Hd in H3. apply H3.
  - vm_compute. reflexivity.
  - intros H. vm_compute in H. discriminate H.
  - intros H. vm_compute in H. discriminate H.
  - intros H. vm_compute in H. discriminate H.
Defined.

(** ** When a session reaches its yield *)

Lemma path_option_template kwds key :
  path_option kwds key = true -> truthy (get kwds key PNone) = true ->
  is_template (get kwds key PNone) = true.
Proof.
  unfold path_option. destruct (get kwds key PNone); try done.
  - intros H1 H2. by rewrite H2 in H1.
  - intros H1 H2. by rewrite H2 in H1.
Qed.

Lemma template_path_option kwds key :
  (truthy (get kwds key PNone) = true -> is_template (get kwds key PNone) = true) ->
  path_option kwds key = true.
Proof.
  unfold path_option. destruct (get kwds key PNone) as [|b|z|s]; cbn; try done.
  - destruct b; [|done]. intros H. by specialize (H eq_refl).
  - destruct (z =? 0)%Z eqn:E; cbn; [done|]. intros H. by specialize (H eq_refl).
Qed.

Lemma make_properties_templates tc tdt etc td key value :
  is_template tdt = true -> is_template td = true ->
  make_properties tc tdt etc td !! key = Some value -> is_template value = true.
Proof.
  intros Htdt Htd Hkey. unfold make_properties in Hkey.
  apply elem_of_list_to_map_2 in Hkey.
  repeat (apply elem_of_cons in Hkey as [[= _ ->]|Hkey]; [done|]).
  by apply elem_of_nil in Hkey.
Qed.

Lemma of_option_template o : is_template (of_option o) = true.
Proof. by destruct o. Qed.

Section yield_facts.
Variable h : host.

Lemma write_stock_strategies_run cd strategies : forall kwds w,
  Forall (fun s : string * string =>
            s.1 <> "tool_dependency_dir"
            /\ s.1 <> "dependency_resolvers_config_file") strategies ->
  (existsb (fun s : string * string => truthy (get kwds s.1 PNone)) strategies = true ->
   can_write h (Path.join cd "resolvers_conf.xml") = true) ->
  is_ok (write_stock_strategies h (PStr cd) strategies kwds w).2 = true.
Proof.
  induction strategies as [|[key conf] rest IH]; intros kwds w Hkeys Hcw; [done|].
  apply Forall_cons in Hkeys as [[Hk1 Hk2] Hkeys]. cbn [fst] in *.
  cbn [write_stock_strategies]. cbn [existsb fst] in Hcw.
  destruct (truthy (get kwds key PNone)) eqn:Ht; cbn [orb] in Hcw.
  - specialize (Hcw eq_refl).
    rewrite (bind_step _ _ w w (Path.join cd "resolvers_conf.xml")) by done.
    rewrite (bind_step _ _ _ _ _ (write_file_run h _ _ _ Hcw)).
    apply IH; [done|]. by intros _.
  - by apply IH.
Qed.

Lemma final_properties_templates ft kwds2 tc tdt etc td :
  is_template tdt = true -> is_template td = true ->
  (forall key, key ∈ kwds_gx_properties -> path_option kwds2 key = true) ->
  forall key value,
    final_properties ft kwds2 tc tdt etc td !! key = Some value ->
    is_template value = true.
Proof.
  intros Htdt Htd Hopt key value. unfold final_properties.
  rewrite handle_kwd_overrides_lookup.
  destruct (bool_decide (key ∈ kwds_gx_properties)) eqn:Hin; cbn [andb].
  - apply bool_decide_eq_true in Hin.
    destruct (truthy (get kwds2 key PNone)) eqn:Ht.
    + intros [= <-]. apply path_option_template; [by apply Hopt|done].
    + destruct (negb ft).
      * destruct (decide (key = "database_connection")) as [->|Hne].
        -- rewrite lookup_insert_eq. by intros [= <-].
        -- rewrite lookup_insert_ne by done. by apply make_properties_templates.
      * by apply make_properties_templates.
  - destruct (negb ft).
    + destruct (decide (key = "database_connection")) as [->|Hne].
      * rewrite lookup_insert_eq. by intros [= <-].
      * rewrite lookup_insert_ne by done. by apply make_properties_templates.
    + by apply make_properties_templates.
Qed.

Lemma final_env_total properties template_args pre :
  (forall key value, properties !! key = Some value -> is_template value = true) ->
  is_ok (final_env properties template_args pre) = true.
Proof.
  intros Hall. unfold final_env.
  pose proof (build_env_for_galaxy_cases properties template_args) as Hc.
  destruct (__build_env_for_galaxy properties template_args) as [env0|e]; [done|].
  destruct Hc as (_ & key & value & Hkey & Hv). by rewrite (Hall _ _ Hkey) in Hv.
Qed.

(** The options of the second dictionary are strings where the first one's are. *)
Lemma overrides_after_resolution cd kwds key :
  overrides_are_strings kwds = true ->
  key ∈ kwds_gx_properties ->
  path_option
    (<["job_metrics_config_file" := PStr (Path.join cd "job_metrics_conf.xml")]>
       (if stock_selected kwds
        then <["dependency_resolvers_config_file" :=
                 PStr (Path.join cd "resolvers_conf.xml")]>
             (<["tool_dependency_dir" :=
                  PStr (Path.join "config_directory" "deps")]> kwds)
        else kwds)) key = true.
Proof.
  unfold overrides_are_strings. intros [Hjob Hrest]%andb_prop Hkey.
  unfold kwds_gx_properties in Hkey.
  apply elem_of_cons in Hkey as [->|Hkey].
  { unfold path_option in *. rewrite get_insert_ne by done.
    destruct (stock_selected kwds); [by rewrite !get_insert_ne|done]. }
  apply elem_of_cons in Hkey as [->|Hkey].
  { unfold path_option. by rewrite get_insert_eq. }
  apply elem_of_cons in Hkey as [->|Hkey].
  { unfold path_option in *. rewrite get_insert_ne by done.
    destruct (stock_selected kwds); [by rewrite get_insert_eq|].
    by apply andb_prop in Hrest as [Hr _]. }
  apply elem_of_cons in Hkey as [->|Hkey]; [|by apply elem_of_nil in Hkey].
  unfold path_option in *. rewrite get_insert_ne by done.
  destruct (stock_selected kwds); [by rewrite get_insert_ne, get_insert_eq|].
  by apply andb_prop in Hrest as [_ Hr].
Qed.

Lemma install_galaxy_if_needed_total cdv kwds w :
  exists w1, __install_galaxy_if_needed h cdv kwds w
             = (w1, Ok (truthy (get kwds "install_galaxy" PNone))).
Proof.
  rewrite install_galaxy_if_needed_run.
  destruct (truthy (get kwds "install_galaxy" PNone)); by eexists.
Qed.

Lemma fetch_total url path w :
  exists w1, try_except (urlretrieve h url path ;;; ret true) (ret false) w
             = (w1, Ok (fetch_succeeds h path)).
Proof. rewrite fetch_run. destruct (fetch_succeeds h path); by eexists. Qed.

Lemma assemble_yields tool_path for_tests kwds l w cd :
  l_config_directory l = PStr cd ->
  (selected_strategies kwds <= 1)%nat ->
  writes_permitted h cd kwds = true ->
  overrides_are_strings kwds = true ->
  is_ok (assemble h tool_path for_tests kwds l w).2 = true.
Proof.
  intros Hcd Hsel Hw Hov. unfold writes_permitted in Hw.
  apply andb_prop in Hw as [Hw Hw5]. apply andb_prop in Hw as [Hw Hw4].
  apply andb_prop in Hw as [Hw Hw3]. apply andb_prop in Hw as [Hw1 Hw2].
  unfold assemble. cbv zeta. rewrite Hcd.
  destruct (install_galaxy_if_needed_total (PStr cd) kwds w) as [w1 H1].
  rewrite (bind_step _ _ _ _ _ H1). clear H1.
  set (root := if truthy (get kwds "install_galaxy" PNone)
               then PStr (Path.join cd "galaxy-central-master") else l_galaxy_root l).
  rewrite (bind_step _ _ w1 w1 root)
    by (subst root; by destruct (truthy (get kwds "install_galaxy" PNone))).
  assert (Hdep : exists w2,
            __handle_dependency_resolution h (PStr cd) kwds w1
            = (w2, Ok (if stock_selected kwds
                       then <["dependency_resolvers_config_file" :=
                                PStr (Path.join cd "resolvers_conf.xml")]>
                            (<["tool_dependency_dir" :=
                                 PStr (Path.join "config_directory" "deps")]> kwds)
                       else kwds))).
  { unfold __handle_dependency_resolution.
    destruct (Nat.ltb_spec 1 (selected_strategies kwds)); [lia|].
    pose proof (write_stock_strategies_run cd STOCK_DEPENDENCY_RESOLUTION_STRATEGIES
                  kwds w1 stock_keys_apart) as Hrun.
    fold (stock_selected kwds) in Hrun.
    destruct (write_stock_strategies h (PStr cd) _ kwds w1) as [w2 [kwds1|e]] eqn:E.
    - exists w2. do 2 f_equal.
      apply write_stock_strategies_ok in E; [|apply stock_keys_apart].
      fold (stock_selected kwds) in E.
      destruct (stock_selected kwds); [|done].
      by destruct E as (? & [= <-] & ->).
    - exfalso. cbn [snd is_ok] in Hrun. enough (false = true) by done. apply Hrun.
      intros Hs. rewrite Hs in Hw1. exact Hw1. }
  destruct Hdep as [w2 H2]. rewrite (bind_step _ _ _ _ _ H2). clear H2.
  set (kwds1 := if stock_selected kwds then _ else kwds).
  assert (Hmet : exists w3,
            __handle_job_metrics h (PStr cd) kwds1 w2
            = (w3, Ok (<["job_metrics_config_file" :=
                           PStr (Path.join cd "job_metrics_conf.xml")]> kwds1))).
  { unfold __handle_job_metrics.
    rewrite (bind_step _ _ w2 w2 (Path.join cd "job_metrics_conf.xml")) by done.
    rewrite (bind_step _ _ _ _ _ (write_file_run h _ _ _ Hw2)). by eexists. }
  destruct Hmet as [w3 H3]. rewrite (bind_step _ _ _ _ _ H3). clear H3.
  rewrite (bind_step _ _ _ _ _ (tool_conf_entry_for_run h tool_path w3)).
  rewrite (bind_step _ _ w3 w3 (Path.join cd "empty_tool_conf.xml")) by done.
  rewrite (bind_step _ _ w3 w3 (Path.join cd "tool_conf.xml")) by done.
  rewrite (bind_step _ _ w3 w3 (Path.join cd "galaxy.sqlite")) by done.
  destruct (fetch_total DATABASE_TEMPLATE_URL (Path.join cd "galaxy.sqlite") w3) as [w4 H4].
  rewrite (bind_step _ _ _ _ _ H4). clear H4.
  match goal with
  | |- context [lift (final_env ?p ?t ?b)] =>
      pose proof (final_env_total p t b) as Henv;
      destruct (final_env p t b) as [env0|e] eqn:E
  end.
  2:{ exfalso. enough (false = true) by done. apply Henv.
      apply final_properties_templates; [apply of_option_template..|].
      intros key Hkey. by apply overrides_after_resolution. }
  clear Henv.
  rewrite (bind_step _ _ w4 w4 env0) by done.
  match goal with
  | |- context [lift (__sub (PStr WEB_SERVER_CONFIG_TEMPLATE) ?t)] =>
      rewrite (bind_step _ _ w4 w4 (Template.safe_substitute WEB_SERVER_CONFIG_TEMPLATE t))
        by done
  end.
  rewrite (bind_step _ _ w4 w4 (Path.join cd "galaxy.ini")) by done.
  rewrite (bind_step _ _ _ _ _ (write_file_run h _ _ _ Hw3)).
  match goal with
  | |- context [lift (__sub (PStr TOOL_CONF_TEMPLATE) ?t)] =>
      rewrite (bind_step _ _ _ _ (Template.safe_substitute TOOL_CONF_TEMPLATE t) eq_refl)
  end.
  rewrite (bind_step _ _ _ _ _ (write_file_run h _ _ _ Hw4)).
  rewrite (bind_step _ _ _ _ _ (write_file_run h _ _ _ Hw5)).
  done.
Qed.

Lemma path_option_of_abspath kwds key :
  (truthy (get kwds key PNone) = true ->
   is_ok (os_path_abspath h (get kwds key PNone)) = true) ->
  path_option kwds key = true.
Proof.
  unfold path_option. destruct (get kwds key PNone) as [|b|z|s]; cbn; try done.
  - destruct b; [|done]. intros H. by specialize (H eq_refl).
  - destruct (z =? 0)%Z; cbn; [done|]. intros H. by specialize (H eq_refl).
Qed.

Lemma setup_options ctx tool_path kwds w w1 l :
  setup h ctx tool_path kwds w = (w1, Ok l) ->
  path_option kwds "test_data" = true /\ path_option kwds "tool_data_table" = true.
Proof. by intros (_ & ? & ? & _)%setup_ok_inv. Qed.

End yield_facts.

(** X13: a session reaches its [yield] whenever [kwds] has none of the names
    that the calls bind themselves ([ctx], [tool_path], [for_tests], [path],
    [test_data_dir]); [test_data] and [tool_data_table] are unset, falsy or
    strings; [install_galaxy] is set or a Galaxy root is found; a working
    directory is given or the temporary one can be made; the working
    directory is a string; at most one resolution strategy is selected; the
    host lets every generated file be written; and the overrides that reach
    the property dictionary are unset, falsy or strings. *)
Theorem session_yields
    (h : host) (ctx : context) (tool_path : string) (for_tests : bool)
    (kwds : gmap string value) (w : world) (cd : string) :
  is_ok (splat reserved_names kwds) = true ->
  path_option kwds "test_data" = true ->
  path_option kwds "tool_data_table" = true ->
  truthy (get kwds "install_galaxy" PNone) = true
  \/ is_ok (find_galaxy_root_in h (fs w) ctx kwds) = true ->
  truthy (get kwds "config_directory" PNone) = true \/ mkdtemp_ok h = true ->
  working_directory h kwds = PStr cd ->
  (selected_strategies kwds <= 1)%nat ->
  writes_permitted h cd kwds = true ->
  overrides_are_strings kwds = true ->
  is_ok (enter h ctx tool_path for_tests kwds w).2 = true.
Proof.
  intros Hbound Htd Htdt Hroot Hmk Hcd Hsel Hw Hov. unfold enter.
  pose proof (setup_spec h ctx tool_path kwds w) as Hspec. cbv zeta in Hspec.
  destruct (setup h ctx tool_path kwds w) as [w1 [l|e]] eqn:Hs.
  - rewrite (bind_step _ _ _ _ _ Hs).
    destruct Hspec as (_ & Hl & _).
    apply (assemble_yields h _ _ _ _ _ cd); try done.
    by rewrite Hl.
  - exfalso.
    destruct Hspec as (_ & _ & [[_ Hb]|[[_ [Ho|Ho]]|[(Hinst & Hfind & _)|(_ & Hc & Hm & _)]]]).
    + by rewrite Hb in Hbound.
    + by rewrite Ho in Htd.
    + by rewrite Ho in Htdt.
    + destruct Hroot as [Hroot|Hroot]; [by rewrite Hroot in Hinst|].
      by rewrite Hfind in Hroot.
    + destruct Hmk as [Hmk|Hmk]; [by rewrite Hmk in Hc|by rewrite Hmk in Hm].
Qed.

Lemma session_yields_witness :
  is_ok (enter Example.host0 Example.ctx0 "cat.xml" true
           {[ "shed_brew_dependency_resolution" := PBool true;
              "tool_dependency_dir" := PInt 7 ]} Example.world0).2 = true.
Proof.
  apply (session_yields _ _ _ _ _ _ "/tmp/tmpAB").
  - vm_compute; reflexivity.
  - vm_compute; reflexivity.
  - vm_compute; reflexivity.
  - right. vm_compute. reflexivity.
  - right. vm_compute. reflexivity.
  - vm_compute; reflexivity.
  - apply Nat.leb_le. vm_compute. reflexivity.
  - vm_compute; reflexivity.
  - vm_compute; reflexivity.
Defined.

(** X14: every session that reaches its [yield] had [test_data] and
    [tool_data_table] unset, falsy or strings; had [install_galaxy] set or
    found a Galaxy root; selected at most one resolution strategy; gave
    overrides that are unset, falsy or strings where they reach the property
    dictionary; worked in a directory given as a string, the one it
    yields, in which the host let it write every file it generates; had
    none of the names [ctx], [tool_path], [for_tests], [path] and
    [test_data_dir] in [kwds]; and was given a working directory or could
    make the temporary one. *)
Theorem session_yield_requires
    (h : host) (ctx : context) (tool_path : string) (for_tests : bool)
    (kwds : gmap string value) (w w' : world) (a : assembled) :
  enter h ctx tool_path for_tests kwds w = (w', Ok a) ->
  path_option kwds "test_data" = true
  /\ path_option kwds "tool_data_table" = true
  /\ (truthy (get kwds "install_galaxy" PNone) = true
      \/ is_ok (find_galaxy_root_in h (fs w) ctx kwds) = true)
  /\ (selected_strategies kwds <= 1)%nat
  /\ overrides_are_strings kwds = true
  /\ (exists cd, working_directory h kwds = PStr cd
        /\ config_directory (yielded a) = PStr cd
        /\ writes_permitted h cd kwds = true)
  /\ is_ok (splat reserved_names kwds) = true
  /\ (truthy (get kwds "config_directory" PNone) = true \/ mkdtemp_ok h = true).
Proof.
  intros (l & w1 & Hs & Ha)%enter_ok.
  destruct (setup_ok_inv h _ _ _ _ _ _ Hs) as (Hbound & Htd & Htdt & Hmk).
  enough (Hmain :
    path_option kwds "test_data" = true
    /\ path_option kwds "tool_data_table" = true
    /\ (truthy (get kwds "install_galaxy" PNone) = true
        \/ is_ok (find_galaxy_root_in h (fs w) ctx kwds) = true)
    /\ (selected_strategies kwds <= 1)%nat
    /\ overrides_are_strings kwds = true
    /\ (exists cd, working_directory h kwds = PStr cd
          /\ config_directory (yielded a) = PStr cd
          /\ writes_permitted h cd kwds = true)).
  { destruct Hmain as (? & ? & ? & ? & ? & ?). repeat (split; [done|]).
    destruct (truthy (get kwds "config_directory" PNone)); [by left|right; by apply Hmk]. }
  pose proof (setup_spec h ctx tool_path kwds w) as Hspec. cbv zeta in Hspec.
  rewrite Hs in Hspec. destruct Hspec as (_ & Hl & Hroot & _).
  apply assemble_run_ok in Ha
    as (cd & kwds1 & td & Hcd & Hsel & Hk1 & Hp & _ & _ & Henv & Hy & _ & Hcw).
  split; [done|]. split; [done|]. split.
  { destruct (truthy (get kwds "install_galaxy" PNone)); [by left|right].
    by rewrite Hroot. }
  split; [done|].
  assert (Htempl : forall key value, properties a !! key = Some value ->
                                     is_template value = true).
  { unfold final_env in Henv.
    pose proof (build_env_for_galaxy_cases (properties a) (template_args a)) as Hc.
    destruct (__build_env_for_galaxy (properties a) (template_args a)); [|done].
    by destruct Hc. }
  assert (Hopt : forall key, key ∈ kwds_gx_properties ->
            path_option
              (<["job_metrics_config_file" :=
                   PStr (Path.join cd "job_metrics_conf.xml")]> kwds1) key = true).
  { intros key Hkey. apply template_path_option. intros Ht.
    apply (Htempl key). rewrite Hp. unfold final_properties.
    rewrite handle_kwd_overrides_lookup, Ht.
    by rewrite (bool_decide_eq_true_2 _ Hkey). }
  split.
  { unfold overrides_are_strings. apply andb_true_intro. split.
    - specialize (Hopt "job_config_file"). unfold path_option in *.
      rewrite get_insert_ne in Hopt by done. rewrite Hk1 in Hopt.
      destruct (stock_selected kwds).
      + rewrite !get_insert_ne in Hopt by done. apply Hopt. left.
      + apply Hopt. left.
    - destruct (stock_selected kwds) eqn:Hst; [done|]. cbn [orb]. subst kwds1.
      apply andb_true_intro. split.
      + specialize (Hopt "dependency_resolvers_config_file"). unfold path_option in *.
        rewrite get_insert_ne in Hopt by done. apply Hopt. do 2 right. left.
      + specialize (Hopt "tool_dependency_dir"). unfold path_option in *.
        rewrite get_insert_ne in Hopt by done. apply Hopt. do 3 right. left. }
  exists cd. split; [unfold working_directory; by rewrite <- Hl|].
  split; [by rewrite Hy|].
  unfold assemble_events in Hcw. rewrite !Forall_app in Hcw.
  destruct Hcw as (_ & Hstock & Hmet & _ & Hlast).
  apply Forall_cons in Hmet as [Hmet _].
  apply Forall_cons in Hlast as [Hini Hlast].
  apply Forall_cons in Hlast as [Htc Hlast].
  apply Forall_cons in Hlast as [Hetc _].
  unfold writes_permitted. rewrite Hmet, Hini, Htc, Hetc, !andb_true_r.
  unfold stock_selected, stock_writes, STOCK_DEPENDENCY_RESOLUTION_STRATEGIES in *.
  cbn [existsb flat_map fst snd] in *.
  destruct (truthy (get kwds "brew_dependency_resolution" PNone)).
  - apply Forall_cons in Hstock as [Hr _]. by rewrite Hr.
  - destruct (truthy (get kwds "shed_brew_dependency_resolution" PNone)); [|done].
    apply Forall_cons in Hstock as [Hr _]. by rewrite Hr.
Qed.

Lemma session_yield_requires_witness :
  overrides_are_strings
    {[ "job_config_file" := PStr "/my/job_conf.xml" ]} = true.
Proof.
  assert (Hok : is_ok (enter Example.host0 Example.ctx0 "cat.xml" false
                         {[ "job_config_file" := PStr "/my/job_conf.xml" ]}
                         Example.world0).2 = true)
    by (vm_compute; reflexivity).
  destruct (enter _ _ _ _ _ _) as [w' [a|e]] eqn:E; [|discriminate Hok].
  by destruct (session_yield_requires _ _ _ _ _ _ _ _ E) as (_ & _ & _ & _ & H & _).
Defined.

(** ** The generated files in the environment *)

Lemma no_dollar_app s t : no_dollar (s +:+ t) = no_dollar s && no_dollar t.
Proof.
  induction s as [|c s IH]; [done|].
  rewrite str_app_cons. cbn [no_dollar]. by rewrite IH, andb_assoc.
Qed.

Lemma no_dollar_join a b :
  no_dollar a = true -> no_dollar b = true -> no_dollar (Path.join a b) = true.
Proof.
  intros Ha Hb. unfold Path.join.
  destruct (startswith "/" b); [done|].
  destruct (_ || _); rewrite !no_dollar_app, ?Ha, ?Hb; done.
Qed.

(** X15: in every session that reaches its [yield] in the directory [cd], the
    legacy test variables name the [tool_conf.xml] and [empty_tool_conf.xml]
    of [cd]; the override of [tool_config_file] is that path after one
    substitution; and when [cd] has no [$] the overrides of
    [tool_config_file], [migrated_tools_config] and
    [job_metrics_config_file] are the paths of the files written. *)
Theorem env_names_generated_files
    (h : host) (ctx : context) (tool_path : string) (for_tests : bool)
    (kwds : gmap string value) (w w' : world) (a : assembled) (cd : string) :
  enter h ctx tool_path for_tests kwds w = (w', Ok a) ->
  config_directory (yielded a) = PStr cd ->
  let e := env (yielded a) in
  e !! "GALAXY_TEST_TOOL_CONF" = Some (PStr (Path.join cd "tool_conf.xml"))
  /\ e !! "GALAXY_TEST_MIGRATED_TOOL_CONF" = Some (PStr (Path.join cd "empty_tool_conf.xml"))
  /\ e !! "GALAXY_TEST_SHED_TOOL_CONF" = Some (PStr (Path.join cd "empty_tool_conf.xml"))
  /\ e !! "GALAXY_CONFIG_OVERRIDE_TOOL_CONFIG_FILE"
     = Some (PStr (Template.safe_substitute (Path.join cd "tool_conf.xml") (template_args a)))
  /\ (no_dollar cd = true ->
      e !! "GALAXY_CONFIG_OVERRIDE_TOOL_CONFIG_FILE"
      = Some (PStr (Path.join cd "tool_conf.xml"))
      /\ e !! "GALAXY_CONFIG_OVERRIDE_MIGRATED_TOOLS_CONFIG"
         = Some (PStr (Path.join cd "empty_tool_conf.xml"))
      /\ e !! "GALAXY_CONFIG_OVERRIDE_JOB_METRICS_CONFIG_FILE"
         = Some (PStr (Path.join cd "job_metrics_conf.xml"))).
Proof.
  intros Hrun Hcd e.
  pose proof Hrun as (l & w1 & _ & Ha)%enter_ok.
  apply assemble_run_ok in Ha
    as (cd' & kwds1 & td & _ & _ & _ & Hp & _ & _ & Henv & Hy & _).
  rewrite Hy in Hcd. injection Hcd as ->.
  set (kwds2 := <["job_metrics_config_file" :=
                    PStr (Path.join cd "job_metrics_conf.xml")]> kwds1) in *.
  destruct (make_properties_lookup (Path.join cd "tool_conf.xml")
              (of_option (l_tool_data_table l))
              (Path.join cd "empty_tool_conf.xml") (of_option (l_test_data_dir l)))
    as (_ & _ & _ & _ & _ & _ & _ & _ & _ & _ & _ & Ptc & Petc & _).
  rewrite <- (final_properties_literal for_tests kwds2), <- Hp in Ptc, Petc
    by (not_in_list || done).
  assert (Pjm : properties a !! "job_metrics_config_file"
                = Some (PStr (Path.join cd "job_metrics_conf.xml"))).
  { rewrite Hp. unfold final_properties.
    rewrite handle_kwd_overrides_lookup. subst kwds2. rewrite get_insert_eq.
    rewrite bool_decide_eq_true_2 by (right; left).
    cbn [andb truthy].
    assert (Hne : Path.join cd "job_metrics_conf.xml" <> "") by (by apply join_nonempty).
    apply String.eqb_neq in Hne. by rewrite Hne. }
  apply final_env_ok in Henv as [_ Halias]; [|rewrite Hp; apply final_properties_keys].
  pose proof (Halias "GALAXY_TEST_TOOL_CONF" "tool_config_file") as Ha1.
  pose proof (Halias "GALAXY_TEST_MIGRATED_TOOL_CONF" "migrated_tools_config") as Ha2.
  pose proof (Halias "GALAXY_TEST_SHED_TOOL_CONF" "migrated_tools_config") as Ha3.
  rewrite Ptc in Ha1. rewrite Petc in Ha2, Ha3.
  destruct (enter_exports _ _ _ _ _ _ _ _ _ _ Hrun Ptc) as (s1 & Hs1 & He1).
  destruct (enter_exports _ _ _ _ _ _ _ _ _ _ Hrun Petc) as (s2 & Hs2 & He2).
  destruct (enter_exports _ _ _ _ _ _ _ _ _ _ Hrun Pjm) as (s3 & Hs3 & He3).
  cbn [__sub] in Hs1, Hs2, Hs3.
  injection Hs1 as <-. injection Hs2 as <-. injection Hs3 as <-.
  split; [apply Ha1; unfold test_property_variants; do 2 right; left|].
  split; [apply Ha2; unfold test_property_variants; left|].
  split; [apply Ha3; unfold test_property_variants; right; left|].
  split; [exact He1|].
  intros Hnd.
  rewrite safe_substitute_no_dollar in He1, He2, He3 by (by apply no_dollar_join).
  by repeat split.
Qed.

Lemma env_names_generated_files_witness :
  match (enter Example.host0 Example.ctx0 "cat.xml" false ∅ Example.world0).2 with
  | Ok a =>
      env (yielded a) !! "GALAXY_CONFIG_OVERRIDE_TOOL_CONFIG_FILE"
      = Some (PStr "/tmp/tmpAB/tool_conf.xml")
  | Raise _ => False
  end.
Proof.
  assert (Hok : is_ok (enter Example.host0 Example.ctx0 "cat.xml" false ∅
                         Example.world0).2 = true)
    by (vm_compute; reflexivity).
  assert (Hp : match (enter Example.host0 Example.ctx0 "cat.xml" false ∅
                        Example.world0).2 with
               | Ok a => config_directory (yielded a) = PStr "/tmp/tmpAB"
               | Raise _ => True
               end)
    by (vm_compute; reflexivity).
  destruct (enter _ _ _ _ _ _) as [w' [a|e]] eqn:E; [|discriminate Hok].
  cbn [snd] in *.
  destruct (env_names_generated_files _ _ _ _ _ _ _ _ _ E Hp) as (_ & _ & _ & _ & H).
  exact (proj1 (H eq_refl)).
Defined.

(** X16: in every session that reaches its [yield], two different properties
    are exported under two different override names. *)
Theorem override_names_distinct
    (h : host) (ctx : context) (tool_path : string) (for_tests : bool)
    (kwds : gmap string value) (w w' : world) (a : assembled) (key key' : string) :
  enter h ctx tool_path for_tests kwds w = (w', Ok a) ->
  is_Some (properties a !! key) -> is_Some (properties a !! key') ->
  key <> key' ->
  "GALAXY_CONFIG_OVERRIDE_" +:+ upper key <> "GALAXY_CONFIG_OVERRIDE_" +:+ upper key'.
Proof.
  intros (cd & kwds2 & tdt & td & _ & _ & Hp & _)%enter_run_ok Hk Hk' Hne Heq.
  rewrite Hp in Hk, Hk'.
  apply final_properties_keys in Hk, Hk'.
  by apply Hne, override_var_inj.
Qed.

Lemma override_names_distinct_witness :
  "GALAXY_CONFIG_OVERRIDE_" +:+ upper "file_path"
  <> "GALAXY_CONFIG_OVERRIDE_" +:+ upper "new_file_path".
Proof.
  assert (Hok : is_ok (enter Example.host0 Example.ctx0 "cat.xml" false ∅
                         Example.world0).2 = true)
    by (vm_compute; reflexivity).
  assert (Hp : match (enter Example.host0 Example.ctx0 "cat.xml" false ∅
                        Example.world0).2 with
               | Ok a => is_Some (properties a !! "file_path")
                         /\ is_Some (properties a !! "new_file_path")
               | Raise _ => True
               end)
    by (vm_compute; split; eexists; reflexivity).
  destruct (enter _ _ _ _ _ _) as [w' [a|e]] eqn:E; [|discriminate Hok].
  cbn [snd] in *. destruct Hp as [Hp1 Hp2].
  apply (override_names_distinct _ _ _ _ _ _ _ _ _ _ E Hp1 Hp2). discriminate.
Defined.

(** ** The tool data table *)

Section table_facts.
Variable h : host.

Lemma find_tool_data_table_run path td kwds w :
  truthy (get kwds "tool_data_table" PNone) = false ->
  td <> Some "" ->
  __find_tool_data_table h path td kwds w
  = (w, Ok (search_tool_path_in h (fs w) path "tool_data_table_conf.xml.test"
              (match td with Some d => [d] | None => [] end))).
Proof.
  intros Ht Htd. unfold __find_tool_data_table. rewrite Ht.
  destruct td as [d|]; [|done].
  assert (truthy (PStr d) = true) as ->; [|done].
  cbn [truthy]. apply negb_true_iff, String.eqb_neq. congruence.
Qed.

Lemma setup_tool_data_table ctx tool_path kwds w w1 l :
  setup h ctx tool_path kwds w = (w1, Ok l) ->
  l_test_data_dir l <> Some ""
  /\ exists w0, fs w0 = fs w
       /\ __find_tool_data_table h tool_path (l_test_data_dir l) kwds w0
          = (w0, Ok (l_tool_data_table l)).
Proof.
  intros H. pose proof (setup_ok_inv _ _ _ _ _ _ _ H) as (Hbound & _).
  rewrite setup_bound in H by done.
  apply bind_ok in H as (td & w2 & Htd & H).
  apply bind_ok in H as (tdt & w3 & Htdt & H).
  pose proof (find_tool_data_table_spec h tool_path td kwds w2) as [Hw3 _].
  rewrite Htdt in Hw3. cbn [fst] in Hw3. subst w3.
  apply bind_ok in H as (root & w4 & _ & H). cbv zeta in H.
  assert (Hl : l_test_data_dir l = td /\ l_tool_data_table l = tdt).
  { destruct (negb _).
    - by apply bind_ok in H as (cd & w5 & _ & [<- _]%ret_ok).
    - by apply ret_ok in H as [<- _]. }
  destruct Hl as [-> ->]. split.
  - rewrite find_test_data_run in Htd.
    destruct (truthy (get kwds "test_data" PNone)).
    + injection Htd as _ Htd.
      destruct (get kwds "test_data" PNone) as [| | |s]; try done.
      cbn [os_path_abspath] in Htd. injection Htd as <-.
      intros [= E]. by apply (abspath_nonempty h s).
    + unfold search_tool_path_in in Htd.
      destruct (search_dirs h (fs w) "test-data" _) as [p|] eqn:Hs.
      * injection Htd as _ <-. apply search_dirs_nonempty in Hs.
        intros [= ->]. done.
      * by injection Htd as _ <-.
  - exists w2. split; [|done].
    pose proof (find_test_data_spec h tool_path kwds w) as [Hfs _].
    by rewrite Htd in Hfs.
Qed.

End table_facts.

(** X17: in every session that reaches its [yield], the tool data table is the
    absolute path of the [tool_data_table] given, or else what the search
    for [tool_data_table_conf.xml.test] finds next to the tool, in the
    current directory and then in the test-data directory the session
    yields; it is the property [tool_data_table_config_path], and its
    override is that path after one substitution, or the empty string when
    there is none. *)
Theorem tool_data_table_reaches_env
    (h : host) (ctx : context) (tool_path : string) (for_tests : bool)
    (kwds : gmap string value) (w w' : world) (a : assembled) :
  enter h ctx tool_path for_tests kwds w = (w', Ok a) ->
  exists table : option string,
    (if truthy (get kwds "tool_data_table" PNone)
     then exists p, os_path_abspath h (get kwds "tool_data_table" PNone) = Ok p
                    /\ table = Some p
     else table
          = search_tool_path_in h (fs w) tool_path "tool_data_table_conf.xml.test"
              (match test_data_dir (yielded a) with
               | PStr d => [d]
               | _ => []
               end))
    /\ properties a !! "tool_data_table_config_path" = Some (of_option table)
    /\ env (yielded a) !! "GALAXY_CONFIG_OVERRIDE_TOOL_DATA_TABLE_CONFIG_PATH"
       = Some (PStr (match table with
                     | Some p => Template.safe_substitute p (template_args a)
                     | None => ""
                     end)).
Proof.
  intros Hrun.
  pose proof Hrun as (l & w1 & Hsetup & Ha)%enter_ok.
  destruct (setup_tool_data_table h _ _ _ _ _ _ Hsetup) as (Htd & w0 & Hfs & Htable).
  apply assemble_run_ok in Ha
    as (cd & kwds1 & td & _ & _ & _ & Hp & _ & _ & _ & Hy & _).
  exists (l_tool_data_table l).
  assert (Hprop : properties a !! "tool_data_table_config_path"
                  = Some (of_option (l_tool_data_table l))).
  { rewrite Hp, final_properties_literal by (not_in_list || done).
    by destruct (make_properties_lookup (Path.join cd "tool_conf.xml")
                   (of_option (l_tool_data_table l))
                   (Path.join cd "empty_tool_conf.xml") (of_option (l_test_data_dir l)))
      as (_ & _ & _ & _ & _ & _ & _ & _ & _ & _ & _ & _ & _ & P & _). }
  split; [|split; [done|]].
  - destruct (truthy (get kwds "tool_data_table" PNone)) eqn:Ht.
    + unfold __find_tool_data_table in Htable. rewrite Ht in Htable.
      apply bind_ok in Htable as (p & ? & [Hp' _]%lift_ok & [Hr _]%ret_ok).
      exists p. by split.
    + rewrite find_tool_data_table_run in Htable by done.
      injection Htable as <-. rewrite Hfs, Hy. cbn [test_data_dir].
      by destruct (l_test_data_dir l).
  - destruct (enter_exports _ _ _ _ _ _ _ _ _ _ Hrun Hprop) as (s & Hs & He).
    destruct (l_tool_data_table l); cbn [of_option __sub] in Hs;
      injection Hs as <-; exact He.
Qed.

Lemma tool_data_table_reaches_env_witness :
  match (enter Example.host0 Example.ctx0 "cat.xml" false ∅ Example.world0).2 with
  | Ok a =>
      env (yielded a) !! "GALAXY_CONFIG_OVERRIDE_TOOL_DATA_TABLE_CONFIG_PATH"
      = Some (PStr "")
  | Raise _ => False
  end.
Proof.
  assert (Hok : is_ok (enter Example.host0 Example.ctx0 "cat.xml" false ∅
                         Example.world0).2 = true)
    by (vm_compute; reflexivity).
  assert (Hp : match (enter Example.host0 Example.ctx0 "cat.xml" false ∅
                        Example.world0).2 with
               | Ok a => properties a !! "tool_data_table_config_path" = Some PNone
               | Raise _ => True
               end)
    by (vm_compute; reflexivity).
  destruct (enter _ _ _ _ _ _) as [w' [a|e]] eqn:E; [|discriminate Hok].
  cbn [snd] in *.
  destruct (tool_data_table_reaches_env _ _ _ _ _ _ _ _ E) as (table & _ & Hprop & He).
  rewrite Hp in Hprop. destruct table; [discriminate Hprop|]. exact He.
Defined.

(** ** How a session fails *)

Lemma bind_raise_inv {A B} (m : M A) (k : A -> M B) w w' e :
  bind m k w = (w', Raise e) ->
  m w = (w', Raise e) \/ exists a w1, m w = (w1, Ok a) /\ k a w1 = (w', Raise e).
Proof.
  unfold bind. destruct (m w) as [w1 [a|e']].
  - intros H. right. by exists a, w1.
  - intros [= <- <-]. by left.
Qed.

Section error_facts.
Variable h : host.

Lemma write_file_raise path content w w' e :
  write_file h path content w = (w', Raise e) ->
  e = IOError path /\ can_write h path = false.
Proof.
  unfold write_file. destruct (can_write h path); [done|]. by intros [= _ <-].
Qed.

Lemma config_join_raise kwds b e :
  os_path_join (working_directory h kwds) b = Raise e ->
  e = AttributeError /\ path_option kwds "config_directory" = false.
Proof.
  unfold working_directory, path_option.
  destruct (truthy (get kwds "config_directory" PNone)) eqn:Ht; [|done].
  destruct (get kwds "config_directory" PNone); try done;
    cbn [os_path_join]; intros [= <-]; by rewrite Ht.
Qed.

Lemma write_stock_strategies_raise kwds0 strategies : forall kwds w w' e,
  write_stock_strategies h (working_directory h kwds0) strategies kwds w = (w', Raise e) ->
  (e = AttributeError /\ path_option kwds0 "config_directory" = false)
  \/ exists path, e = IOError path /\ can_write h path = false.
Proof.
  induction strategies as [|[key conf] rest IH]; intros kwds w w' e Hrun; [done|].
  cbn [write_stock_strategies] in Hrun.
  destruct (truthy (get kwds key PNone)); [|by eapply IH].
  apply bind_raise_inv in Hrun as [Hrun|(p & w1 & _ & Hrun)].
  { left. unfold lift in Hrun. injection Hrun as _ Hrun. by apply config_join_raise in Hrun. }
  apply bind_raise_inv in Hrun as [Hrun|([] & w2 & _ & Hrun)].
  { right. exists p. by apply write_file_raise in Hrun. }
  by eapply IH.
Qed.

Lemma usage_message :
  fmt1 "At most one option from [%s] may be specified"
    "['brew_dependency_resolution', 'dependency_resolvers_config_file', 'shed_brew_dependency_resolution']"
  = "At most one option from [['brew_dependency_resolution', 'dependency_resolvers_config_file', 'shed_brew_dependency_resolution']] may be specified".
Proof. vm_compute. reflexivity. Qed.

(** How the body of the [try] fails. *)
Lemma assemble_raise tool_path for_tests kwds l w w' e :
  l_config_directory l = working_directory h kwds ->
  assemble h tool_path for_tests kwds l w = (w', Raise e) ->
  match e with
  | AttributeError => path_option kwds "config_directory" = false
  | UsageError msg =>
      msg = "At most one option from [['brew_dependency_resolution', 'dependency_resolvers_config_file', 'shed_brew_dependency_resolution']] may be specified"
      /\ (1 < selected_strategies kwds)%nat
  | IOError path => can_write h path = false
  | TypeError => overrides_are_strings kwds = false
  | _ => False
  end.
Proof.
  intros Hl H. unfold assemble in H. cbv zeta in H. rewrite Hl in H.
  apply bind_raise_inv in H as [H|(installed & w1 & _ & H)].
  { rewrite install_galaxy_if_needed_run in H. by destruct (truthy _). }
  apply bind_raise_inv in H as [H|(root & w2 & _ & H)].
  { destruct installed; [|done].
    apply bind_raise_inv in H as [H|(p & ? & _ & H)]; [|done].
    unfold lift in H. injection H as _ H. by apply config_join_raise in H as [-> ?]. }
  apply bind_raise_inv in H as [H|(kwds1 & w3 & Hdep & H)].
  { unfold __handle_dependency_resolution in H.
    destruct (Nat.ltb_spec 1 (selected_strategies kwds)).
    - unfold raise in H. injection H as _ <-. split; [exact usage_message|done].
    - apply write_stock_strategies_raise in H as [[-> ?]|(p & -> & ?)]; done. }
  apply handle_dependency_resolution_ok in Hdep as [Hsel Hstock].
  apply bind_raise_inv in H as [H|(kwds2 & w4 & Hmet & H)].
  { unfold __handle_job_metrics in H.
    apply bind_raise_inv in H as [H|(p & ? & _ & H)].
    { unfold lift in H. injection H as _ H. by apply config_join_raise in H as [-> ?]. }
    apply bind_raise_inv in H as [H|([] & ? & _ & H)]; [|done].
    by apply write_file_raise in H as [-> ?]. }
  apply handle_job_metrics_ok in Hmet as (cd & Hcd & ->).
  rewrite Hcd in *.
  apply write_stock_strategies_ok in Hstock; [|apply stock_keys_apart].
  fold (stock_selected kwds) in Hstock.
  assert (Hk1 : kwds1 = if stock_selected kwds
                        then <["dependency_resolvers_config_file" :=
                                 PStr (Path.join cd "resolvers_conf.xml")]>
                             (<["tool_dependency_dir" :=
                                  PStr (Path.join "config_directory" "deps")]> kwds)
                        else kwds).
  { destruct (stock_selected kwds); [|done]. by destruct Hstock as (? & [= <-] & ->). }
  clear Hstock.
  apply bind_raise_inv in H as [H|(td & w5 & _ & H)]; [done|].
  apply bind_raise_inv in H as [H|(etc & w6 & [[= <-] _]%lift_ok & H)]; [done|].
  apply bind_raise_inv in H as [H|(tc & w7 & [[= <-] _]%lift_ok & H)]; [done|].
  apply bind_raise_inv in H as [H|(db & w8 & [[= <-] _]%lift_ok & H)]; [done|].
  apply bind_raise_inv in H as [H|(pre & w9 & _ & H)].
  { rewrite fetch_run in H. by destruct (fetch_succeeds _ _). }
  apply bind_raise_inv in H as [H|(env0 & w10 & _ & H)].
  { unfold lift in H. injection H as _ H. unfold final_env in H.
    match type of H with
    | context [__build_env_for_galaxy ?p ?t] =>
        pose proof (build_env_for_galaxy_cases p t) as Hc;
        destruct (__build_env_for_galaxy p t) as [?|e0]; [done|]
    end.
    injection H as <-. destruct Hc as (-> & key & value & Hkey & Hv).
    destruct (overrides_are_strings kwds) eqn:Hov; [|done].
    apply final_properties_templates in Hkey; [congruence|apply of_option_template..|].
    intros k Hk. rewrite Hk1. by apply overrides_after_resolution. }
  apply bind_raise_inv in H as [H|(web & w11 & _ & H)]; [done|].
  apply bind_raise_inv in H as [H|(ini & w12 & _ & H)]; [done|].
  apply bind_raise_inv in H as [H|([] & w13 & _ & H)].
  { by apply write_file_raise in H as [-> ?]. }
  apply bind_raise_inv in H as [H|(tcc & w14 & _ & H)]; [done|].
  apply bind_raise_inv in H as [H|([] & w15 & _ & H)].
  { by apply write_file_raise in H as [-> ?]. }
  apply bind_raise_inv in H as [H|([] & w16 & _ & H)]; [|done].
  by apply write_file_raise in H as [-> ?].
Qed.

End error_facts.

(** X18: a session that fails before its [yield] fails with [TypeError] only
    if [kwds] holds one of the names that the calls bind themselves
    ([ctx], [tool_path], [for_tests], [path], [test_data_dir]) or an
    override that reaches the property dictionary is truthy and not a
    string; with [AttributeError] only if [test_data], [tool_data_table] or
    [config_directory] is truthy and not a string; with the missing-root
    exception only if [install_galaxy] is unset and the search for a root
    failed; with [OSError] only if no working directory was given and the
    temporary one could not be made; with [UsageError], whose message lists
    the three options, only if more than one strategy is selected; with
    [IOError] only on a path the host refuses to write; and never with
    [KeyError]. *)
Theorem session_errors
    (h : host) (ctx : context) (tool_path : string) (for_tests : bool)
    (kwds : gmap string value) (w w' : world) (e : exn) :
  enter h ctx tool_path for_tests kwds w = (w', Raise e) ->
  error_cause h ctx kwds w e.
Proof.
  unfold enter. intros H.
  pose proof (setup_spec h ctx tool_path kwds w) as Hspec. cbv zeta in Hspec.
  apply bind_raise_inv in H as [H|(l & w1 & Hs & H)].
  - rewrite H in Hspec.
    destruct Hspec
      as (_ & _ & [[-> Hb]|[[-> Ho]|[(Hinst & Hfind & _)|(-> & Hc & Hm & _)]]]).
    + cbn. by left.
    + cbn. destruct Ho; [by left|by right; left].
    + pose proof (find_galaxy_root_in_raise _ _ _ _ _ Hfind) as ->. by cbn.
    + by cbn.
  - rewrite Hs in Hspec. destruct Hspec as (_ & Hl & _).
    apply assemble_raise in H; [|done].
    destruct e; cbn; try done.
    + by do 2 right.
    + by right.
Qed.

Lemma session_errors_witness :
  error_cause Example.host0 Example.ctx0 {[ "path" := PStr "tools" ]}
    Example.world0 TypeError
  /\ overrides_are_strings {[ "job_config_file" := PInt 3 ]} = false.
Proof.
  split.
  - assert (Herr : (enter Example.host0 Example.ctx0 "cat.xml" false
                      {[ "path" := PStr "tools" ]} Example.world0).2
                   = Raise TypeError)
      by (vm_compute; reflexivity).
    destruct (enter _ _ _ _ _ _) as [w' r] eqn:E. cbn [snd] in Herr. subst r.
    exact (session_errors _ _ _ _ _ _ _ _ E).
  - assert (Herr : (enter Example.host0 Example.ctx0 "cat.xml" false
                      {[ "job_config_file" := PInt 3 ]} Example.world0).2
                   = Raise TypeError)
      by (vm_compute; reflexivity).
    assert (Hb : is_ok (splat reserved_names
                          ({[ "job_config_file" := PInt 3 ]} : gmap string value)) = true)
      by (vm_compute; reflexivity).
    destruct (enter _ _ _ _ _ _) as [w' r] eqn:E. cbn [snd] in Herr. subst r.
    destruct (session_errors _ _ _ _ _ _ _ _ E) as [H|H]; [|exact H].
    rewrite Hb in H. discriminate H.
Defined.
